(** * The scheduling service of daily-task-app (src/services/openai.ts)

    A shallow embedding of the request layer: the rate limiter, the prompt,
    the validation of the model's reply, the 12-hour conversion, the sort
    and the retry loop with its backoff.

    Conventions of the embedding.
    - A JavaScript string is a [string]; each [ascii] stands for one UTF-16
      code unit below 256.
    - [Date.now()] and timer delays are integers ([Z], milliseconds).
    - A [throw] is the [Throw] completion; [await] is sequencing in an
      explicit state ([World]) that holds the clock, the rate limiter's
      array, the caller's task array and the log of effects.  One call runs
      at a time: nothing else touches the state while it is suspended.
      (Calls that overlap are the subject of [Others], further down, and of
      the functions named after it.)
    - What the environment does is the record [Env]: the model's replies,
      and how late each timer fires.  A timer asked for [d] milliseconds
      resumes [max 0 d] milliseconds later plus its lag (delays stay below
      the 2^31 ms that timers take).
    - What the JavaScript runtime supplies to the code ([JSON.parse], the
      numbers it produces) is the class [Runtime].
    - The two recursions that the source does not bound syntactically, the
      loop of [planTasks] and [waitForSlot] calling itself, take a [fuel];
      [None] means that it ran out, and the theorems give the fuel that is
      enough. *)

From Stdlib Require Import String Ascii List ZArith Lia Bool Arith PeanoNat.
From Stdlib Require Import Sorting.Permutation Sorting.Sorted.
From Stdlib Require DecimalString.
Import ListNotations.

Local Open Scope list_scope.
Local Open Scope string_scope.

(** ** Completions: a value or a thrown error *)

(** What a [catch] clause can receive: an instance of the class
    [GeminiError] (message, optional code, retry flag; line 49) or any other
    thrown value, of which only a name and a message are kept. *)
Inductive Thrown : Type :=
| GeminiError (message : string) (code : option string) (isRetryable : bool)
| OtherError (name message : string).

Inductive Completion (A : Type) : Type :=
| Normal (value : A)
| Throw (error : Thrown).
Arguments Normal {A} value.
Arguments Throw {A} error.

Definition bindC {A B : Type} (c : Completion A) (k : A -> Completion B)
  : Completion B :=
  match c with
  | Normal a => k a
  | Throw e => Throw e
  end.

(** [array.map(f)] with a callback that may throw: left to right, the first
    throw leaves the whole call. *)
Fixpoint mapC {A B : Type} (f : A -> Completion B) (l : list A)
  : Completion (list B) :=
  match l with
  | [] => Normal []
  | x :: rest =>
      bindC (f x) (fun y => bindC (mapC f rest) (fun ys => Normal (y :: ys)))
  end.

(** [new GeminiError(message, code)]: the constructor's third parameter
    defaults to [true] (line 53). *)
Definition newGeminiError (message : string) (code : string) : Thrown :=
  GeminiError message (Some code) true.

(** ** Strings *)

Module Str.

Definition code (c : ascii) : nat := nat_of_ascii c.

(** [c] lies in the character range [lo-hi]. *)
Definition inRange (lo hi c : ascii) : bool :=
  (code lo <=? code c)%nat && (code c <=? code hi)%nat.

Definition isDigit (c : ascii) : bool := inRange "0" "9" c.

(** White space and line terminators among the code units below 256
    (TAB, LF, VT, FF, CR, SP, NBSP), as [String.prototype.trim] strips them. *)
Definition isSpace (c : ascii) : bool :=
  let n := code c in
  ((9 <=? n) && (n <=? 13) || (n =? 32) || (n =? 160))%nat.

Fixpoint trimStart (s : string) : string :=
  match s with
  | String c rest => if isSpace c then trimStart rest else s
  | EmptyString => EmptyString
  end.

Fixpoint rev_acc (s acc : string) : string :=
  match s with
  | String c rest => rev_acc rest (String c acc)
  | EmptyString => acc
  end.

Definition rev (s : string) : string := rev_acc s EmptyString.

Definition trim (s : string) : string := rev (trimStart (rev (trimStart s))).

(** [s.split(sep)] for a separator of one character: never the empty
    list. *)
Fixpoint split (sep : ascii) (s : string) : list string :=
  match s with
  | EmptyString => [EmptyString]
  | String c rest =>
      if Ascii.eqb c sep then EmptyString :: split sep rest
      else match split sep rest with
           | part :: parts => String c part :: parts
           | [] => [String c EmptyString]
           end
  end.

(** [parts.join(sep)]. *)
Fixpoint join (sep : string) (parts : list string) : string :=
  match parts with
  | [] => EmptyString
  | [p] => p
  | p :: rest => p ++ sep ++ join sep rest
  end.

(** [s.replace(/pat/g, '')] for a literal pattern: every occurrence, found
    left to right and not overlapping, is removed.  [skip] counts the
    characters of an occurrence still to drop. *)
Fixpoint removeAll_from (pat : string) (skip : nat) (s : string) : string :=
  match s with
  | EmptyString => EmptyString
  | String c rest =>
      match skip with
      | S k => removeAll_from pat k rest
      | O =>
          if (prefix pat s && negb (String.length pat =? 0)%nat)%bool
          then removeAll_from pat (String.length pat - 1) rest
          else String c (removeAll_from pat 0 rest)
      end
  end.

Definition removeAll (pat s : string) : string := removeAll_from pat 0 s.

(** [s.padStart(2, '0')]. *)
Definition padStart2 (s : string) : string :=
  match String.length s with
  | 0%nat => "00"
  | 1%nat => "0" ++ s
  | _ => s
  end.

Definition isEmpty (s : string) : bool :=
  match s with EmptyString => true | _ => false end.

(** [sep] does not occur in [s]. *)
Fixpoint lacks (sep : ascii) (s : string) : bool :=
  match s with
  | EmptyString => true
  | String c rest => negb (Ascii.eqb c sep) && lacks sep rest
  end.

End Str.

(** ** Numbers of the code's own arithmetic *)

(** The numbers [convertTo12Hour] and the sort comparator compute with come
    from [Number] applied to the pieces of a time string: integers, or NaN. *)
Inductive num : Type :=
| NaN
| Int (z : Z).

Module Num.

Definition digitValue (c : ascii) : Z := Z.of_nat (Str.code c) - 48.

Definition digitsValue (s : string) : Z :=
  fold_left (fun acc c => 10 * acc + digitValue c)%Z (list_ascii_of_string s) 0%Z.

Definition allDigits (s : string) : bool :=
  forallb Str.isDigit (list_ascii_of_string s).

(** [Number(s)] on a string: white space is trimmed, the empty string is 0,
    a run of decimal digits is its value.  Every other string is given NaN
    here; JavaScript gives some of them a value (signs, fractions,
    exponents, radix prefixes, Infinity), and the value of a very long run
    of digits is rounded to a double.  Lemma [timeRegex_shape] shows that
    the code only passes runs of one or two digits. *)
Definition Number (s : string) : num :=
  let t := Str.trim s in
  if Str.isEmpty t then Int 0
  else if allDigits t then Int (digitsValue t)
  else NaN.

(** [x >= y]: false when an operand is NaN. *)
Definition ge (x : num) (y : Z) : bool :=
  match x with
  | Int z => (y <=? z)%Z
  | NaN => false
  end.

(** [x % y]: the sign of the result is the sign of the dividend. *)
Definition rem (x : num) (y : Z) : num :=
  match x with
  | Int z => if (y =? 0)%Z then NaN else Int (Z.rem z y)
  | NaN => NaN
  end.

(** [x || y] on numbers: 0 and NaN are falsy. *)
Definition orElse (x : num) (y : Z) : num :=
  match x with
  | Int 0 => Int y
  | Int z => Int z
  | NaN => Int y
  end.

(** [x * 60 + y] and [x - y]. *)
Definition mulAdd (x : num) (k : Z) (y : num) : num :=
  match x, y with
  | Int a, Int b => Int (a * k + b)
  | _, _ => NaN
  end.

Definition sub (x y : num) : num :=
  match x, y with
  | Int a, Int b => Int (a - b)
  | _, _ => NaN
  end.

(** Decimal text of an integer, as [toString] and template literals print
    integers below 10^21. *)
Definition showZ (z : Z) : string :=
  DecimalString.NilZero.string_of_int (Z.to_int z).

Definition toString (x : num) : string :=
  match x with
  | Int z => showZ z
  | NaN => "NaN"
  end.

End Num.

(** ** Regular expressions without repetition *)

Inductive regex : Type :=
| Char (c : ascii)
| Class (lo hi : ascii)
| Seq (r1 r2 : regex)
| Alt (r1 r2 : regex)
| Opt (r : regex).

(** Backtracking matcher with a continuation, as ECMAScript defines
    matching: [matchK r s k] matches [r] at the start of [s] and hands the
    rest to [k]. *)
Fixpoint matchK (r : regex) (s : string) (k : string -> bool) : bool :=
  match r with
  | Char c =>
      match s with
      | String x rest => Ascii.eqb x c && k rest
      | EmptyString => false
      end
  | Class lo hi =>
      match s with
      | String x rest => Str.inRange lo hi x && k rest
      | EmptyString => false
      end
  | Seq r1 r2 => matchK r1 s (fun rest => matchK r2 rest k)
  | Alt r1 r2 => matchK r1 s k || matchK r2 s k
  | Opt r1 => matchK r1 s k || k s
  end.

(** [/^r$/.test(s)]: without the [m] flag the anchors are the two ends of
    the input. *)
Definition regex_test (r : regex) (s : string) : bool :=
  matchK r s Str.isEmpty.

(** [/^([01]?[0-9]|2[0-3]):[0-5][0-9]$/] (line 139). *)
Definition timeRegex : regex :=
  Seq (Alt (Seq (Opt (Class "0" "1")) (Class "0" "9"))
           (Seq (Char "2") (Class "0" "3")))
      (Seq (Char ":") (Seq (Class "0" "5") (Class "0" "9"))).

(** ** convertTo12Hour (lines 69-74) *)

Definition convertTo12Hour (time24 : string) : Completion string :=
  match map Num.Number (Str.split ":" time24) with
  | hours :: minutes :: _ =>
      let period := if Num.ge hours 12 then "PM" else "AM" in
      let hours12 := Num.orElse (Num.rem hours 12) 12 in
      Normal (Num.toString hours12 ++ ":"
              ++ Str.padStart2 (Num.toString minutes) ++ " " ++ period)
  | _ =>
      (* [minutes] is undefined: [minutes.toString()] throws *)
      Throw (OtherError "TypeError"
               "Cannot read properties of undefined (reading 'toString')")
  end.

(** ** JSON values and what the runtime supplies *)

#[local] Set Warnings "-register-all".

(** A value [JSON.parse] returns.  An object is its own properties in
    order, each key once. *)
Inductive JSON (number : Type) : Type :=
| JNull
| JBool (b : bool)
| JNumber (n : number)
| JString (s : string)
| JArray (items : list (JSON number))
| JObject (fields : list (string * JSON number)).
Arguments JNull {number}.
Arguments JBool {number} b.
Arguments JNumber {number} n.
Arguments JString {number} s.
Arguments JArray {number} items.
Arguments JObject {number} fields.

(** The built-ins the service relies on, with the two facts about them the
    proofs use: the text of a number has no colon in it (digits, sign,
    point, exponent, Infinity or NaN), so it is never a time; and
    [JSON.parse] rejects the empty text. *)
Class Runtime : Type := {
  number : Type;
  (** [ToBoolean] on a number: false for 0 and NaN *)
  number_truthy : number -> bool;
  (** [Number.prototype.toString] *)
  number_toString : number -> string;
  (** [JSON.parse]; [None] is a thrown SyntaxError *)
  JSON_parse : string -> option (JSON number);
  number_toString_not_time :
    forall n, regex_test timeRegex (number_toString n) = false;
  JSON_parse_empty : JSON_parse EmptyString = None
}.

Record Task : Type := { description : string }.

(** An entry of the returned schedule.  The interface declares three
    strings; [task] and [reason] are whatever truthy JSON value the reply
    carried. *)
Record ScheduledTask `{Runtime} : Type := {
  task : JSON number;
  time : string;
  reason : JSON number
}.

(** The object the validating callback returns (lines 144-149). *)
Record Validated `{Runtime} : Type := {
  v_task : JSON number;
  v_time : string;
  v_reason : JSON number;
  sortTime : string
}.

Section Validation.
Context {R : Runtime}.

Local Abbreviation json := (JSON number).

Fixpoint lookup (key : string) (fields : list (string * json)) : option json :=
  match fields with
  | [] => None
  | (k, v) :: rest => if String.eqb k key then Some v else lookup key rest
  end.

(** [v.key] for the keys the service reads ([schedule], [task], [time],
    [reason]), which no prototype defines: [None] is [undefined]; reading a
    property of [null] throws. *)
Definition Get (v : json) (key : string) : Completion (option json) :=
  match v with
  | JNull =>
      Throw (OtherError "TypeError"
               ("Cannot read properties of null (reading '" ++ key ++ "')"))
  | JObject fields => Normal (lookup key fields)
  | _ => Normal None
  end.

(** [!!v] *)
Definition ToBoolean (v : option json) : bool :=
  match v with
  | None => false
  | Some JNull => false
  | Some (JBool b) => b
  | Some (JNumber n) => number_truthy n
  | Some (JString s) => negb (Str.isEmpty s)
  | Some (JArray _) => true
  | Some (JObject _) => true
  end.

Definition isArray (v : option json) : bool :=
  match v with
  | Some (JArray _) => true
  | _ => false
  end.

(** [String(v)], the coercion [RegExp.prototype.test] and template
    literals apply.  Inside an array, [null] prints as the empty string. *)
Fixpoint ToString (v : json) : string :=
  match v with
  | JNull => "null"
  | JBool true => "true"
  | JBool false => "false"
  | JNumber n => number_toString n
  | JString s => s
  | JArray items =>
      Str.join ","
        (map (fun x => match x with
                       | JNull => EmptyString
                       | _ => ToString x
                       end) items)
  | JObject _ => "[object Object]"
  end.

(** The callback of [parsedResponse.schedule.map] (lines 134-150). *)
Definition validateItem (item : json) : Completion Validated :=
  bindC (Get item "task") (fun item_task =>
  bindC (Get item "time") (fun item_time =>
  bindC (Get item "reason") (fun item_reason =>
  match item_task, item_time, item_reason with
  | Some task, Some time, Some reason =>
      if negb (ToBoolean item_task) || negb (ToBoolean item_time)
         || negb (ToBoolean item_reason)
      then Throw (newGeminiError
                    "Invalid schedule item: missing required fields"
                    "INVALID_FORMAT")
      else if negb (regex_test timeRegex (ToString time))
      then Throw (newGeminiError ("Invalid time format: " ++ ToString time)
                    "INVALID_FORMAT")
      else
        match time with
        | JString time24 =>
            bindC (convertTo12Hour time24) (fun time12 =>
            Normal {| v_task := task; v_time := time12;
                      v_reason := reason; sortTime := time24 |})
        | _ =>
            (* [convertTo12Hour] calls [split] on a value that has none *)
            Throw (OtherError "TypeError" "time24.split is not a function")
        end
  | _, _, _ =>
      (* an [undefined] field is falsy *)
      Throw (newGeminiError "Invalid schedule item: missing required fields"
               "INVALID_FORMAT")
  end))).

(** [hours * 60 + minutes] of a sort key (lines 154-156); NaN when the key
    has fewer than two pieces. *)
Definition minutesOf (key : string) : num :=
  match map Num.Number (Str.split ":" key) with
  | hours :: minutes :: _ => Num.mulAdd hours 60 minutes
  | _ => NaN
  end.

(** The comparator handed to [sort] (lines 153-157). *)
Definition compareSortTime (a b : Validated) : num :=
  Num.sub (minutesOf (sortTime a)) (minutesOf (sortTime b)).

(** [Array.prototype.sort(comparefn)]: [b] goes before [a] only when
    [comparefn(a, b) > 0] (NaN counts as 0), and the sort is stable
    (ECMAScript 2019).  For a comparator that orders the elements
    consistently, as a difference of integers does, that fixes the result:
    it is the arrangement this insertion sort builds. *)
Definition comesAfter {A : Type} (comparefn : A -> A -> num) (a b : A) : bool :=
  match comparefn a b with
  | Int z => (0 <? z)%Z
  | NaN => false
  end.

Fixpoint insert {A : Type} (comparefn : A -> A -> num) (x : A) (l : list A)
  : list A :=
  match l with
  | [] => [x]
  | y :: rest =>
      if comesAfter comparefn x y then y :: insert comparefn x rest
      else x :: l
  end.

Fixpoint sort {A : Type} (comparefn : A -> A -> num) (l : list A) : list A :=
  match l with
  | [] => []
  | x :: rest => insert comparefn x (sort comparefn rest)
  end.

(** [({ sortTime, ...rest }) => rest] (line 160). *)
Definition removeSortTime (v : Validated) : ScheduledTask :=
  {| task := v_task v; time := v_time v; reason := v_reason v |}.

(** Lines 123-126. *)
Definition cleanResponse (response : string) : string :=
  Str.trim (Str.removeAll "```" (Str.removeAll "```json" response)).

(** The body of the inner [try] (lines 123-160). *)
Definition parseSchedule (response : string) : Completion (list ScheduledTask) :=
  match JSON_parse (cleanResponse response) with
  | None => Throw (OtherError "SyntaxError" "JSON.parse")
  | Some parsedResponse =>
      bindC (Get parsedResponse "schedule") (fun schedule =>
      if negb (ToBoolean schedule) || negb (isArray schedule)
      then Throw (newGeminiError
                    "Invalid response format: missing schedule array"
                    "INVALID_FORMAT")
      else
        match schedule with
        | Some (JArray items) =>
            bindC (mapC validateItem items) (fun validatedSchedule =>
            Normal (map removeSortTime
                      (sort compareSortTime validatedSchedule)))
        | _ => Throw (OtherError "TypeError"
                        "parsedResponse.schedule.map is not a function")
        end)
  end.

End Validation.

(** ** The world the service runs in *)

(** Effects in the order they happen. *)
Inductive Event : Type :=
| EvSlotTimer (waitTime : num)      (* the timer of [waitForSlot], line 29 *)
| EvGenerate (prompt : string)      (* [model.generateContent(prompt)] *)
| EvSleep (ms : Z)                  (* [sleep(delay)], line 183 *)
| EvConsoleError (response : string).

(** What one call of [model.generateContent] followed by
    [result.response.text()] does: it throws, or it yields the text. *)
Inductive ModelResult : Type :=
| Rejects (error : Thrown)
| Text (response : string).

Record Reply : Type := {
  duration : Z;              (* milliseconds the call takes *)
  result : ModelResult
}.

(** The environment: the reply to the [n]-th request sent to the model, and
    how late the [n]-th timer fires. *)
Record Env : Type := {
  generateContent : nat -> string -> Reply;
  lag : nat -> Z
}.

Record World : Type := {
  tasks : list Task;       (* the caller's array, which [planTasks] is handed *)
  requests : list Z;       (* [rateLimiter.requests] *)
  now : Z;                 (* [Date.now()] *)
  generated : nat;         (* requests sent to the model so far *)
  timers : nat;            (* timers awaited so far *)
  events : list Event
}.

Definition setRequests (l : list Z) (w : World) : World :=
  {| tasks := tasks w; requests := l; now := now w;
     generated := generated w; timers := timers w; events := events w |}.

Definition emit (e : Event) (w : World) : World :=
  {| tasks := tasks w; requests := requests w; now := now w;
     generated := generated w; timers := timers w;
     events := (events w ++ [e])%list |}.

(** [setTimeout] treats a negative or NaN delay as 0. *)
Definition timerDelay (ms : num) : Z :=
  match ms with
  | Int z => Z.max 0 z
  | NaN => 0
  end.

(** [await new Promise(resolve => setTimeout(resolve, ms))]: the caller
    resumes [ms] milliseconds later, plus the lag of this timer. *)
Definition awaitTimer (env : Env) (ms : num) (w : World) : World :=
  {| tasks := tasks w; requests := requests w;
     now := (now w + timerDelay ms + lag env (timers w))%Z;
     generated := generated w; timers := S (timers w); events := events w |}.

(** [await model.generateContent(prompt)] and [result.response.text()]. *)
Definition awaitGenerate (env : Env) (prompt : string) (w : World)
  : ModelResult * World :=
  let reply := generateContent env (generated w) prompt in
  (result reply,
   {| tasks := tasks w; requests := requests w;
      now := (now w + duration reply)%Z;
      generated := S (generated w); timers := timers w;
      events := (events w ++ [EvGenerate prompt])%list |}).

(** ** RateLimiter (lines 12-35) *)

Record RateLimiter : Type := {
  limit : Z;
  windowMs : Z
}.

(** Line 37. *)
Definition rateLimiter : RateLimiter := {| limit := 3; windowMs := 60000 |}.

(** One evaluation of the body of [waitForSlot] up to its decision: the
    array after line 24, and the time to wait when line 26 holds. *)
Definition evict (rl : RateLimiter) (t : Z) (l : list Z) : list Z :=
  filter (fun time => (t - time <? windowMs rl)%Z) l.

Definition atCapacity (rl : RateLimiter) (l : list Z) : bool :=
  (limit rl <=? Z.of_nat (length l))%Z.

Definition waitTimeOf (rl : RateLimiter) (t : Z) (l : list Z) : num :=
  let oldestRequest := match l with
                       | time :: _ => Int time
                       | [] => NaN          (* [requests[0]] is undefined *)
                       end in
  Num.sub (Int (windowMs rl)) (Num.sub (Int t) oldestRequest).

(** [waitForSlot]; the recursion of line 30 is bounded by [fuel], and
    [None] means the fuel ran out. *)
Fixpoint waitForSlot (env : Env) (rl : RateLimiter) (fuel : nat) (w : World)
  : option World :=
  match fuel with
  | O => None
  | S fuel' =>
      let t := now w in
      let w1 := setRequests (evict rl t (requests w)) w in
      if atCapacity rl (requests w1) then
        let waitTime := waitTimeOf rl t (requests w1) in
        waitForSlot env rl fuel'
          (awaitTimer env waitTime (emit (EvSlotTimer waitTime) w1))
      else
        Some (setRequests (requests w1 ++ [t])%list w1)
  end.

(** ** planTasks (lines 76-188) *)

Definition LF : ascii := ascii_of_nat 10.
Definition nl : string := String LF EmptyString.
Definition dq : string := String (ascii_of_nat 34) EmptyString.

(** Line 81. *)
Definition taskListOf (tasks : list Task) : string :=
  Str.join nl (map description tasks).

(** The template of lines 83-105, line by line. *)
Definition promptLinesBefore : list string :=
  [ "You are a task planning assistant. Create an optimal daily schedule based on the following tasks.";
    "  Consider factors like energy levels, task complexity, and natural breaks.";
    "  ";
    "  Tasks:" ].

Definition promptLinesAfter : list string :=
  [ "  ";
    "  Please provide a schedule in the following exact JSON format:";
    "  {";
    "    " ++ dq ++ "schedule" ++ dq ++ ": [";
    "      {";
    "        " ++ dq ++ "task" ++ dq ++ ": " ++ dq ++ "exact task description" ++ dq ++ ",";
    "        " ++ dq ++ "time" ++ dq ++ ": " ++ dq ++ "HH:MM in 24-hour format" ++ dq ++ ",";
    "        " ++ dq ++ "reason" ++ dq ++ ": " ++ dq ++ "brief explanation of scheduling" ++ dq;
    "      }";
    "    ]";
    "  }";
    "  ";
    "  Important:";
    "  - Use exact 24-hour time format (e.g., " ++ dq ++ "09:00" ++ dq ++ ", " ++ dq ++ "14:30" ++ dq ++ ")";
    "  - Keep task descriptions exactly as provided";
    "  - Provide clear, concise reasons for scheduling";
    "  - Ensure all times are within a typical day (06:00 to 22:00)";
    "  - Return ONLY the JSON, no additional text" ].

Definition promptOf (taskList : string) : string :=
  Str.join nl promptLinesBefore ++ nl ++ "  " ++ taskList ++ nl
  ++ Str.join nl promptLinesAfter.

(** Lines of which the first stands behind an indentation. *)
Definition indented (indent : string) (lines : list string) : list string :=
  match lines with
  | [] => []
  | first :: rest => (indent ++ first) :: rest
  end.

(** The lines the descriptions take in the prompt: each description line
    by line, in order, the very first behind the two spaces the template
    has in front of [taskList]. *)
Definition taskLines (tasks : list Task) : list string :=
  indented "  " (flat_map (fun t => Str.split LF (description t)) tasks).

Definition maxRetries : Z := 3.
Definition baseDelay : Z := 1000.

(** Lines 62-67. *)
Definition isRetryableError (error : Thrown) : bool :=
  match error with
  | GeminiError _ _ isRetryable => isRetryable
  | OtherError _ _ => true
  end.

(** Lines 172-179: a [GeminiError] is rethrown, anything else is replaced
    by UNKNOWN_ERROR. *)
Definition surface (error : Thrown) : Thrown :=
  match error with
  | GeminiError _ _ _ => error
  | OtherError _ _ =>
      newGeminiError "An unexpected error occurred while planning tasks"
        "UNKNOWN_ERROR"
  end.

Section Service.
Context {R : Runtime}.

(** The inner [try]/[catch] (lines 122-167) on a response that is not
    empty: a [GeminiError] passes through, anything else is logged with
    [console.error] and becomes PARSE_ERROR.  The second component is what
    gets logged. *)
Definition parseOrClassify (response : string)
  : Completion (list ScheduledTask) * list Event :=
  match parseSchedule response with
  | Normal schedule => (Normal schedule, [])
  | Throw (GeminiError message code isRetryable) =>
      (Throw (GeminiError message code isRetryable), [])
  | Throw (OtherError _ _) =>
      (Throw (newGeminiError "Failed to parse Gemini response" "PARSE_ERROR"),
       [EvConsoleError response])
  end.

(** What the outer [try] does with the model's result (lines 115-167). *)
Definition handleResult (r : ModelResult)
  : Completion (list ScheduledTask) * list Event :=
  match r with
  | Rejects error => (Throw error, [])
  | Text response =>
      if Str.isEmpty response
      then (Throw (newGeminiError "No response received from Gemini"
                     "NO_RESPONSE"), [])
      else parseOrClassify response
  end.

(** The body of the outer [try] (lines 113-167). *)
Definition attemptOnce (env : Env) (fuel : nat) (prompt : string) (w : World)
  : option (Completion (list ScheduledTask) * World) :=
  match waitForSlot env rateLimiter fuel w with
  | None => None
  | Some w1 =>
      let (r, w2) := awaitGenerate env prompt w1 in
      let (completion, logged) := handleResult r in
      Some (completion, fold_left (fun w e => emit e w) logged w2)
  end.

(** The [for] loop of line 111 with its [catch] (lines 168-184), and the
    [throw] of line 187 behind it.  [fuel] bounds the iterations and the
    rate limiter's recursion. *)
Fixpoint attemptLoop (env : Env) (fuel : nat) (attempt : Z)
    (lastError : option Thrown) (prompt : string) (w : World)
  : option (Completion (list ScheduledTask) * World) :=
  if (attempt <=? maxRetries)%Z then
    match fuel with
    | O => None
    | S fuel' =>
        match attemptOnce env fuel prompt w with
        | None => None
        | Some (Normal schedule, w1) => Some (Normal schedule, w1)
        | Some (Throw error, w1) =>
            if negb (isRetryableError error) || (attempt =? maxRetries)%Z
            then Some (Throw (surface error), w1)
            else
              let delay := (baseDelay * 2 ^ attempt)%Z in
              attemptLoop env fuel' (attempt + 1)%Z (Some error) prompt
                (awaitTimer env (Int delay) (emit (EvSleep delay) w1))
        end
    end
  else
    Some (Throw match lastError with
                | Some error => error
                | None => GeminiError
                            "Failed to plan tasks after multiple attempts"
                            None true
                end, w).

(** [planTasks(tasks)], where [tasks] refers to the array in the world. *)
Definition planTasks (env : Env) (fuel : nat) (w : World)
  : option (Completion (list ScheduledTask) * World) :=
  if (length (tasks w) =? 0)%nat then
    Some (Throw (GeminiError "No tasks provided for planning"
                   (Some "NO_TASKS") false), w)
  else
    let taskList := taskListOf (tasks w) in
    let prompt := promptOf taskList in
    attemptLoop env fuel 0 None prompt w.

(** The completion of the attempt that sends the [i]-th request. *)
Definition outcomeOf (env : Env) (prompt : string) (i : nat)
  : Completion (list ScheduledTask) :=
  fst (handleResult (result (generateContent env i prompt))).

(** The world in which attempt number [i + 1] begins when attempt number
    [i] has failed in [w]: the backoff of [1000 * 2 ^ i] milliseconds has
    been slept on one timer, which may fire late, and nothing else has
    changed. *)
Definition afterBackoff (env : Env) (i : nat) (w : World) : World :=
  {| tasks := tasks w; requests := requests w;
     now := (now w + 1000 * 2 ^ Z.of_nat i + lag env (timers w))%Z;
     generated := generated w; timers := S (timers w);
     events := (events w ++ [EvSleep (1000 * 2 ^ Z.of_nat i)])%list |}.

(** An attempt with this completion is the last one: it succeeded, its
    error is not retryable, or it is attempt number 3. *)
Definition settles (i : nat) (c : Completion (list ScheduledTask)) : Prop :=
  match c with
  | Normal _ => True
  | Throw e => isRetryableError e = false \/ i = 3%nat
  end.

(** [attemptsFrom env prompt i w n c w']: [n] attempts, numbered from [i],
    lead from the world [w] to the world [w'], the last of them with the
    completion [c].  Each but the last fails with a retryable error, is not
    attempt number 3, and is followed by its backoff. *)
Inductive attemptsFrom (env : Env) (prompt : string)
  : nat -> World -> nat -> Completion (list ScheduledTask) -> World -> Prop :=
| attempts_last (i : nat) (w w' : World) (fuel : nat)
    (c : Completion (list ScheduledTask)) :
    attemptOnce env fuel prompt w = Some (c, w') ->
    settles i c ->
    attemptsFrom env prompt i w 1 c w'
| attempts_retry (i n : nat) (w w1 w' : World) (fuel : nat) (e : Thrown)
    (c : Completion (list ScheduledTask)) :
    attemptOnce env fuel prompt w = Some (Throw e, w1) ->
    isRetryableError e = true ->
    (i < 3)%nat ->
    attemptsFrom env prompt (S i) (afterBackoff env i w1) n c w' ->
    attemptsFrom env prompt i w (S n) c w'.

End Service.

(** The requests and backoff sleeps among the events, and what they are
    for [n] attempts from attempt number [attempt] on: a request, then for
    each further attempt the sleep of [baseDelay * 2 ^ attempt] and the next
    request. *)
Definition isAttemptEvent (e : Event) : bool :=
  match e with
  | EvGenerate _ => true
  | EvSleep _ => true
  | _ => false
  end.

Definition attemptView (l : list Event) : list Event := filter isAttemptEvent l.

Fixpoint expectedView (prompt : string) (attempt : Z) (n : nat) : list Event :=
  match n with
  | O => []
  | S n' =>
      EvGenerate prompt
        :: match n' with
           | O => []
           | S _ => EvSleep (baseDelay * 2 ^ attempt)
                      :: expectedView prompt (attempt + 1) n'
           end
  end.

(** An environment with exact timers that answers every request with the
    replies of a list (and throws a transport error once it is used up),
    each after 200 ms. *)
Definition scripted (replies : list ModelResult) : Env :=
  {| generateContent := fun i _ =>
       {| duration := 200;
          result := nth i replies (Rejects (OtherError "Error" "fetch failed")) |};
     lag := fun _ => 0%Z |}.

(** Fuel that is enough for a call of [planTasks] in the world [w]. *)
Definition enoughFuel (w : World) : nat := length (requests w) + 8.

Definition startWorld (tasks : list Task) : World :=
  {| tasks := tasks; requests := []; now := 0; generated := 0; timers := 0;
     events := [] |}.

(** ** A runtime to run the service on concrete replies *)

(** Numbers are the integers, and [parse] reads the JSON texts made of
    objects with distinct keys, arrays, strings without escapes, integers
    and the three literals.  It rejects every other text, also those
    [JSON.parse] reads; the theorems below hold for every [Runtime], and
    this one only serves to evaluate the service on the texts of the
    examples. *)
Module Reference.

Definition isJsonSpace (c : ascii) : bool :=
  let n := Str.code c in
  ((n =? 32) || (n =? 9) || (n =? 10) || (n =? 13))%nat.

Fixpoint skip (s : string) : string :=
  match s with
  | String c rest => if isJsonSpace c then skip rest else s
  | EmptyString => EmptyString
  end.

(** The characters up to the closing quote, and what follows it. *)
Fixpoint takeString (s : string) : option (string * string) :=
  match s with
  | EmptyString => None
  | String c rest =>
      if (Str.code c =? 34)%nat then Some (EmptyString, rest)
      else if (Str.code c =? 92)%nat || (Str.code c <? 32)%nat then None
      else match takeString rest with
           | Some (str, rest') => Some (String c str, rest')
           | None => None
           end
  end.

Fixpoint takeDigits (s : string) : string * string :=
  match s with
  | String c rest =>
      if Str.isDigit c
      then let (ds, rest') := takeDigits rest in (String c ds, rest')
      else (EmptyString, s)
  | EmptyString => (EmptyString, EmptyString)
  end.

Definition literal (word : string) (v : JSON Z) (s : string)
  : option (JSON Z * string) :=
  if prefix word s
  then Some (v, substring (String.length word)
                  (String.length s - String.length word) s)
  else None.

Definition integer (s : string) : option (JSON Z * string) :=
  let (ds, rest) := takeDigits s in
  match ds with
  | EmptyString => None
  | String "0" (String _ _) => None        (* no leading zero *)
  | _ => Some (JNumber (Num.digitsValue ds), rest)
  end.

Fixpoint parseValue (fuel : nat) (s : string) : option (JSON Z * string) :=
  match fuel with
  | O => None
  | S fuel' =>
      match skip s with
      | EmptyString => None
      | String c rest =>
          if Ascii.eqb c "{" then
            match skip rest with
            | String "}" rest' => Some (JObject [], rest')
            | _ => match parseMembers fuel' rest with
                   | Some (fields, rest') => Some (JObject fields, rest')
                   | None => None
                   end
            end
          else if Ascii.eqb c "[" then
            match skip rest with
            | String "]" rest' => Some (JArray [], rest')
            | _ => match parseElements fuel' rest with
                   | Some (items, rest') => Some (JArray items, rest')
                   | None => None
                   end
            end
          else if (Str.code c =? 34)%nat then
            match takeString rest with
            | Some (str, rest') => Some (JString str, rest')
            | None => None
            end
          else if Ascii.eqb c "-" then
            match integer rest with
            | Some (JNumber z, rest') => Some (JNumber (- z)%Z, rest')
            | _ => None
            end
          else if Str.isDigit c then integer (String c rest)
          else if Ascii.eqb c "n" then literal "null" JNull (String c rest)
          else if Ascii.eqb c "t" then literal "true" (JBool true) (String c rest)
          else if Ascii.eqb c "f" then literal "false" (JBool false) (String c rest)
          else None
      end
  end
with parseElements (fuel : nat) (s : string)
  : option (list (JSON Z) * string) :=
  match fuel with
  | O => None
  | S fuel' =>
      match parseValue fuel' s with
      | None => None
      | Some (v, rest) =>
          match skip rest with
          | String "," rest' =>
              match parseElements fuel' rest' with
              | Some (vs, rest'') => Some (v :: vs, rest'')
              | None => None
              end
          | String "]" rest' => Some ([v], rest')
          | _ => None
          end
      end
  end
with parseMembers (fuel : nat) (s : string)
  : option (list (string * JSON Z) * string) :=
  match fuel with
  | O => None
  | S fuel' =>
      match skip s with
      | String c rest =>
          if (Str.code c =? 34)%nat then
            match takeString rest with
            | None => None
            | Some (key, rest1) =>
                match skip rest1 with
                | String ":" rest2 =>
                    match parseValue fuel' rest2 with
                    | None => None
                    | Some (v, rest3) =>
                        match skip rest3 with
                        | String "," rest4 =>
                            match parseMembers fuel' rest4 with
                            | Some (fields, rest5) =>
                                if existsb (fun kv => String.eqb (fst kv) key) fields
                                then None
                                else Some ((key, v) :: fields, rest5)
                            | None => None
                            end
                        | String "}" rest4 => Some ([(key, v)], rest4)
                        | _ => None
                        end
                    end
                | _ => None
                end
            end
          else None
      | EmptyString => None
      end
  end.

Definition parse (text : string) : option (JSON Z) :=
  match parseValue (2 * String.length text + 2) text with
  | Some (v, rest) => if Str.isEmpty (skip rest) then Some v else None
  | None => None
  end.

Definition truthy (z : Z) : bool := negb (z =? 0)%Z.

Fixpoint hasColon (s : string) : bool :=
  match s with
  | String c rest => Ascii.eqb c ":" || hasColon rest
  | EmptyString => false
  end.

(** The integers' texts are digits behind an optional sign. *)
Definition reference : Runtime.
Proof.
  refine {| number := Z;
            number_truthy := truthy;
            number_toString := Num.showZ;
            JSON_parse := parse |}.
  - abstract
      (assert (shape : forall s, regex_test timeRegex s = true -> hasColon s = true)
         by (unfold regex_test, timeRegex;
             intros [|c1 [|c2 [|c3 s]]]; cbn [matchK hasColon];
             rewrite ?andb_false_r, ?orb_false_r; try discriminate;
             intros H;
             repeat (apply orb_true_iff in H; destruct H as [H|H]);
             repeat (apply andb_true_iff in H; destruct H as [? H]);
             repeat match goal with
                    | E : Ascii.eqb _ ":" = true |- _ => rewrite E; clear E
                    end;
             rewrite ?orb_true_r; reflexivity);
       assert (digits : forall d,
                 hasColon (DecimalString.NilEmpty.string_of_uint d) = false)
         by (induction d;
             cbn [DecimalString.NilEmpty.string_of_uint hasColon];
             rewrite ?IHd; reflexivity);
       assert (digits0 : forall d,
                 hasColon (DecimalString.NilZero.string_of_uint d) = false)
         by (destruct d; try apply digits; reflexivity);
       intros n; destruct (regex_test timeRegex (Num.showZ n)) eqn:E;
       [|reflexivity];
       apply shape in E;
       unfold Num.showZ, DecimalString.NilZero.string_of_int in E;
       destruct (Z.to_int n); cbn [hasColon] in E; rewrite ?digits0 in E;
       discriminate).
  - abstract reflexivity.
Defined.

End Reference.

(** ** The vocabulary of the specification *)

(** Definitions written from the words of the specification, which the
    theorems compare the code with. *)
Module Spec.

Definition digitChar (d : nat) : ascii := ascii_of_nat (48 + d).

(** A number below 100 in two digits, a number below 10 in one. *)
Definition two (n : nat) : string :=
  String (digitChar (n / 10)) (String (digitChar (n mod 10)) EmptyString).

Definition one (n : nat) : string := String (digitChar n) EmptyString.

(** The ways to write the time [h]:[m] of a 24-hour clock: HH:MM, and H:MM
    when the hour has a single digit. *)
Definition timeTexts (h m : nat) : list string :=
  (two h ++ ":" ++ two m)
    :: (if (h <? 10)%nat then [one h ++ ":" ++ two m] else []).

(** [s] is a 24-hour time, hours 0-23 and minutes 0-59. *)
Definition isTime24 (s : string) : Prop :=
  exists h m, (h < 24)%nat /\ (m < 60)%nat /\ In s (timeTexts h m).

Definition grid : list (nat * nat) := list_prod (seq 0 24) (seq 0 60).

(** Every time of the clock with its texts. *)
Definition clockTable : list ((nat * nat) * list string) :=
  map (fun hm => (hm, timeTexts (fst hm) (snd hm))) grid.

(** The hour and minute a text denotes, if it is a 24-hour time. *)
Definition clockOf (s : string) : option (nat * nat) :=
  option_map fst (find (fun entry => existsb (String.eqb s) (snd entry)) clockTable).

Definition time24 (s : string) : bool :=
  match clockOf s with
  | Some _ => true
  | None => false
  end.

(** Minutes since midnight, [hours * 60 + minutes]. *)
Definition minutesSinceMidnight (s : string) : Z :=
  match clockOf s with
  | Some (h, m) => Z.of_nat (h * 60 + m)
  | None => 0
  end.

(** Hours 0 and 12 render as 12, hours 13-23 subtract 12, hours 1-11 stay. *)
Definition hour12 (h : nat) : nat :=
  if (h =? 0)%nat || (h =? 12)%nat then 12
  else if (13 <=? h)%nat then h - 12
  else h.

(** AM for hours 0-11, PM for 12-23. *)
Definition period (h : nat) : string :=
  if (h <=? 11)%nat then "AM" else "PM".

Definition display (n : nat) : string :=
  if (n <? 10)%nat then one n else two n.

(** The 12-hour display form of [h]:[m]. *)
Definition time12 (h m : nat) : string :=
  display (hour12 h) ++ ":" ++ two m ++ " " ++ period h.

(** A property checked on every text of every time of the clock. *)
Definition onGrid (P : nat -> nat -> string -> bool) : bool :=
  forallb (fun hm => forallb (P (fst hm) (snd hm)) (timeTexts (fst hm) (snd hm)))
    grid.

End Spec.

(** A comparator that subtracts integer keys, and the order it sorts into. *)
Definition byKey {A : Type} (key : A -> Z) (a b : A) : num :=
  Int (key a - key b).

Definition keyLe {A : Type} (key : A -> Z) (a b : A) : Prop :=
  (key a <= key b)%Z.

Section Entries.
Context {R : Runtime}.

(** The field of a schedule entry; an entry that is not an object has
    none. *)
Definition fieldOf (item : JSON number) (key : string) : option (JSON number) :=
  match item with
  | JObject fields => lookup key fields
  | _ => None
  end.

(** An entry as the specification wants it: [task], [time] and [reason]
    present and not empty, and [time] a 24-hour time. *)
Definition entryValid (item : JSON number) : bool :=
  ToBoolean (fieldOf item "task") && ToBoolean (fieldOf item "time")
  && ToBoolean (fieldOf item "reason")
  && match fieldOf item "time" with
     | Some (JString s) => Spec.time24 s
     | _ => false
     end.

(** An entry that is not [null] and whose [time] is not an array. *)
Definition plainEntry (item : JSON number) : bool :=
  match item with
  | JNull => false
  | _ => match fieldOf item "time" with
         | Some (JArray _) => false
         | _ => true
         end
  end.

(** What becomes of an entry when its turn comes: it is accepted; it is
    refused, which the reply ends with as INVALID_FORMAT; or reading it
    throws a TypeError, which the reply ends with as PARSE_ERROR.  An entry
    is accepted when it has a task, a time and a reason that are truthy and
    its time is a string that is a 24-hour time.  It throws when it is
    [null], and when its three fields are truthy and its time is no string
    but prints as a 24-hour time, as the array [["09:00"]] does.  It is
    refused in every other case. *)
Inductive Verdict : Type :=
| Accepted
| Refused
| Crashes.

Definition verdict (item : JSON number) : Verdict :=
  match item with
  | JNull => Crashes
  | _ =>
      if ToBoolean (fieldOf item "task") && ToBoolean (fieldOf item "time")
         && ToBoolean (fieldOf item "reason")
      then match fieldOf item "time" with
           | Some (JString s) => if Spec.time24 s then Accepted else Refused
           | Some time => if Spec.time24 (ToString time) then Crashes else Refused
           | None => Refused
           end
      else Refused
  end.




(** The key the schedule is sorted by. *)
Definition sortKey (v : Validated) : Z := Spec.minutesSinceMidnight (sortTime v).

(** Error codes of the classified errors. *)
Definition hasCode (code : string) (e : Thrown) : Prop :=
  exists message, e = GeminiError message (Some code) true.

End Entries.

(** ** Replies used in the examples *)

Module Examples.

Definition quoted (s : string) : string := dq ++ s ++ dq.

(** The text of one schedule entry with three string fields. *)
Definition entryText (task time reason : string) : string :=
  "{" ++ quoted "task" ++ ":" ++ quoted task ++ ","
  ++ quoted "time" ++ ":" ++ quoted time ++ ","
  ++ quoted "reason" ++ ":" ++ quoted reason ++ "}".

(** The text of a reply with the given entries. *)
Definition scheduleText (entries : list string) : string :=
  "{" ++ quoted "schedule" ++ ":[" ++ Str.join "," entries ++ "]}".

(** The reply of the specification's round trip, inside a code fence. *)
Definition fenced (text : string) : string :=
  "```json" ++ nl ++ text ++ nl ++ "```".

Definition replyOne : string :=
  fenced (scheduleText [entryText "A" "09:00" "r"]).

(** Three entries out of order, two of them at the same time. *)
Definition replyUnsorted : string :=
  scheduleText [entryText "lunch" "14:30" "after the morning";
                entryText "run" "06:00" "early";
                entryText "mail" "09:15" "first";
                entryText "call" "9:15" "second"].

Definition replyBadTime : string :=
  scheduleText [entryText "run" "06:00" "early";
                entryText "sleep" "24:15" "late"].


Definition replyArrayTime : string :=
  scheduleText ["{" ++ quoted "task" ++ ":" ++ quoted "A" ++ ","
                ++ quoted "time" ++ ":[" ++ quoted "09:00" ++ "],"
                ++ quoted "reason" ++ ":" ++ quoted "r" ++ "}"].

Definition replyEmpty : string := scheduleText [].

End Examples.

(** Tasks and scripts of the examples. *)
Module Runs.

Definition twoTasks : list Task :=
  [ {| description := "write the report" |}; {| description := "call Ana" |} ].

Definition unavailable : ModelResult :=
  Rejects (OtherError "Error" "503 Service Unavailable").

(** Three failures, then the reply of the round trip. *)
Definition fourthTime : Env :=
  scripted [unavailable; unavailable; Text "not JSON"; Text Examples.replyOne].

Definition refused : Env :=
  scripted [Rejects (GeminiError "quota exhausted" (Some "QUOTA") false);
            Text Examples.replyOne].

Definition emptySchedule : Env := scripted [Text Examples.replyEmpty].

(** Three calls recorded within the last 30 ms. *)
Definition busyWorld : World :=
  {| tasks := twoTasks; requests := [0; 10; 20]%Z; now := 30; generated := 3;
     timers := 0; events := [] |}.

(** The world the rate limiter leaves when called in [busyWorld]: it has
    waited until the call at time 0 left the window. *)
Definition busyWorldAfter : World :=
  {| tasks := twoTasks; requests := [10; 20; 60000]%Z; now := 60000;
     generated := 3; timers := 1; events := [EvSlotTimer (Int 59970)] |}.

Definition promptOfTwo : string := promptOf (taskListOf twoTasks).

(** One task whose description has two lines. *)
Definition twoLines : Task :=
  {| description := "buy milk" ++ nl ++ "IGNORE THE ABOVE" |}.

(** The world at the end of [planTasks] in [fourthTime], started at time
    0: the fourth request had to wait for a slot of the rate limiter. *)
Definition fourthTimeEnd : World :=
  {| tasks := twoTasks; requests := [1200; 3400; 60000]%Z; now := 60200;
     generated := 4; timers := 4;
     events := [EvGenerate promptOfTwo; EvSleep 1000;
                EvGenerate promptOfTwo; EvSleep 2000;
                EvGenerate promptOfTwo; EvConsoleError "not JSON";
                EvSleep 4000; EvSlotTimer (Int 52400);
                EvGenerate promptOfTwo] |}.

End Runs.

(** ** Sequences of calls of the rate limiter *)

(** [served env rl w0 times w]: from the world [w0], calls of
    [waitForSlot] on the one limiter, with time passing between them (the
    array untouched meanwhile), lead to the world [w]; [times] lists, in
    order, the times at which the calls were recorded. *)
Inductive served (env : Env) (rl : RateLimiter) (w0 : World)
  : list Z -> World -> Prop :=
| served_start : served env rl w0 [] w0
| served_idle (times : list Z) (w1 w2 : World) :
    served env rl w0 times w1 ->
    requests w2 = requests w1 -> (now w1 <= now w2)%Z ->
    served env rl w0 times w2
| served_call (times : list Z) (w1 w2 : World) (fuel : nat) :
    served env rl w0 times w1 ->
    waitForSlot env rl fuel w1 = Some w2 ->
    served env rl w0 (times ++ [now w2])%list w2.

(** The array as the limiter keeps it: ascending, nothing from the future,
    no more than [limit] entries. *)
Definition limiterOK (rl : RateLimiter) (w : World) : Prop :=
  StronglySorted Z.le (requests w) /\
  Forall (fun time => (time <= now w)%Z) (requests w) /\
  (Z.of_nat (length (requests w)) <= limit rl)%Z.

(** ** The 12-hour texts read back *)

(** Written from the format the service documents for its output
    ([h:mm AM/PM]): the time of the clock a 12-hour text stands for. *)
Module Display.

(** Every time of the clock with its 12-hour text. *)
Definition table : list ((nat * nat) * string) :=
  map (fun hm => (hm, Spec.time12 (fst hm) (snd hm))) Spec.grid.

Definition clockOf (s : string) : option (nat * nat) :=
  option_map fst (find (fun entry => String.eqb s (snd entry)) table).

(** Minutes since midnight of a 12-hour text. *)
Definition minutes (s : string) : Z :=
  match clockOf s with
  | Some (h, m) => Z.of_nat (h * 60 + m)
  | None => 0
  end.

(** A check that holds at every time of the clock. *)
Definition onClock (P : nat -> nat -> bool) : bool :=
  forallb (fun hm => P (fst hm) (snd hm)) Spec.grid.

End Display.

(** A reply inside a Markdown code fence, opened by [opener]. *)
Definition fencedBy (opener text : string) : string :=
  opener ++ nl ++ text ++ nl ++ "```".

(** * The component that calls the service (components/Header.tsx)

    [TaskPlanner] is embedded as its state and its handlers.  A handler
    runs on the state of the render that created it and is the list of the
    calls it makes, in order; the next render sees the state these calls
    leave.  Of the libraries the component uses only the interface is kept:
    a form that submits its value, a drag that reports the row it started
    at and the row it ended at, a mutation that is started and settles. *)

(** ** Arrays as the handlers use them *)

(** An index of an array holds nothing (a hole), [undefined], or a value.
    Arrays are indexed by integers here; indices that are no integers, or
    beyond 2^32 - 2, are not modelled. *)
Module JsArray.

Inductive slot (A : Type) : Type :=
| Hole
| Undefined
| Item (a : A).

Arguments Hole {A}.
Arguments Undefined {A}.
Arguments Item {A} a.

Definition t (A : Type) : Type := list (slot A).

Section Ops.
Context {A : Type}.

(** What reading a slot gives: a hole reads as [undefined]. *)
Definition value (x : slot A) : slot A :=
  match x with
  | Hole => Undefined
  | _ => x
  end.

(** [[...l]] and [Array.from(l)]: the values read in order. *)
Definition spread (l : t A) : t A := map value l.

(** [l[index]]. *)
Definition get (l : t A) (index : Z) : slot A :=
  if (index <? 0)%Z then Undefined
  else value (nth (Z.to_nat index) l Undefined).

(** [l[index] = v]: inside the array the slot is replaced; behind its end
    the array grows, with holes up to the index; a negative index names a
    property that is no element, and the elements stay as they are. *)
Definition assign (l : t A) (index : Z) (v : slot A) : t A :=
  if (index <? 0)%Z then l
  else
    let i := Z.to_nat index in
    if (i <? length l)%nat then (firstn i l ++ v :: skipn (S i) l)%list
    else (l ++ repeat Hole (i - length l) ++ [v])%list.

(** [l.filter((_, i) => keep(i))]: holes are skipped, and count. *)
Fixpoint filterFrom (keep : Z -> bool) (i : Z) (l : t A) : t A :=
  match l with
  | [] => []
  | Hole :: rest => filterFrom keep (i + 1) rest
  | x :: rest =>
      if keep i then x :: filterFrom keep (i + 1) rest
      else filterFrom keep (i + 1) rest
  end.

Definition filterIndex (keep : Z -> bool) (l : t A) : t A :=
  filterFrom keep 0 l.

(** Where [splice] starts: a negative start counts from the end. *)
Definition spliceStart (len : nat) (start : Z) : nat :=
  if (start <? 0)%Z then Z.to_nat (Z.max (Z.of_nat len + start) 0)
  else Nat.min (Z.to_nat start) len.

(** [l.splice(start, deleteCount, ...items)]: the removed elements, and
    the array afterwards. *)
Definition splice (l : t A) (start : Z) (deleteCount : nat) (items : t A)
  : t A * t A :=
  let s := spliceStart (length l) start in
  let count := Nat.min deleteCount (length l - s) in
  (firstn count (skipn s l),
   (firstn s l ++ items ++ skipn (s + count) l)%list).

(** [const [x] = l]. *)
Definition first (l : t A) : slot A :=
  match l with
  | [] => Undefined
  | x :: _ => value x
  end.

(** The array without the element at [i]. *)
Definition without (i : nat) (l : t A) : t A :=
  (firstn i l ++ skipn (S i) l)%list.

End Ops.

End JsArray.

(** ** TaskPlanner (lines 41-127, and the guards of its buttons) *)

Module TaskPlanner.

Import JsArray.

(** Line 41. *)
Definition MAX_RETRIES : Z := 3.

(** [result.source.index], and [result.destination.index] when there is a
    destination. *)
Record DropResult : Type := {
  source : Z;
  destination : option Z
}.

(** [s.toLowerCase()] on code units below 256: the letters A-Z and the
    capital letters of Latin-1, which are the codes 192-222 but for the
    multiplication sign. *)
Definition lowerUnit (c : ascii) : ascii :=
  let n := Str.code c in
  if ((65 <=? n) && (n <=? 90)
      || (192 <=? n) && (n <=? 222) && negb (n =? 215))%nat
  then ascii_of_nat (n + 32)
  else c.

Fixpoint toLowerCase (s : string) : string :=
  match s with
  | EmptyString => EmptyString
  | String c rest => String (lowerUnit c) (toLowerCase rest)
  end.

(** Line 311. *)
Definition separator (index length : Z) : string :=
  if (index =? length - 2)%Z then ", and finally "
  else if (index =? length - 1)%Z then "."
  else ", followed by ".

(** What line 311 comes to for a schedule of [n] entries. *)
Definition separators (n : nat) : list string :=
  match n with
  | O => []
  | S O => [ "." ]
  | S (S k) => (repeat ", followed by " k ++ [ ", and finally "; "." ])%list
  end.

Section Component.
Context {R : Runtime}.

(** The state of lines 44-49, as a render sees it. *)
Record State : Type := {
  tasks : JsArray.t Task;
  schedule : list ScheduledTask;
  editingIndex : option Z;
  editValue : string;
  error : option string;
  retryCount : Z
}.

Definition initial : State :=
  {| tasks := []; schedule := []; editingIndex := None;
     editValue := EmptyString; error := None; retryCount := 0 |}.

(** What a handler calls, in order: the setters of the state,
    [form.reset()] and [planMutation.mutate(tasks)]. *)
Inductive Call : Type :=
| setTasks (value : JsArray.t Task)
| setSchedule (value : list ScheduledTask)
| setEditingIndex (value : option Z)
| setEditValue (value : string)
| setError (value : option string)
| setRetryCount (updater : Z -> Z)
| form_reset
| mutate (variables : JsArray.t Task).

(** The state of the next render: the setters take effect in the order of
    their calls, an updater function on the value the calls before it left. *)
Definition update (s : State) (c : Call) : State :=
  match c with
  | setTasks v =>
      {| tasks := v; schedule := schedule s; editingIndex := editingIndex s;
         editValue := editValue s; error := error s;
         retryCount := retryCount s |}
  | setSchedule v =>
      {| tasks := tasks s; schedule := v; editingIndex := editingIndex s;
         editValue := editValue s; error := error s;
         retryCount := retryCount s |}
  | setEditingIndex v =>
      {| tasks := tasks s; schedule := schedule s; editingIndex := v;
         editValue := editValue s; error := error s;
         retryCount := retryCount s |}
  | setEditValue v =>
      {| tasks := tasks s; schedule := schedule s;
         editingIndex := editingIndex s; editValue := v; error := error s;
         retryCount := retryCount s |}
  | setError v =>
      {| tasks := tasks s; schedule := schedule s;
         editingIndex := editingIndex s; editValue := editValue s;
         error := v; retryCount := retryCount s |}
  | setRetryCount f =>
      {| tasks := tasks s; schedule := schedule s;
         editingIndex := editingIndex s; editValue := editValue s;
         error := error s; retryCount := f (retryCount s) |}
  | form_reset => s
  | mutate _ => s
  end.

Definition after (s : State) (calls : list Call) : State :=
  fold_left update calls s.

(** [schedule.length > 0 && setSchedule([])] as a statement (lines 110-112
    and 124-126). *)
Definition clearSchedule (s : State) : list Call :=
  if (0 <? length (schedule s))%nat then [setSchedule []] else [].

(** Lines 55-61; [value] stands for [value.task]. *)
Definition onSubmit (s : State) (value : string) : list Call :=
  if negb (Str.isEmpty value)
  then [ setTasks (spread (tasks s) ++ [Item {| description := value |}])%list;
         form_reset;
         setError None ]
  else [].

(** Lines 66-70. *)
Definition onSuccess (data : list ScheduledTask) : list Call :=
  [ setSchedule data; setError None; setRetryCount (fun _ => 0%Z) ].

(** Lines 71-77. *)
Definition onError (error : Thrown) : list Call :=
  match error with
  | GeminiError message _ _ => [ setError (Some message) ]
  | OtherError _ _ =>
      [ setError (Some "An unexpected error occurred while planning your tasks") ]
  end.

(** Lines 80-87. *)
Definition handleRetry (s : State) : list Call :=
  if (retryCount s <? MAX_RETRIES)%Z
  then [ setRetryCount (fun prev => (prev + 1)%Z); mutate (tasks s) ]
  else [ setError (Some "Maximum retry attempts reached. Please try again later.") ].

(** Lines 89-93: the calls made, and the error thrown if reading
    [tasks[index].description] throws. *)
Definition handleEdit (s : State) (index : Z) : list Call * option Thrown :=
  match get (tasks s) index with
  | Item task =>
      ([ setEditingIndex (Some index); setEditValue (description task);
         setError None ], None)
  | _ =>
      ([ setEditingIndex (Some index) ],
       Some (OtherError "TypeError"
               "Cannot read properties of undefined (reading 'description')"))
  end.

(** Lines 95-106. *)
Definition handleSaveEdit (s : State) (index : Z) : list Call :=
  if Str.isEmpty (Str.trim (editValue s))
  then [ setError (Some "Task description cannot be empty") ]
  else [ setTasks (assign (spread (tasks s)) index
                     (Item {| description := editValue s |}));
         setEditingIndex None;
         setEditValue EmptyString;
         setError None ].

(** Lines 108-114. *)
Definition handleRemove (s : State) (index : Z) : list Call :=
  (setTasks (filterIndex (fun i => negb (i =? index)%Z) (tasks s))
     :: clearSchedule s ++ [ setError None ])%list.

(** Lines 116-127. *)
Definition handleDragEnd (s : State) (result : DropResult) : list Call :=
  match destination result with
  | None => []
  | Some destination_index =>
      let items := spread (tasks s) in
      let (removed, items1) := splice items (source result) 1 [] in
      let reorderedItem := first removed in
      let (_, items2) := splice items1 destination_index 0 [reorderedItem] in
      (setTasks items2 :: clearSchedule s)%list
  end.

(** The click on the button of lines 276-294. *)
Definition handlePlan (s : State) : list Call :=
  [ setRetryCount (fun _ => 0%Z); mutate (tasks s) ].

(** What can happen to the component: the events its elements are wired
    to, and the two ways a mutation settles. *)
Inductive Action : Type :=
| Submit (value : string)
| DragEnd (result : DropResult)
| ClickEdit (index : Z)
| ClickSave (index : Z)
| ClickCancel (index : Z)
| ChangeEditValue (index : Z) (value : string)
| ClickRemove (index : Z)
| ClickPlan
| ClickRetry
| Succeeded (data : list ScheduledTask)
| Failed (error : Thrown).

Definition handle (s : State) (a : Action) : list Call :=
  match a with
  | Submit value => onSubmit s value
  | DragEnd result => handleDragEnd s result
  | ClickEdit index => fst (handleEdit s index)
  | ClickSave index => handleSaveEdit s index
  | ClickCancel _ => [ setEditingIndex None ]
  | ChangeEditValue _ value => [ setEditValue value ]
  | ClickRemove index => handleRemove s index
  | ClickPlan => handlePlan s
  | ClickRetry => handleRetry s
  | Succeeded data => onSuccess data
  | Failed error => onError error
  end.

(** [tasks.map] of line 196 renders a row for every index that is no
    hole. *)
Definition row (s : State) (index : Z) : bool :=
  (0 <=? index)%Z
  && match nth_error (tasks s) (Z.to_nat index) with
     | Some Hole => false
     | Some _ => true
     | None => false
     end.

Definition editing (s : State) (index : Z) : bool :=
  match editingIndex s with
  | Some i => (i =? index)%Z
  | None => false
  end.

(** [error && ...]: the alert is shown for a text that is not empty. *)
Definition alertShown (s : State) : bool :=
  match error s with
  | Some text => negb (Str.isEmpty text)
  | None => false
  end.

(** Whether the render of [s] offers the action: a row shows Save and
    Cancel when it is the one edited (line 214) and Edit and Remove
    otherwise; the button of lines 276-294 needs a task, and Retry the
    alert and a count below [MAX_RETRIES] (lines 134-141).  A drag starts
    at a row and ends at a row or nowhere.  A mutation may settle at any
    time, and that the button of lines 276-294 is disabled while one is
    pending is left out: more is offered here than on the screen. *)
Definition offered (s : State) (a : Action) : bool :=
  match a with
  | Submit _ => true
  | DragEnd result =>
      row s (source result)
      && match destination result with
         | Some index => row s index
         | None => true
         end
  | ClickEdit index => row s index && negb (editing s index)
  | ClickSave index => row s index && editing s index
  | ClickCancel index => row s index && editing s index
  | ChangeEditValue index _ => row s index && editing s index
  | ClickRemove index => row s index && negb (editing s index)
  | ClickPlan => (0 <? length (tasks s))%nat
  | ClickRetry => alertShown s && (retryCount s <? MAX_RETRIES)%Z
  | Succeeded _ => true
  | Failed _ => true
  end.

(** A session from the state [s0]: actions offered by the render they are
    taken in, each followed by the render of the state its handler
    leaves. *)
Inductive session (s0 : State) : list Action -> State -> Prop :=
| session_start : session s0 [] s0
| session_step (s : State) (done : list Action) (a : Action) :
    session s0 done s -> offered s a = true ->
    session s0 (done ++ [a])%list (after s (handle s a)).

(** The state after an action, and after a list of actions each of which
    is offered when its turn comes. *)
Definition next (s : State) (a : Action) : State := after s (handle s a).

Fixpoint run (s : State) (actions : list Action) : option State :=
  match actions with
  | [] => Some s
  | a :: rest => if offered s a then run (next s a) rest else None
  end.

(** The retries since the button of lines 276-294 was last clicked or a
    mutation last succeeded. *)
Definition retriesSinceReset (done : list Action) : Z :=
  fold_left (fun n a => match a with
                        | ClickRetry => (n + 1)%Z
                        | ClickPlan => 0%Z
                        | Succeeded _ => 0%Z
                        | _ => n
                        end) done 0%Z.

(** Every slot of the array holds a task with a description, and the
    retry count is one the Retry button can have produced. *)
Definition wellFormed (s : State) : Prop :=
  Forall (fun x => exists task, x = Item task
                                /\ description task <> EmptyString) (tasks s)
  /\ (0 <= retryCount s <= MAX_RETRIES)%Z.

(** [item.reason.toLowerCase()] (line 310) on the value the service passed
    on as [reason]: a string has the method, [null] has no properties, and
    other values have no such method. *)
Definition lowerReason (reason : JSON number) : Completion string :=
  match reason with
  | JString s => Normal (toLowerCase s)
  | JNull =>
      Throw (OtherError "TypeError"
               "Cannot read properties of null (reading 'toLowerCase')")
  | _ =>
      Throw (OtherError "TypeError" "item.reason.toLowerCase is not a function")
  end.

(** The sentence of lines 307-313 entry by entry: the time, the reason in
    lower case, and what line 311 puts behind them. *)
Fixpoint overviewFrom (index length : Z) (items : list ScheduledTask)
  : Completion (list (string * string * string)) :=
  match items with
  | [] => Normal []
  | item :: rest =>
      bindC (lowerReason (reason item)) (fun lowered =>
      bindC (overviewFrom (index + 1) length rest) (fun more =>
      Normal ((time item, lowered, separator index length) :: more)))
  end.

Definition overview (schedule : list ScheduledTask)
  : Completion (list (string * string * string)) :=
  overviewFrom 0 (Z.of_nat (List.length schedule)) schedule.

(** The tasks of an array every slot of which holds one. *)
Fixpoint tasksOf (l : JsArray.t Task) : option (list Task) :=
  match l with
  | [] => Some []
  | Item task :: rest => option_map (cons task) (tasksOf rest)
  | _ :: _ => None
  end.

End Component.

End TaskPlanner.

(** States and sessions of the examples. *)
Module Sessions.

Import JsArray.

Definition threeTasks : JsArray.t Task :=
  [ Item {| description := "write the report" |};
    Item {| description := "call Ana" |};
    Item {| description := "buy bread" |} ].

(** The second of three rows is being edited. *)
Definition editingSecond : @TaskPlanner.State Reference.reference :=
  {| TaskPlanner.tasks := threeTasks; TaskPlanner.schedule := [];
     TaskPlanner.editingIndex := Some 1%Z; TaskPlanner.editValue := "call Ben";
     TaskPlanner.error := None; TaskPlanner.retryCount := 0 |}.

(** A task is added and planned; the plan fails and is retried. *)
Definition planAndRetry : list (@TaskPlanner.Action Reference.reference) :=
  [ TaskPlanner.Submit "call Ana";
    TaskPlanner.ClickPlan;
    TaskPlanner.Failed (GeminiError "quota exhausted" (Some "QUOTA") false);
    TaskPlanner.ClickRetry ].

(** A reply whose only entry gives a number as its reason. *)
Definition replyNumberReason : string :=
  Examples.scheduleText
    [ "{" ++ Examples.quoted "task" ++ ":" ++ Examples.quoted "A" ++ ","
      ++ Examples.quoted "time" ++ ":" ++ Examples.quoted "09:00" ++ ","
      ++ Examples.quoted "reason" ++ ":5}" ].

Definition planAndRetryEnd : @TaskPlanner.State Reference.reference :=
  {| TaskPlanner.tasks := [ Item {| description := "call Ana" |} ];
     TaskPlanner.schedule := []; TaskPlanner.editingIndex := None;
     TaskPlanner.editValue := EmptyString;
     TaskPlanner.error := Some "quota exhausted";
     TaskPlanner.retryCount := 1 |}.

End Sessions.

(** ** Calls that overlap *)

(** [rateLimiter] belongs to the module (line 37), and a call is suspended
    at every [await]: calls of [planTasks] that overlap, as the component's
    Retry can start them, share the one array, and while a call is
    suspended the others may evict from it and push to it.  [Others] is
    what they make of the array during each suspension of the call looked
    at: a function on the array for each timer the call awaits and for each
    request it awaits, numbered as [timers] and [generated] count them. *)
Record Others : Type := {
  duringTimer : nat -> list Z -> list Z;
  duringRequest : nat -> list Z -> list Z
}.

(** No other call touches the array while this one runs. *)
Definition undisturbed (o : Others) : Prop :=
  forall k l, duringTimer o k l = l /\ duringRequest o k l = l.

(** The world a suspended call resumes in. *)
Definition resumed (others : list Z -> list Z) (w : World) : World :=
  setRequests (others (requests w)) w.

Definition awaitTimerAmong (o : Others) (env : Env) (ms : num) (w : World)
  : World :=
  resumed (duringTimer o (timers w)) (awaitTimer env ms w).

(** [waitForSlot] among other calls. *)
Fixpoint waitForSlotAmong (o : Others) (env : Env) (rl : RateLimiter)
    (fuel : nat) (w : World) : option World :=
  match fuel with
  | O => None
  | S fuel' =>
      let t := now w in
      let w1 := setRequests (evict rl t (requests w)) w in
      if atCapacity rl (requests w1) then
        let waitTime := waitTimeOf rl t (requests w1) in
        waitForSlotAmong o env rl fuel'
          (awaitTimerAmong o env waitTime (emit (EvSlotTimer waitTime) w1))
      else
        Some (setRequests (requests w1 ++ [t])%list w1)
  end.

Section Overlap.
Context {R : Runtime}.

Definition awaitGenerateAmong (o : Others) (env : Env) (prompt : string)
    (w : World) : ModelResult * World :=
  let (r, w') := awaitGenerate env prompt w in
  (r, resumed (duringRequest o (generated w)) w').

(** [attemptOnce], the loop and [planTasks] among other calls. *)
Definition attemptOnceAmong (o : Others) (env : Env) (fuel : nat)
    (prompt : string) (w : World)
  : option (Completion (list ScheduledTask) * World) :=
  match waitForSlotAmong o env rateLimiter fuel w with
  | None => None
  | Some w1 =>
      let (r, w2) := awaitGenerateAmong o env prompt w1 in
      let (completion, logged) := handleResult r in
      Some (completion, fold_left (fun w e => emit e w) logged w2)
  end.

Fixpoint attemptLoopAmong (o : Others) (env : Env) (fuel : nat) (attempt : Z)
    (lastError : option Thrown) (prompt : string) (w : World)
  : option (Completion (list ScheduledTask) * World) :=
  if (attempt <=? maxRetries)%Z then
    match fuel with
    | O => None
    | S fuel' =>
        match attemptOnceAmong o env fuel prompt w with
        | None => None
        | Some (Normal schedule, w1) => Some (Normal schedule, w1)
        | Some (Throw error, w1) =>
            if negb (isRetryableError error) || (attempt =? maxRetries)%Z
            then Some (Throw (surface error), w1)
            else
              let delay := (baseDelay * 2 ^ attempt)%Z in
              attemptLoopAmong o env fuel' (attempt + 1)%Z (Some error) prompt
                (awaitTimerAmong o env (Int delay) (emit (EvSleep delay) w1))
        end
    end
  else
    Some (Throw match lastError with
                | Some error => error
                | None => GeminiError
                            "Failed to plan tasks after multiple attempts"
                            None true
                end, w).

Definition planTasksAmong (o : Others) (env : Env) (fuel : nat) (w : World)
  : option (Completion (list ScheduledTask) * World) :=
  if (length (tasks w) =? 0)%nat then
    Some (Throw (GeminiError "No tasks provided for planning"
                   (Some "NO_TASKS") false), w)
  else
    let taskList := taskListOf (tasks w) in
    let prompt := promptOf taskList in
    attemptLoopAmong o env fuel 0 None prompt w.

End Overlap.

(** Another call is recorded at 60000 ms, during the first timer. *)
Definition oneArrival : Others :=
  {| duringTimer := fun k l => match k with
                               | O => (l ++ [60000%Z])%list
                               | S _ => l
                               end;
     duringRequest := fun _ l => l |}.


(** No other call. *)
Definition nobody : Others :=
  {| duringTimer := fun _ l => l; duringRequest := fun _ l => l |}.

(** An environment whose first timer fires one millisecond early, and the
    others on time. *)
Definition earlyTimer : Env :=
  {| generateContent := generateContent (scripted []);
     lag := fun k => match k with
                     | O => (-1)%Z
                     | S _ => 0%Z
                     end |}.

(** * Theorems *)

(** ** Times: the regular expression and the 24-hour clock *)

Section Times.

Import Spec.

Lemma onGrid_sound (P : nat -> nat -> string -> bool) :
  onGrid P = true ->
  forall h m s, (h < 24)%nat -> (m < 60)%nat -> In s (timeTexts h m) ->
  P h m s = true.
Proof.
  intros H h m s Hh Hm Hs. unfold onGrid in H.
  rewrite forallb_forall in H.
  specialize (H (h, m)). cbn [fst snd] in H.
  rewrite forallb_forall in H. apply H; [|exact Hs].
  apply in_prod; apply in_seq; lia.
Qed.

Lemma digit_of_range (hi c : ascii) :
  Str.inRange "0" hi c = true ->
  exists d, (48 + d <= Str.code hi)%nat /\ c = digitChar d.
Proof.
  unfold Str.inRange, Str.code. intros H.
  apply andb_true_iff in H. destruct H as [Hlo Hhi].
  apply Nat.leb_le in Hlo, Hhi. change (nat_of_ascii "0") with 48%nat in Hlo.
  exists (nat_of_ascii c - 48)%nat. split; [lia|].
  unfold digitChar. replace (48 + (nat_of_ascii c - 48))%nat with (nat_of_ascii c) by lia.
  symmetry. apply ascii_nat_embedding.
Qed.

Lemma two_digits (a b : nat) :
  (b < 10)%nat ->
  two (10 * a + b) = String (digitChar a) (String (digitChar b) EmptyString).
Proof.
  intros Hb. unfold two.
  replace ((10 * a + b) / 10)%nat with a.
  2:{ apply Nat.div_unique with b; lia. }
  replace ((10 * a + b) mod 10)%nat with b.
  2:{ apply Nat.mod_unique with a; lia. }
  reflexivity.
Qed.

(** The strings the regular expression accepts have one of two shapes. *)
Lemma timeRegex_shape (s : string) :
  regex_test timeRegex s = true ->
  exists a b c d : nat,
    (c <= 5 /\ d <= 9)%nat /\
    ((((a <= 1 /\ b <= 9) \/ (a = 2 /\ b <= 3))%nat /\
      s = String (digitChar a) (String (digitChar b)
            (String ":" (String (digitChar c) (String (digitChar d) EmptyString)))))
     \/ ((a = 0 /\ b <= 9)%nat /\
         s = String (digitChar b)
               (String ":" (String (digitChar c) (String (digitChar d) EmptyString))))).
Proof.
  unfold regex_test, timeRegex.
  destruct s as [|c1 [|c2 [|c3 [|c4 [|c5 [|c6 s]]]]]]; cbn [matchK Str.isEmpty];
    rewrite ?andb_false_r, ?orb_false_r; try discriminate.
  - (* four characters *)
    rewrite andb_true_r. intros H.
    apply andb_true_iff in H. destruct H as [H1 H].
    apply andb_true_iff in H. destruct H as [H2 H].
    apply andb_true_iff in H. destruct H as [H3 H4].
    apply Ascii.eqb_eq in H2. subst c2.
    apply digit_of_range in H1, H3, H4.
    destruct H1 as (b & Hb & ->), H3 as (c & Hc & ->), H4 as (d & Hd & ->).
    change (Str.code "9") with 57%nat in *. change (Str.code "5") with 53%nat in *.
    exists 0%nat, b, c, d. split; [lia|]. right. split; [lia|reflexivity].
  - (* five characters *)
    rewrite ?andb_true_r. intros H.
    assert (Hhead : (Str.inRange "0" "1" c1 && Str.inRange "0" "9" c2
                     || Ascii.eqb c1 "2" && Str.inRange "0" "3" c2) = true
                    /\ Ascii.eqb c3 ":" = true
                    /\ Str.inRange "0" "5" c4 = true
                    /\ Str.inRange "0" "9" c5 = true).
    { destruct (Str.inRange "0" "1" c1), (Str.inRange "0" "9" c2),
        (Ascii.eqb c1 "2"), (Str.inRange "0" "3" c2), (Ascii.eqb c3 ":"),
        (Str.inRange "0" "5" c4), (Str.inRange "0" "9" c5);
        cbn in H |- *; auto; discriminate. }
    clear H. destruct Hhead as (Hh & H3 & H4 & H5).
    apply Ascii.eqb_eq in H3. subst c3.
    apply digit_of_range in H4, H5.
    destruct H4 as (c & Hc & ->), H5 as (d & Hd & ->).
    change (Str.code "9") with 57%nat in *. change (Str.code "5") with 53%nat in *.
    apply orb_true_iff in Hh. destruct Hh as [Hh|Hh];
      apply andb_true_iff in Hh; destruct Hh as [H1 H2].
    + apply digit_of_range in H1, H2.
      destruct H1 as (a & Ha & ->), H2 as (b & Hb & ->).
      change (Str.code "1") with 49%nat in *. change (Str.code "9") with 57%nat in *.
      exists a, b, c, d. split; [lia|]. left. split; [lia|reflexivity].
    + apply Ascii.eqb_eq in H1. subst c1. apply digit_of_range in H2.
      destruct H2 as (b & Hb & ->). change (Str.code "3") with 51%nat in *.
      exists 2%nat, b, c, d. split; [lia|]. left. split; [lia|reflexivity].
Qed.

Lemma timeRegex_isTime24 (s : string) :
  regex_test timeRegex s = true -> isTime24 s.
Proof.
  intros H. apply timeRegex_shape in H.
  destruct H as (a & b & c & d & [Hc Hd] & [[Hab ->] | [[-> Hb] ->]]).
  - exists (10 * a + b)%nat, (10 * c + d)%nat. split; [lia|]. split; [lia|].
    left. rewrite !two_digits by lia. reflexivity.
  - exists b, (10 * c + d)%nat. split; [lia|]. split; [lia|].
    unfold timeTexts. replace (b <? 10)%nat with true by (symmetry; apply Nat.ltb_lt; lia).
    right. left. unfold one. rewrite two_digits by lia. reflexivity.
Qed.

Lemma grid_timeRegex : onGrid (fun _ _ s => regex_test timeRegex s) = true.
Proof. vm_compute. reflexivity. Qed.

Lemma isTime24_timeRegex (s : string) :
  isTime24 s -> regex_test timeRegex s = true.
Proof.
  intros (h & m & Hh & Hm & Hs).
  exact (onGrid_sound _ grid_timeRegex h m s Hh Hm Hs).
Qed.


Lemma grid_clockOf :
  onGrid (fun h m s =>
            match clockOf s with
            | Some (h', m') => (h' =? h)%nat && (m' =? m)%nat
            | None => false
            end) = true.
Proof. vm_compute. reflexivity. Qed.

Lemma clockOf_text (h m : nat) (s : string) :
  (h < 24)%nat -> (m < 60)%nat -> In s (timeTexts h m) -> clockOf s = Some (h, m).
Proof.
  intros Hh Hm Hs. pose proof (onGrid_sound _ grid_clockOf h m s Hh Hm Hs) as H.
  cbv beta in H. destruct (clockOf s) as [[h' m']|]; [|discriminate].
  apply andb_true_iff in H. destruct H as [H1 H2].
  apply Nat.eqb_eq in H1, H2. congruence.
Qed.

Lemma time24_correct (s : string) : time24 s = true <-> isTime24 s.
Proof.
  unfold time24. split.
  - destruct (clockOf s) as [[h m]|] eqn:E; [|discriminate]. intros _.
    unfold clockOf in E.
    destruct (find _ clockTable) as [[hm texts]|] eqn:F; [|discriminate].
    cbn in E. injection E as ->. apply find_some in F. destruct F as [Hin Hex].
    cbn [fst snd] in Hex. apply existsb_exists in Hex.
    destruct Hex as (t & Ht & Heq). apply String.eqb_eq in Heq. subst t.
    unfold clockTable in Hin. apply in_map_iff in Hin.
    destruct Hin as ([h' m'] & Heq & Hin). injection Heq as -> -> <-.
    unfold grid in Hin. apply in_prod_iff in Hin. destruct Hin as [H1 H2].
    apply in_seq in H1, H2. exists h, m. repeat split; try lia. exact Ht.
  - intros (h & m & Hh & Hm & Hs). rewrite (clockOf_text h m s Hh Hm Hs).
    reflexivity.
Qed.

Lemma grid_convertTo12Hour :
  onGrid (fun h m s =>
            match convertTo12Hour s with
            | Normal t => String.eqb t (time12 h m)
            | Throw _ => false
            end) = true.
Proof. vm_compute. reflexivity. Qed.

Lemma convertTo12Hour_text (h m : nat) (s : string) :
  (h < 24)%nat -> (m < 60)%nat -> In s (timeTexts h m) ->
  convertTo12Hour s = Normal (time12 h m).
Proof.
  intros Hh Hm Hs.
  pose proof (onGrid_sound _ grid_convertTo12Hour h m s Hh Hm Hs) as H.
  cbv beta in H. destruct (convertTo12Hour s) as [t|]; [|discriminate].
  apply String.eqb_eq in H. congruence.
Qed.

(** C3: on every 24-hour time the validation lets through, written HH:MM
    or H:MM, [convertTo12Hour] returns the 12-hour form the specification
    describes: hours 0 and 12 as 12, 13-23 less 12, 1-11 as they are,
    minutes in two digits, AM for hours 0-11 and PM for 12-23; and the
    three boundary examples come out as listed. *)
Theorem C3_convertTo12Hour :
  (forall h m s, (h < 24)%nat -> (m < 60)%nat -> In s (timeTexts h m) ->
     regex_test timeRegex s = true /\
     convertTo12Hour s
     = Normal (display (hour12 h) ++ ":" ++ two m ++ " " ++ period h))
  /\ (forall s, regex_test timeRegex s = true ->
        exists h m, (h < 24)%nat /\ (m < 60)%nat /\ In s (timeTexts h m))
  /\ convertTo12Hour "00:00" = Normal "12:00 AM"
  /\ convertTo12Hour "12:00" = Normal "12:00 PM"
  /\ convertTo12Hour "23:59" = Normal "11:59 PM".
Proof.
  split; [|split; [|repeat split]].
  - intros h m s Hh Hm Hs. split.
    + apply isTime24_timeRegex. exists h, m. auto.
    + apply (convertTo12Hour_text h m s Hh Hm Hs).
  - intros s H. apply timeRegex_isTime24 in H. exact H.
Qed.

(** Five past five in the afternoon. *)
Lemma C3_convertTo12Hour_witness :
  regex_test timeRegex "17:05" = true /\
  convertTo12Hour "17:05" = Normal "5:05 PM".
Proof.
  exact (proj1 C3_convertTo12Hour 17%nat 5%nat "17:05"
           ltac:(lia) ltac:(lia) ltac:(left; reflexivity)).
Defined.

End Times.

(** ** Mapping with a callback that may throw *)

Section MapC.
Context {A B : Type} (f : A -> Completion B).

Lemma mapC_Normal (l : list A) (ys : list B) :
  mapC f l = Normal ys -> Forall2 (fun x y => f x = Normal y) l ys.
Proof.
  revert ys. induction l as [|x l IH]; cbn [mapC]; intros ys H.
  - injection H as <-. constructor.
  - destruct (f x) as [y|] eqn:Hx; cbn [bindC] in H; [|discriminate].
    destruct (mapC f l) as [ys'|] eqn:Hl; cbn [bindC] in H; [|discriminate].
    injection H as <-. constructor; auto.
Qed.

Lemma mapC_length (l : list A) (ys : list B) :
  mapC f l = Normal ys -> length ys = length l.
Proof.
  intros H. apply mapC_Normal in H. symmetry. exact (Forall2_length H).
Qed.

(** A throw of [mapC] is the throw of the first element that throws. *)
Lemma mapC_Throw (l : list A) (e : Thrown) :
  mapC f l = Throw e ->
  exists before x after,
    l = (before ++ x :: after)%list /\ f x = Throw e /\
    Forall (fun x' => exists y, f x' = Normal y) before.
Proof.
  induction l as [|x l IH]; cbn [mapC]; intros H; [discriminate|].
  destruct (f x) as [y|e'] eqn:Hx; cbn [bindC] in H.
  - destruct (mapC f l) as [ys'|e''] eqn:Hl; cbn [bindC] in H; [discriminate|].
    injection H as ->. destruct (IH eq_refl) as (before & x' & after & -> & Hx' & Hb).
    exists (x :: before), x', after. repeat split; auto.
    constructor; eauto.
  - injection H as ->. exists [], x, l. repeat split; auto.
Qed.



(** All or nothing: as soon as one element throws, so does the map. *)
Lemma mapC_some_Throw (P : Thrown -> Prop) (l : list A) :
  Forall (fun x => (exists y, f x = Normal y) \/ (exists e, f x = Throw e /\ P e)) l ->
  Exists (fun x => exists e, f x = Throw e) l ->
  exists e, mapC f l = Throw e /\ P e.
Proof.
  induction 1 as [|x l Hx Hl IH]; intros Hex.
  - inversion Hex.
  - cbn [mapC]. destruct Hx as [[y Hy] | (e & He & HP)].
    + rewrite Hy. cbn [bindC].
      assert (Hex' : Exists (fun x => exists e, f x = Throw e) l).
      { inversion Hex as [? ? [e He]|]; subst; [congruence|assumption]. }
      destruct (IH Hex') as (e & -> & HP). cbn. eauto.
    + rewrite He. cbn. eauto.
Qed.

End MapC.

(** ** The stable sort *)

Section Sort.
Context {A : Type}.

Lemma insert_perm (cmp : A -> A -> num) (x : A) (l : list A) :
  Permutation (x :: l) (insert cmp x l).
Proof.
  induction l as [|y l IH]; cbn [insert]; [reflexivity|].
  destruct (comesAfter cmp x y); [|reflexivity].
  rewrite perm_swap. apply perm_skip. exact IH.
Qed.

Lemma sort_perm (cmp : A -> A -> num) (l : list A) :
  Permutation l (sort cmp l).
Proof.
  induction l as [|x l IH]; cbn [sort]; [reflexivity|].
  rewrite <- insert_perm. apply perm_skip. exact IH.
Qed.

Lemma insert_ext (cmp cmp' : A -> A -> num) (x : A) (l : list A) :
  (forall y, In y l -> comesAfter cmp x y = comesAfter cmp' x y) ->
  insert cmp x l = insert cmp' x l.
Proof.
  induction l as [|y l IH]; intros H; cbn [insert]; [reflexivity|].
  rewrite (H y (or_introl eq_refl)). rewrite IH; [reflexivity|].
  intros z Hz. apply H. right. exact Hz.
Qed.

(** The sort only consults the comparator on elements of the list. *)
Lemma sort_ext (cmp cmp' : A -> A -> num) (l : list A) :
  (forall x y, In x l -> In y l -> comesAfter cmp x y = comesAfter cmp' x y) ->
  sort cmp l = sort cmp' l.
Proof.
  induction l as [|x l IH]; intros H; cbn [sort]; [reflexivity|].
  rewrite IH by (intros; apply H; right; assumption).
  apply insert_ext. intros y Hy. apply H; [left; reflexivity|].
  right. apply (Permutation_in y (Permutation_sym (sort_perm cmp' l))). exact Hy.
Qed.

Variable key : A -> Z.

Lemma insert_sorted (x : A) (l : list A) :
  StronglySorted (keyLe key) l -> StronglySorted (keyLe key) (insert (byKey key) x l).
Proof.
  induction 1 as [|y l Hl IH Hy]; cbn [insert].
  - constructor; constructor.
  - destruct (comesAfter (byKey key) x y) eqn:E; unfold comesAfter, byKey in E.
    + apply Z.ltb_lt in E. constructor; [exact IH|].
      apply (Permutation_Forall (insert_perm (byKey key) x l)).
      constructor; [unfold keyLe; lia|exact Hy].
    + apply Z.ltb_ge in E. constructor; [constructor; assumption|].
      constructor; [unfold keyLe; lia|].
      eapply Forall_impl; [|exact Hy]. unfold keyLe. intros; lia.
Qed.

Lemma sort_sorted (l : list A) : StronglySorted (keyLe key) (sort (byKey key) l).
Proof.
  induction l as [|x l IH]; cbn [sort]; [constructor|].
  apply insert_sorted. exact IH.
Qed.

Lemma insert_stable (k : Z) (x : A) (l : list A) :
  filter (fun a => (key a =? k)%Z) (insert (byKey key) x l)
  = filter (fun a => (key a =? k)%Z) (x :: l).
Proof.
  induction l as [|y l IH]; cbn [insert]; [reflexivity|].
  destruct (comesAfter (byKey key) x y) eqn:E; [|reflexivity].
  unfold comesAfter, byKey in E. apply Z.ltb_lt in E.
  cbn [filter]. rewrite IH. cbn [filter].
  destruct (key x =? k)%Z eqn:Ex, (key y =? k)%Z eqn:Ey; try reflexivity.
  apply Z.eqb_eq in Ex, Ey. lia.
Qed.

(** Stability: the elements of any one key are in their original order. *)
Lemma sort_stable (k : Z) (l : list A) :
  filter (fun a => (key a =? k)%Z) (sort (byKey key) l)
  = filter (fun a => (key a =? k)%Z) l.
Proof.
  induction l as [|x l IH]; cbn [sort]; [reflexivity|].
  rewrite insert_stable. cbn [filter]. rewrite IH. reflexivity.
Qed.

End Sort.

(** ** Validation of the reply *)

Section ValidationFacts.
Context {R : Runtime}.

Local Abbreviation json := (JSON number).

Lemma grid_minutesOf :
  Spec.onGrid (fun h m s =>
                 match minutesOf s with
                 | Int z => (z =? Z.of_nat (h * 60 + m))%Z
                 | NaN => false
                 end) = true.
Proof. vm_compute. reflexivity. Qed.

(** On a validated time the comparator's key is the minutes since
    midnight. *)
Lemma minutesOf_valid (s : string) :
  regex_test timeRegex s = true ->
  minutesOf s = Int (Spec.minutesSinceMidnight s).
Proof.
  intros H. apply timeRegex_isTime24 in H. destruct H as (h & m & Hh & Hm & Hs).
  pose proof (onGrid_sound _ grid_minutesOf h m s Hh Hm Hs) as G. cbv beta in G.
  unfold Spec.minutesSinceMidnight. rewrite (clockOf_text h m s Hh Hm Hs).
  destruct (minutesOf s) as [|z]; [discriminate|].
  apply Z.eqb_eq in G. congruence.
Qed.

Lemma Get_fieldOf (item : json) (key : string) :
  item <> JNull -> Get item key = Normal (fieldOf item key).
Proof. destruct item; cbn; congruence. Qed.

(** What the callback accepted, read off its result. *)
Lemma validateItem_Normal (item : json) (v : Validated) :
  validateItem item = Normal v ->
  fieldOf item "task" = Some (v_task v) /\
  fieldOf item "time" = Some (JString (sortTime v)) /\
  fieldOf item "reason" = Some (v_reason v) /\
  ToBoolean (Some (v_task v)) = true /\
  ToBoolean (Some (v_reason v)) = true /\
  regex_test timeRegex (sortTime v) = true /\
  convertTo12Hour (sortTime v) = Normal (v_time v).
Proof.
  unfold validateItem. destruct (Get item "task") as [item_task|] eqn:Gt;
    cbn [bindC]; [|discriminate].
  assert (Hnn : item <> JNull) by (intros ->; discriminate).
  rewrite (Get_fieldOf item "task" Hnn) in Gt. injection Gt as <-.
  rewrite !(Get_fieldOf item _ Hnn). cbn [bindC].
  destruct (fieldOf item "task") as [task|]; [|discriminate].
  destruct (fieldOf item "time") as [time|]; [|discriminate].
  destruct (fieldOf item "reason") as [reason|]; [|discriminate].
  destruct (ToBoolean (Some task)) eqn:Tt; cbn [negb orb]; [|discriminate].
  destruct (ToBoolean (Some time)) eqn:Tm; cbn [negb orb]; [|discriminate].
  destruct (ToBoolean (Some reason)) eqn:Tr; cbn [negb orb]; [|discriminate].
  destruct (regex_test timeRegex (ToString time)) eqn:Re; cbn [negb]; [|discriminate].
  destruct time as [| | |time24| |]; try discriminate.
  cbn [ToString] in Re.
  destruct (convertTo12Hour time24) as [time12|] eqn:Ec; cbn [bindC]; [|discriminate].
  intros H. injection H as <-. cbn. auto 10.
Qed.

(** An entry that is not [null] and whose [time] is no array is accepted
    exactly when it is as the specification wants it, and is otherwise
    refused with INVALID_FORMAT. *)
Lemma validateItem_plain (item : json) :
  plainEntry item = true ->
  if entryValid item
  then exists v, validateItem item = Normal v
  else exists e, validateItem item = Throw e /\ hasCode "INVALID_FORMAT" e.
Proof.
  intros Hp.
  assert (Hnn : item <> JNull) by (intros ->; discriminate).
  assert (Harr : forall items, fieldOf item "time" <> Some (JArray items)).
  { intros items E. unfold plainEntry in Hp. rewrite E in Hp.
    destruct item; discriminate. }
  clear Hp. unfold entryValid, validateItem.
  rewrite !(Get_fieldOf item _ Hnn). cbn [bindC].
  assert (missing : exists e,
             Throw (A := Validated)
               (newGeminiError "Invalid schedule item: missing required fields"
                  "INVALID_FORMAT") = Throw e /\ hasCode "INVALID_FORMAT" e).
  { eexists. split; [reflexivity|]. eexists. reflexivity. }
  destruct (fieldOf item "task") as [task|];
    [|cbn [ToBoolean andb]; destruct (fieldOf item "time");
      destruct (fieldOf item "reason"); exact missing].
  destruct (fieldOf item "time") as [time|];
    [|cbn [ToBoolean andb]; rewrite andb_false_r;
      destruct (fieldOf item "reason"); exact missing].
  destruct (fieldOf item "reason") as [reason|];
    [|cbn [ToBoolean andb]; rewrite andb_false_r; exact missing].
  destruct (ToBoolean (Some task)); cbn [negb orb andb]; [|exact missing].
  destruct (ToBoolean (Some time)) eqn:Tm; cbn [negb orb andb]; [|exact missing].
  destruct (ToBoolean (Some reason)); cbn [negb orb andb]; [|exact missing].
  assert (badTime : regex_test timeRegex (ToString time) = false ->
            exists e,
              (if negb (regex_test timeRegex (ToString time))
               then Throw (A := Validated)
                      (newGeminiError ("Invalid time format: " ++ ToString time)
                         "INVALID_FORMAT")
               else match time with
                    | JString time24 =>
                        bindC (convertTo12Hour time24) (fun time12 =>
                        Normal {| v_task := task; v_time := time12;
                                  v_reason := reason; sortTime := time24 |})
                    | _ => Throw (OtherError "TypeError"
                                    "time24.split is not a function")
                    end) = Throw e /\ hasCode "INVALID_FORMAT" e).
  { intros ->. cbn [negb]. eexists. split; [reflexivity|]. eexists. reflexivity. }
  destruct time as [|b|n|s|items|fields].
  - discriminate.
  - destruct b; [|discriminate]. apply badTime. reflexivity.
  - apply badTime. apply number_toString_not_time.
  - destruct (Spec.time24 s) eqn:Et.
    + apply time24_correct in Et. pose proof (isTime24_timeRegex s Et) as Re.
      cbn [ToString]. rewrite Re. cbn [negb].
      destruct Et as (h & m & Hh & Hm & Hs).
      rewrite (convertTo12Hour_text h m s Hh Hm Hs). cbn [bindC]. eauto.
    + apply badTime. cbn [ToString].
      destruct (regex_test timeRegex s) eqn:Re; [|reflexivity].
      apply timeRegex_isTime24, time24_correct in Re. congruence.
  - exfalso. exact (Harr items eq_refl).
  - apply badTime. reflexivity.
Qed.




(** Every throw of the callback: INVALID_FORMAT, or a TypeError. *)
Lemma validateItem_Throw (item : json) (e : Thrown) :
  validateItem item = Throw e ->
  hasCode "INVALID_FORMAT" e \/ exists message, e = OtherError "TypeError" message.
Proof.
  destruct (plainEntry item) eqn:Hp.
  - pose proof (validateItem_plain item Hp) as H.
    destruct (entryValid item).
    + destruct H as [v ->]. discriminate.
    + destruct H as (e' & -> & Hc). intros E. injection E as <-. left. exact Hc.
  - unfold plainEntry in Hp. destruct item as [| | | | |fields]; try discriminate.
    + cbn. intros E. injection E as <-. right. eauto.
    + unfold validateItem. cbn [Get bindC fieldOf] in *.
      destruct (lookup "time" fields) as [[| | | |items|]|]; try discriminate.
      destruct (lookup "task" fields) as [task|];
        [|intros E; injection E as <-; left; eexists; reflexivity].
      destruct (lookup "reason" fields) as [reason|];
        [|intros E; injection E as <-; left; eexists; reflexivity].
      destruct (_ || _);
        [intros E; injection E as <-; left; eexists; reflexivity|].
      destruct (negb _); intros E; injection E as <-;
        [left; eexists; reflexivity | right; eauto].
Qed.

End ValidationFacts.

(** ** From the reply to the schedule *)

Section ReplyFacts.
Context {R : Runtime}.

Local Abbreviation json := (JSON number).

(** A reply that parses to an object with a [schedule] array is not empty,
    passes the structural check, and is decided by its entries. *)
Lemma handleResult_schedule (response : string) (fields : list (string * json))
    (items : list json) :
  JSON_parse (cleanResponse response) = Some (JObject fields) ->
  lookup "schedule" fields = Some (JArray items) ->
  handleResult (Text response)
  = match mapC validateItem items with
    | Normal validated =>
        (Normal (map removeSortTime (sort compareSortTime validated)), [])
    | Throw (GeminiError message code isRetryable) =>
        (Throw (GeminiError message code isRetryable), [])
    | Throw (OtherError _ _) =>
        (Throw (newGeminiError "Failed to parse Gemini response" "PARSE_ERROR"),
         [EvConsoleError response])
    end.
Proof.
  intros Hp Hs. unfold handleResult.
  destruct response as [|c response].
  - cbn in Hp. rewrite JSON_parse_empty in Hp. discriminate.
  - cbn [Str.isEmpty]. unfold parseOrClassify, parseSchedule.
    rewrite Hp. cbn [Get bindC]. rewrite Hs. cbn [ToBoolean isArray negb orb].
    destruct (mapC validateItem items) as [validated|[]]; reflexivity.
Qed.

(** A schedule comes out of a reply only this way. *)
Lemma handleResult_Normal (response : string) (out : list ScheduledTask)
    (logged : list Event) :
  handleResult (Text response) = (Normal out, logged) ->
  exists fields items validated,
    JSON_parse (cleanResponse response) = Some (JObject fields) /\
    lookup "schedule" fields = Some (JArray items) /\
    mapC validateItem items = Normal validated /\
    out = map removeSortTime (sort compareSortTime validated) /\
    logged = [].
Proof.
  unfold handleResult. destruct (Str.isEmpty response); [discriminate|].
  unfold parseOrClassify, parseSchedule.
  destruct (JSON_parse (cleanResponse response)) as [parsed|] eqn:Hp;
    [|discriminate].
  destruct parsed as [| | | | |fields]; cbn [Get bindC lookup ToBoolean isArray negb orb];
    try discriminate.
  destruct (lookup "schedule" fields) as [[| | | |items|]|] eqn:Hs;
    cbn [ToBoolean isArray negb orb]; try discriminate.
  - destruct (negb b || true); discriminate.
  - rewrite orb_true_r. discriminate.
  - rewrite orb_true_r. discriminate.
  - destruct (mapC validateItem items) as [validated|[]] eqn:Hm; cbn [bindC];
      try discriminate.
    intros H. injection H as <- <-. exists fields, items, validated. auto.
Qed.

(** Every error raised while a reply is handled is retryable: the
    classified errors of lines 119-166 are built with the default flag. *)
Lemma handleResult_retryable (response : string) (e : Thrown)
    (logged : list Event) :
  handleResult (Text response) = (Throw e, logged) ->
  isRetryableError e = true.
Proof.
  unfold handleResult. destruct (Str.isEmpty response).
  { intros H. injection H as <- _. reflexivity. }
  unfold parseOrClassify.
  destruct (parseSchedule response) as [out|[message code retry|name message]] eqn:Hp;
    [discriminate| |intros H; injection H as <- _; reflexivity].
  intros H. injection H as <- _. cbn [isRetryableError].
  unfold parseSchedule in Hp.
  destruct (JSON_parse (cleanResponse response)) as [parsed|]; [|discriminate].
  assert (Hs : exists schedule, Get parsed "schedule" = Normal schedule).
  { destruct parsed; cbn [Get]; eauto. discriminate. }
  destruct Hs as [schedule Hs]. rewrite Hs in Hp. cbn [bindC] in Hp.
  destruct (negb (ToBoolean schedule) || negb (isArray schedule)).
  { injection Hp as _ _ <-. reflexivity. }
  destruct schedule as [[| | | |items|]|]; try discriminate.
  destruct (mapC validateItem items) as [validated|e] eqn:Hm; cbn [bindC] in Hp;
    [discriminate|].
  injection Hp as ->. apply mapC_Throw in Hm.
  destruct Hm as (before & item & after & _ & He & _).
  apply validateItem_Throw in He.
  destruct He as [[message' He] | [message' He]]; congruence.
Qed.

(** On validated entries the comparator of line 153 subtracts minutes
    since midnight. *)
Lemma sort_validated (items : list json) (validated : list Validated) :
  mapC validateItem items = Normal validated ->
  sort compareSortTime validated = sort (byKey sortKey) validated.
Proof.
  intros Hm. apply mapC_Normal in Hm.
  assert (Hv : Forall (fun v => regex_test timeRegex (sortTime v) = true) validated).
  { induction Hm as [|item v items validated Hv _ IH]; constructor; [|exact IH].
    apply validateItem_Normal in Hv. tauto. }
  rewrite Forall_forall in Hv.
  apply sort_ext. intros a b Ha Hb.
  unfold comesAfter, compareSortTime, byKey, sortKey.
  rewrite (minutesOf_valid _ (Hv a Ha)), (minutesOf_valid _ (Hv b Hb)).
  reflexivity.
Qed.


(** C4: the schedule a reply yields is the list of its validated entries,
    sorted by [sortKey], the minutes since midnight of their 24-hour
    times, equal times in their original order, each without its sort key: its task and
    reason are those of the entry and its time is the 12-hour form. *)
Theorem C4_sorted_stable (response : string) (out : list ScheduledTask)
    (logged : list Event) :
  handleResult (Text response) = (Normal out, logged) ->
  exists (fields : list (string * json)) (items : list json)
         (validated sorted : list Validated),
    JSON_parse (cleanResponse response) = Some (JObject fields) /\
    lookup "schedule" fields = Some (JArray items) /\
    Forall2 (fun item v =>
               fieldOf item "task" = Some (v_task v) /\
               fieldOf item "time" = Some (JString (sortTime v)) /\
               fieldOf item "reason" = Some (v_reason v) /\
               Spec.isTime24 (sortTime v) /\
               convertTo12Hour (sortTime v) = Normal (v_time v))
            items validated /\
    Permutation validated sorted /\
    StronglySorted (keyLe sortKey) sorted /\
    (forall k, filter (fun v => (sortKey v =? k)%Z) sorted
               = filter (fun v => (sortKey v =? k)%Z) validated) /\
    Forall2 (fun v entry =>
               task entry = v_task v /\ time entry = v_time v /\
               reason entry = v_reason v)
            sorted out.
Proof.
  intros H. apply handleResult_Normal in H.
  destruct H as (fields & items & validated & Hp & Hs & Hm & -> & _).
  exists fields, items, validated, (sort compareSortTime validated).
  rewrite (sort_validated items validated Hm).
  split; [exact Hp|]. split; [exact Hs|]. split; [|split; [|split; [|split]]].
  - apply mapC_Normal in Hm. eapply Forall2_impl; [|exact Hm].
    intros item v Hv. apply validateItem_Normal in Hv.
    destruct Hv as (Ht & Htime & Hr & _ & _ & Hre & Hc).
    repeat split; auto. apply timeRegex_isTime24. exact Hre.
  - apply sort_perm.
  - apply (sort_sorted sortKey).
  - intros k. apply (sort_stable sortKey).
  - induction (sort (byKey sortKey) validated) as [|v l IH]; cbn [map];
      constructor; auto.
Qed.

End ReplyFacts.



(** What becomes of some entries.  A missing task decides before the time
    is looked at, and an array that prints as no time is refused like any
    other text that is no time. *)
Example verdict_examples :
  map (@verdict Reference.reference)
    [ JNull;
      JObject [("time", JArray [JString "09:00"]); ("reason", JString "r")];
      JObject [("task", JString "A"); ("time", JArray []);
               ("reason", JString "r")];
      JObject [("task", JString "A"); ("time", JArray [JString "25:00"]);
               ("reason", JString "r")];
      JObject [("task", JString "A"); ("time", JArray [JString "09:00"]);
               ("reason", JString "r")];
      JObject [("task", JString "A"); ("time", JString "24:15");
               ("reason", JString "r")];
      JObject [("task", JString "A"); ("time", JString "9:00");
               ("reason", JNumber 5%Z)];
      JString "09:00" ]
  = [ Crashes; Refused; Refused; Refused; Crashes; Refused; Accepted; Refused ].
Proof. reflexivity. Qed.

(** The first entry at fault decides: a refused entry in front of a
    [null] one. *)
Example refused_before_null :
  @handleResult Reference.reference
    (Text (Examples.scheduleText
             [Examples.entryText "sleep" "24:15" "late"; "null"]))
  = (Throw (GeminiError "Invalid time format: 24:15" (Some "INVALID_FORMAT") true),
     []).
Proof. reflexivity. Qed.

(** A [time] that is an array holding a time passes the regular expression
    (its text is the time) and then has no [split]: PARSE_ERROR again. *)
Example array_time_is_a_parse_error :
  @handleResult Reference.reference (Text Examples.replyArrayTime)
  = (Throw (GeminiError "Failed to parse Gemini response"
              (Some "PARSE_ERROR") true),
     [EvConsoleError Examples.replyArrayTime]).
Proof. reflexivity. Qed.

Example bad_time_is_refused :
  @handleResult Reference.reference (Text Examples.replyBadTime)
  = (Throw (GeminiError "Invalid time format: 24:15" (Some "INVALID_FORMAT") true),
     []).
Proof. reflexivity. Qed.

(** The round trip of the specification, code fence included. *)
Example round_trip :
  @handleResult Reference.reference (Text Examples.replyOne)
  = (Normal [ {| task := JString "A"; time := "9:00 AM";
                 reason := JString "r" |} ], []).
Proof. reflexivity. Qed.

(** Four entries out of order, two of them at 9:15: sorted, the two in
    their original order. *)
Lemma C4_sorted_stable_witness :
  @handleResult Reference.reference (Text Examples.replyUnsorted)
  = (Normal [ {| task := JString "run"; time := "6:00 AM";
                 reason := JString "early" |};
              {| task := JString "mail"; time := "9:15 AM";
                 reason := JString "first" |};
              {| task := JString "call"; time := "9:15 AM";
                 reason := JString "second" |};
              {| task := JString "lunch"; time := "2:30 PM";
                 reason := JString "after the morning" |} ], [])
  /\ exists (fields : list (string * JSON Z)) (items : list (JSON Z))
            (validated sorted : list (@Validated Reference.reference)),
       @JSON_parse Reference.reference (cleanResponse Examples.replyUnsorted)
       = Some (JObject fields) /\
       @lookup Reference.reference "schedule" fields = Some (JArray items) /\
       length validated = 4%nat /\ Permutation validated sorted.
Proof.
  assert (E : @handleResult Reference.reference (Text Examples.replyUnsorted)
              = (Normal [ {| task := JString "run"; time := "6:00 AM";
                             reason := JString "early" |};
                          {| task := JString "mail"; time := "9:15 AM";
                             reason := JString "first" |};
                          {| task := JString "call"; time := "9:15 AM";
                             reason := JString "second" |};
                          {| task := JString "lunch"; time := "2:30 PM";
                             reason := JString "after the morning" |} ], []))
    by reflexivity.
  split; [exact E|].
  destruct (@C4_sorted_stable Reference.reference _ _ _ E)
    as (fields & items & validated & sorted & Hp & Hs & Hv & Hperm & _ & _ & Hout).
  exists fields, items, validated, sorted. repeat split; auto.
  rewrite (Permutation_length Hperm). exact (Forall2_length Hout).
Defined.

(** ** The rate limiter *)

Section RateLimiterFacts.
Variable env : Env.
Variable rl : RateLimiter.

Lemma evict_length (t : Z) (l : list Z) :
  (length (evict rl t l) <= length l)%nat.
Proof. apply filter_length_le. Qed.

Lemma evict_in_window (t : Z) (l : list Z) :
  Forall (fun x => (t - x < windowMs rl)%Z) (evict rl t l).
Proof.
  apply Forall_forall. intros x Hx. apply filter_In in Hx.
  destruct Hx as [_ Hx]. apply Z.ltb_lt in Hx. exact Hx.
Qed.

(** Evicting at a later time subsumes evicting at an earlier one. *)
Lemma evict_evict (t t' : Z) (l : list Z) :
  (t <= t')%Z -> evict rl t' (evict rl t l) = evict rl t' l.
Proof.
  intros Ht. unfold evict. induction l as [|x l IH]; cbn [filter]; [reflexivity|].
  destruct (t - x <? windowMs rl)%Z eqn:E1; cbn [filter];
    destruct (t' - x <? windowMs rl)%Z eqn:E2; rewrite ?IH; try reflexivity.
  apply Z.ltb_ge in E1. apply Z.ltb_lt in E2. lia.
Qed.

Lemma filter_filter_pred {A : Type} (p q : A -> bool) (l : list A) :
  filter p (filter q l) = filter (fun x => q x && p x) l.
Proof.
  induction l as [|x l IH]; cbn [filter]; [reflexivity|].
  destruct (q x); cbn [filter andb]; rewrite IH; reflexivity.
Qed.

Lemma filter_drops {A : Type} (p : A -> bool) (l : list A) :
  (length (filter p l) < length l)%nat -> exists x, In x l /\ p x = false.
Proof.
  induction l as [|x l IH]; cbn [filter length]; [lia|].
  destruct (p x) eqn:E.
  - cbn [length]. intros H. destruct IH as (y & Hy & Hp); [lia|].
    exists y. split; [right|]; assumption.
  - intros _. exists x. split; [left; reflexivity|exact E].
Qed.

(** What a return of [waitForSlot] tells, whatever the timers did: the
    call is recorded at the final time, behind timestamps of the original
    array that are all inside the window and fewer than [limit]. *)
Lemma waitForSlot_returns (fuel : nat) (w w' : World) :
  waitForSlot env rl fuel w = Some w' ->
  tasks w' = tasks w /\ generated w' = generated w /\
  (exists ev, events w' = (events w ++ ev)%list /\ attemptView ev = []) /\
  exists kept p,
    requests w' = (kept ++ [now w'])%list /\
    kept = filter p (requests w) /\
    Forall (fun x => (now w' - x < windowMs rl)%Z) kept /\
    atCapacity rl kept = false.
Proof.
  revert w. induction fuel as [|fuel IH]; intros w; cbn [waitForSlot];
    [discriminate|].
  cbn [requests setRequests now].
  destruct (atCapacity rl (evict rl (now w) (requests w))) eqn:Hcap.
  - intros H. apply IH in H. cbn [tasks generated events requests awaitTimer emit setRequests] in H.
    destruct H as (Ht & Hg & (ev & Hev & Hview) & kept & p & Hreq & Hkept & Hwin & Hc).
    split; [exact Ht|]. split; [exact Hg|]. split.
    + eexists. rewrite Hev, <- app_assoc. split; [reflexivity|].
      cbn. exact Hview.
    + exists kept. eexists. split; [exact Hreq|].
      split; [|split; assumption].
      rewrite Hkept. unfold evict. apply filter_filter_pred.
  - intros H. injection H as <-. cbn [tasks generated events requests now setRequests].
    split; [reflexivity|]. split; [reflexivity|]. split.
    + exists []. rewrite app_nil_r. split; reflexivity.
    + exists (evict rl (now w) (requests w)). eexists.
      split; [reflexivity|]. split; [reflexivity|].
      split; [apply evict_in_window | exact Hcap].
Qed.

Hypothesis lag_nonneg : forall k, (0 <= lag env k)%Z.

Lemma timerDelay_ge (ms : Z) : (ms <= timerDelay (Int ms))%Z.
Proof. cbn. lia. Qed.

(** With timers that are not early the clock only advances, and the array
    on return is the original one evicted at the final time. *)
Lemma waitForSlot_monotone (fuel : nat) (w w' : World) :
  waitForSlot env rl fuel w = Some w' ->
  (now w <= now w')%Z /\
  requests w' = (evict rl (now w') (requests w) ++ [now w'])%list.
Proof.
  revert w. induction fuel as [|fuel IH]; intros w; cbn [waitForSlot];
    [discriminate|].
  cbn [requests setRequests now].
  destruct (atCapacity rl (evict rl (now w) (requests w))) eqn:Hcap.
  - intros H. apply IH in H.
    cbn [requests now timers awaitTimer emit setRequests] in H.
    destruct H as [Hnow Hreq].
    assert (Hstep : (now w <= now w + timerDelay
                       (waitTimeOf rl (now w) (evict rl (now w) (requests w)))
                     + lag env (timers w))%Z).
    { pose proof (lag_nonneg (timers w)).
      destruct (waitTimeOf rl (now w) (evict rl (now w) (requests w))); cbn; lia. }
    split; [lia|]. rewrite Hreq. rewrite evict_evict by lia. reflexivity.
  - intros H. injection H as <-. cbn [requests now setRequests].
    split; [lia|]. reflexivity.
Qed.

Hypothesis limit_pos : (1 <= limit rl)%Z.

(** One wait is enough to evict the oldest timestamp, so the recursion
    ends: the array evicted at the present time is shorter than [fuel]. *)
Lemma waitForSlot_total_evicted (fuel : nat) (w : World) :
  (length (evict rl (now w) (requests w)) < fuel)%nat ->
  exists w', waitForSlot env rl fuel w = Some w'.
Proof.
  revert w. induction fuel as [|fuel IH]; intros w Hlen; [lia|].
  cbn [waitForSlot]. cbn [requests setRequests now].
  destruct (atCapacity rl (evict rl (now w) (requests w))) eqn:Hcap; [|eauto].
  apply IH. cbn [requests now timers awaitTimer emit setRequests].
  unfold atCapacity in Hcap. apply Z.leb_le in Hcap.
  destruct (evict rl (now w) (requests w)) as [|oldest rest] eqn:El;
    [cbn in Hcap; lia|].
  cbn [waitTimeOf Num.sub].
  set (t' := (now w + timerDelay (Int (windowMs rl - (now w - oldest)))
              + lag env (timers w))%Z).
  assert (Ht' : (windowMs rl <= t' - oldest)%Z).
  { subst t'. pose proof (lag_nonneg (timers w)).
    pose proof (timerDelay_ge (windowMs rl - (now w - oldest))). lia. }
  unfold evict at 1. cbn [filter].
  replace (t' - oldest <? windowMs rl)%Z with false
    by (symmetry; apply Z.ltb_ge; exact Ht').
  pose proof (filter_length_le (fun time => (t' - time <? windowMs rl)%Z) rest).
  cbn [length] in Hlen. lia.
Qed.

Lemma waitForSlot_total (fuel : nat) (w : World) :
  (length (requests w) < fuel)%nat ->
  exists w', waitForSlot env rl fuel w = Some w'.
Proof.
  intros H. apply waitForSlot_total_evicted.
  pose proof (evict_length (now w) (requests w)). lia.
Qed.

End RateLimiterFacts.

(** More fuel does not change the result. *)
Lemma waitForSlot_more_fuel (env : Env) (rl : RateLimiter) (fuel fuel' : nat)
    (w w' : World) :
  waitForSlot env rl fuel w = Some w' -> (fuel <= fuel')%nat ->
  waitForSlot env rl fuel' w = Some w'.
Proof.
  revert fuel' w. induction fuel as [|fuel IH]; intros fuel' w H Hle;
    [discriminate|].
  destruct fuel' as [|fuel']; [lia|]. cbn [waitForSlot] in H |- *.
  destruct (atCapacity rl _); [|exact H]. apply IH; [exact H|lia].
Qed.

(** C7: the rate limiter.  Whenever [waitForSlot] returns, the call is
    recorded at the time of return, behind timestamps of the previous array
    that all lie inside the window and are fewer than [limit]: nobody
    proceeds at capacity, whatever the timers did, because the check is run
    again after every wait (second part: a wait is followed by
    [waitForSlot] itself on the world after the timer).  So at most [limit]
    timestamps are held, and no eviction leaves more.  With timers that are
    not early, when [limit] calls precede, the next one is recorded no
    sooner than [windowMs] after the oldest of them, and for a limit of at
    least 1 the call does return. *)
Theorem C7_rateLimiter (env : Env) (rl : RateLimiter) :
  (forall fuel w w',
      waitForSlot env rl fuel w = Some w' ->
      (exists kept p,
          requests w' = (kept ++ [now w'])%list /\
          kept = filter p (requests w) /\
          Forall (fun x => (now w' - x < windowMs rl)%Z) kept /\
          (Z.of_nat (length kept) < limit rl)%Z) /\
      (Z.of_nat (length (requests w')) <= limit rl)%Z /\
      (forall t, (Z.of_nat (length (evict rl t (requests w'))) <= limit rl)%Z) /\
      ((forall k, (0 <= lag env k)%Z) ->
         requests w' = (evict rl (now w') (requests w) ++ [now w'])%list /\
         (Z.of_nat (length (requests w)) = limit rl ->
          forall oldest,
            In oldest (requests w) ->
            (forall x, In x (requests w) -> (oldest <= x)%Z) ->
            (windowMs rl <= now w' - oldest)%Z)))
  /\ (forall fuel w,
        atCapacity rl (evict rl (now w) (requests w)) = true ->
        let waitTime := waitTimeOf rl (now w) (evict rl (now w) (requests w)) in
        waitForSlot env rl (S fuel) w
        = waitForSlot env rl fuel
            (awaitTimer env waitTime
               (emit (EvSlotTimer waitTime)
                  (setRequests (evict rl (now w) (requests w)) w))))
  /\ ((forall k, (0 <= lag env k)%Z) -> (1 <= limit rl)%Z ->
      forall fuel w, (length (requests w) < fuel)%nat ->
      exists w', waitForSlot env rl fuel w = Some w').
Proof.
  split; [|split].
  - intros fuel w w' H.
    pose proof (waitForSlot_returns env rl fuel w w' H)
      as (_ & _ & _ & kept & p & Hreq & Hkept & Hwin & Hcap).
    unfold atCapacity in Hcap. apply Z.leb_gt in Hcap.
    assert (Hlen : (Z.of_nat (length (requests w')) <= limit rl)%Z).
    { rewrite Hreq, length_app. cbn [length]. lia. }
    split; [exists kept, p; auto|]. split; [exact Hlen|]. split.
    + intros t. pose proof (evict_length rl t (requests w')). lia.
    + intros Hlag.
      pose proof (waitForSlot_monotone env rl Hlag fuel w w' H) as [Hnow Hreq'].
      split; [exact Hreq'|]. intros Hfull oldest Hin Hmin.
      assert (Hk : kept = evict rl (now w') (requests w)).
      { rewrite Hreq in Hreq'. apply app_inj_tail in Hreq'. tauto. }
      destruct (filter_drops (fun time => (now w' - time <? windowMs rl)%Z)
                  (requests w)) as (x & Hx & Hout).
      { fold (evict rl (now w') (requests w)). rewrite <- Hk. lia. }
      apply Z.ltb_ge in Hout. specialize (Hmin x Hx). lia.
  - intros fuel w Hcap. cbn [waitForSlot]. cbn [requests setRequests now].
    rewrite Hcap. reflexivity.
  - intros Hlag Hlim fuel w Hlen.
    apply (waitForSlot_total env rl Hlag Hlim fuel w Hlen).
Qed.

(** ** One attempt and the retry loop *)

Section LoopFacts.
Context {R : Runtime}.
Variable env : Env.
Variable prompt : string.

Lemma emit_all (logged : list Event) (w : World) :
  let w' := fold_left (fun w e => emit e w) logged w in
  tasks w' = tasks w /\ requests w' = requests w /\ now w' = now w /\
  generated w' = generated w /\ timers w' = timers w /\
  events w' = (events w ++ logged)%list.
Proof.
  revert w. induction logged as [|e logged IH]; intros w; cbn [fold_left].
  - rewrite app_nil_r. auto 10.
  - destruct (IH (emit e w)) as (H1 & H2 & H3 & H4 & H5 & H6).
    cbn [tasks requests now generated timers events emit] in *.
    rewrite H6, <- app_assoc. auto 10.
Qed.

(** Only [console.error] is logged while a reply is handled. *)
Lemma handleResult_logged (r : ModelResult) :
  attemptView (snd (handleResult r)) = [].
Proof.
  destruct r as [error|response]; cbn [handleResult]; [reflexivity|].
  destruct (Str.isEmpty response); [reflexivity|].
  unfold parseOrClassify. destruct (parseSchedule response) as [|[]]; reflexivity.
Qed.

(** An attempt sends exactly one request, and its completion is that of
    the reply. *)
Lemma attemptOnce_spec (fuel : nat) (w w2 : World)
    (c : Completion (list ScheduledTask)) :
  attemptOnce env fuel prompt w = Some (c, w2) ->
  c = outcomeOf env prompt (generated w) /\
  tasks w2 = tasks w /\
  generated w2 = S (generated w) /\
  (length (requests w2) <= 3)%nat /\
  exists before after,
    events w2 = (events w ++ before ++ EvGenerate prompt :: after)%list /\
    attemptView before = [] /\ attemptView after = [].
Proof.
  unfold attemptOnce.
  destruct (waitForSlot env rateLimiter fuel w) as [w1|] eqn:Hw; [|discriminate].
  apply waitForSlot_returns in Hw.
  destruct Hw as (Ht & Hg & (before & Hev & Hview) & kept & p & Hreq & _ & _ & Hcap).
  assert (Hlen : (length (requests w1) <= 3)%nat).
  { rewrite Hreq, length_app. unfold atCapacity in Hcap.
    apply Z.leb_gt in Hcap. cbn [limit rateLimiter length] in *. lia. }
  unfold awaitGenerate, outcomeOf. rewrite Hg.
  destruct (handleResult (result (generateContent env (generated w) prompt)))
    as [completion logged] eqn:Hh.
  intros H. injection H as <- <-.
  match goal with
  | |- context [fold_left ?f logged ?w0] =>
      destruct (emit_all logged w0) as (E1 & E2 & _ & E4 & _ & E6)
  end.
  cbn [tasks requests generated events] in E1, E2, E4, E6.
  rewrite E1, E2, E4, E6, Ht, Hev. cbn [fst].
  split; [reflexivity|]. split; [reflexivity|]. split; [reflexivity|].
  split; [exact Hlen|].
  exists before, logged. rewrite <- !app_assoc. cbn [app].
  split; [reflexivity|]. split; [exact Hview|].
  pose proof (handleResult_logged (result (generateContent env (generated w) prompt))) as Hl.
  rewrite Hh in Hl. exact Hl.
Qed.

Lemma attemptView_app (l1 l2 : list Event) :
  attemptView (l1 ++ l2) = (attemptView l1 ++ attemptView l2)%list.
Proof. apply filter_app. Qed.

(** The run of the loop from attempt number [attempt] on: it makes [n]
    attempts, at least one and no more than are left; all but the last fail
    with a retryable error and are followed by their backoff; the last one
    succeeds, or fails with an error that is not retryable or on the last
    attempt allowed.  Line 187 is never reached. *)
Lemma attemptLoop_run (fuel : nat) :
  forall (attempt : Z) (lastError : option Thrown) (w w' : World)
         (c : Completion (list ScheduledTask)),
  (0 <= attempt <= maxRetries)%Z ->
  attemptLoop env fuel attempt lastError prompt w = Some (c, w') ->
  tasks w' = tasks w /\
  exists (n : nat) (new : list Event),
    (1 <= n)%nat /\ (attempt + Z.of_nat n <= maxRetries + 1)%Z /\
    generated w' = (generated w + n)%nat /\
    events w' = (events w ++ new)%list /\
    attemptView new = expectedView prompt attempt n /\
    (forall i, (i < n - 1)%nat ->
       exists e, outcomeOf env prompt (generated w + i) = Throw e /\
                 isRetryableError e = true) /\
    match outcomeOf env prompt (generated w + (n - 1)) with
    | Normal out => c = Normal out
    | Throw e => c = Throw (surface e) /\
                 (isRetryableError e = false
                  \/ (attempt + Z.of_nat n = maxRetries + 1)%Z)
    end.
Proof.
  induction fuel as [|fuel' IH]; intros attempt lastError w w' c Hatt;
    cbn [attemptLoop];
    replace (attempt <=? maxRetries)%Z with true
      by (symmetry; apply Z.leb_le; lia);
    [discriminate|].
  destruct (attemptOnce env (S fuel') prompt w) as [[c1 w1]|] eqn:Hone;
    [|discriminate].
  apply attemptOnce_spec in Hone.
  destruct Hone as (Hc1 & Ht1 & Hg1 & _ & before & after & Hev1 & Hvb & Hva).
  assert (Hview1 : attemptView (before ++ EvGenerate prompt :: after)
                   = [EvGenerate prompt]).
  { rewrite attemptView_app, Hvb. cbn [app]. unfold attemptView in *.
    cbn [filter isAttemptEvent]. rewrite Hva. reflexivity. }
  assert (single : forall c0,
            match outcomeOf env prompt (generated w + (1 - 1)) with
            | Normal out => c0 = Normal out
            | Throw e => c0 = Throw (surface e) /\
                         (isRetryableError e = false
                          \/ (attempt + Z.of_nat 1 = maxRetries + 1)%Z)
            end ->
            Some (c0, w1) = Some (c, w') ->
            tasks w' = tasks w /\
            exists (n : nat) (new : list Event),
              (1 <= n)%nat /\ (attempt + Z.of_nat n <= maxRetries + 1)%Z /\
              generated w' = (generated w + n)%nat /\
              events w' = (events w ++ new)%list /\
              attemptView new = expectedView prompt attempt n /\
              (forall i, (i < n - 1)%nat ->
                 exists e, outcomeOf env prompt (generated w + i) = Throw e /\
                           isRetryableError e = true) /\
              match outcomeOf env prompt (generated w + (n - 1)) with
              | Normal out => c = Normal out
              | Throw e => c = Throw (surface e) /\
                           (isRetryableError e = false
                            \/ (attempt + Z.of_nat n = maxRetries + 1)%Z)
              end).
  { intros c0 Hlast H. injection H as <- <-. split; [exact Ht1|].
    exists 1%nat, (before ++ EvGenerate prompt :: after)%list.
    split; [lia|]. split; [lia|]. split; [lia|]. split; [exact Hev1|].
    split; [exact Hview1|]. split; [intros i Hi; lia|]. exact Hlast. }
  replace (generated w + (1 - 1))%nat with (generated w) in single by lia.
  destruct c1 as [schedule|error].
  - apply single. rewrite <- Hc1. reflexivity.
  - destruct (negb (isRetryableError error) || (attempt =? maxRetries)%Z) eqn:Hstop.
    + apply single. rewrite <- Hc1. split; [reflexivity|].
      apply orb_true_iff in Hstop. destruct Hstop as [Hn|Heq].
      * left. destruct (isRetryableError error); [discriminate|reflexivity].
      * right. apply Z.eqb_eq in Heq. lia.
    + clear single. apply orb_false_iff in Hstop. destruct Hstop as [Hretry Hneq].
      apply negb_false_iff in Hretry. apply Z.eqb_neq in Hneq.
      intros Hrec. apply IH in Hrec; [|lia].
      cbn [tasks generated events awaitTimer emit] in Hrec.
      destruct Hrec as (Ht & n & new & Hn & Hbound & Hg & Hev & Hview & Hfail & Hlast).
      split; [congruence|].
      exists (S n), ((before ++ EvGenerate prompt :: after)
                     ++ EvSleep (baseDelay * 2 ^ attempt) :: new)%list.
      split; [lia|]. split; [lia|]. split; [lia|]. split.
      { rewrite Hev, Hev1, <- !app_assoc. reflexivity. }
      split.
      { rewrite attemptView_app, Hview1. cbn [app]. unfold attemptView in *.
        cbn [filter isAttemptEvent]. rewrite Hview.
        destruct n as [|n]; [lia|]. reflexivity. }
      split.
      { intros i Hi. destruct i as [|i].
        - rewrite Nat.add_0_r. exists error. split; [congruence|exact Hretry].
        - destruct (Hfail i) as (e & He & Hr); [lia|].
          exists e. split; [|exact Hr]. rewrite <- He. f_equal. lia. }
      replace (generated w + (S n - 1))%nat with (generated w1 + (n - 1))%nat by lia.
      destruct (outcomeOf env prompt (generated w1 + (n - 1))); [exact Hlast|].
      destruct Hlast as [-> Hterm]. split; [reflexivity|].
      destruct Hterm; [left; assumption | right; lia].
Qed.

Lemma attemptOnce_more_fuel (fuel fuel' : nat) (w : World)
    (r : Completion (list ScheduledTask) * World) :
  attemptOnce env fuel prompt w = Some r -> (fuel <= fuel')%nat ->
  attemptOnce env fuel' prompt w = Some r.
Proof.
  unfold attemptOnce. intros H Hle.
  destruct (waitForSlot env rateLimiter fuel w) as [w1|] eqn:Hw; [|discriminate].
  rewrite (waitForSlot_more_fuel env rateLimiter fuel fuel' w w1 Hw Hle).
  exact H.
Qed.

(** More fuel does not change the result of the loop. *)
Lemma attemptLoop_more_fuel (fuel : nat) :
  forall (fuel' : nat) (attempt : Z) (lastError : option Thrown) (w : World)
         (r : Completion (list ScheduledTask) * World),
  attemptLoop env fuel attempt lastError prompt w = Some r ->
  (fuel <= fuel')%nat ->
  attemptLoop env fuel' attempt lastError prompt w = Some r.
Proof.
  induction fuel as [|fuel IH]; intros fuel' attempt lastError w r H Hle.
  - destruct fuel'; cbn [attemptLoop] in H |- *;
      destruct (attempt <=? maxRetries)%Z; try discriminate; exact H.
  - destruct fuel' as [|fuel']; [lia|]. cbn [attemptLoop] in H |- *.
    destruct (attempt <=? maxRetries)%Z; [|exact H].
    destruct (attemptOnce env (S fuel) prompt w) as [[c1 w1]|] eqn:Hone;
      [|discriminate].
    rewrite (attemptOnce_more_fuel (S fuel) (S fuel') w (c1, w1) Hone) by lia.
    destruct c1 as [schedule|error]; [exact H|].
    destruct (negb (isRetryableError error) || (attempt =? maxRetries)%Z);
      [exact H|].
    apply IH; [exact H|lia].
Qed.

(** The backoff the loop sleeps after attempt number [i]. *)
Lemma backoff_world (i : nat) (w : World) :
  awaitTimer env (Int (baseDelay * 2 ^ Z.of_nat i))
    (emit (EvSleep (baseDelay * 2 ^ Z.of_nat i)) w)
  = afterBackoff env i w.
Proof.
  unfold awaitTimer, afterBackoff, emit, baseDelay, timerDelay.
  cbn [tasks requests now generated timers events].
  pose proof (Z.pow_nonneg 2 (Z.of_nat i) ltac:(lia)).
  replace (Z.max 0 (1000 * 2 ^ Z.of_nat i)) with (1000 * 2 ^ Z.of_nat i)%Z by lia.
  reflexivity.
Qed.

(** A run of the loop, attempt by attempt, with the worlds in between. *)
Lemma attemptLoop_attempts (fuel : nat) :
  forall (i : nat) (lastError : option Thrown) (w w' : World)
         (c : Completion (list ScheduledTask)),
  (i <= 3)%nat ->
  attemptLoop env fuel (Z.of_nat i) lastError prompt w = Some (c, w') ->
  exists (n : nat) (c0 : Completion (list ScheduledTask)),
    attemptsFrom env prompt i w n c0 w' /\
    generated w' = (generated w + n)%nat /\
    c = match c0 with
        | Normal schedule => Normal schedule
        | Throw e => Throw (surface e)
        end.
Proof.
  induction fuel as [|fuel' IH]; intros i lastError w w' c Hi;
    cbn [attemptLoop];
    replace (Z.of_nat i <=? maxRetries)%Z with true
      by (symmetry; apply Z.leb_le; unfold maxRetries; lia);
    [discriminate|].
  destruct (attemptOnce env (S fuel') prompt w) as [[c1 w1]|] eqn:Hone;
    [|discriminate].
  pose proof (attemptOnce_spec _ _ _ _ Hone) as (_ & _ & Hg1 & _).
  destruct c1 as [schedule|error].
  - intros H. injection H as <- <-. exists 1%nat, (Normal schedule).
    split; [|split; [lia|reflexivity]].
    eapply attempts_last; [exact Hone|exact I].
  - destruct (isRetryableError error) eqn:Hretry; cbn [negb orb].
    + destruct (Z.of_nat i =? maxRetries)%Z eqn:Hlast.
      * intros H. injection H as <- <-. exists 1%nat, (Throw error).
        split; [|split; [lia|reflexivity]].
        eapply attempts_last; [exact Hone|]. right.
        apply Z.eqb_eq in Hlast. unfold maxRetries in Hlast. lia.
      * apply Z.eqb_neq in Hlast. unfold maxRetries in Hlast.
        rewrite backoff_world.
        replace (Z.of_nat i + 1)%Z with (Z.of_nat (S i)) by lia.
        intros Hrec. apply IH in Hrec; [|lia].
        destruct Hrec as (n & c0 & Hrun & Hg & Hc).
        cbn [generated afterBackoff] in Hg.
        exists (S n), c0. split; [|split; [lia|exact Hc]].
        eapply attempts_retry; [exact Hone|exact Hretry|lia|exact Hrun].
    + intros H. injection H as <- <-. exists 1%nat, (Throw error).
      split; [|split; [lia|reflexivity]].
      eapply attempts_last; [exact Hone|]. left. exact Hretry.
Qed.

Hypothesis lag_nonneg : forall k, (0 <= lag env k)%Z.

(** With timers that are not early and requests that take no negative
    time, [n] attempts from number [i] on take at least their backoffs,
    [1000 * 2 ^ i * (2 ^ (n - 1) - 1)] milliseconds in all, and set at
    least [n - 1] timers. *)
Lemma attemptOnce_later (fuel : nat) (w w1 : World)
    (c : Completion (list ScheduledTask)) :
  (forall k p, (0 <= duration (generateContent env k p))%Z) ->
  attemptOnce env fuel prompt w = Some (c, w1) ->
  (now w <= now w1)%Z.
Proof.
  intros Hdur. unfold attemptOnce.
  destruct (waitForSlot env rateLimiter fuel w) as [wa|] eqn:Hw; [|discriminate].
  destruct (waitForSlot_monotone env rateLimiter lag_nonneg fuel w wa Hw)
    as [Hnow _].
  unfold awaitGenerate. destruct (handleResult _) as [completion logged].
  intros H. injection H as _ <-.
  match goal with
  | |- context [fold_left ?f logged ?wg] =>
      destruct (emit_all logged wg) as (_ & _ & E3 & _)
  end.
  rewrite E3. cbn [now]. pose proof (Hdur (generated wa) prompt). lia.
Qed.

Lemma attemptsFrom_time (i n : nat) (w w' : World)
    (c : Completion (list ScheduledTask)) :
  (forall k p, (0 <= duration (generateContent env k p))%Z) ->
  attemptsFrom env prompt i w n c w' ->
  (1 <= n)%nat /\
  (now w + 1000 * 2 ^ Z.of_nat i * (2 ^ Z.of_nat (n - 1) - 1) <= now w')%Z.
Proof.
  intros Hdur. induction 1 as [i w w' fuel c Hone _
                              |i n w w1 w' fuel e c Hone _ _ _ [Hn IH]].
  - split; [lia|]. cbn [Nat.sub Z.of_nat]. rewrite Z.pow_0_r.
    pose proof (attemptOnce_later _ _ _ _ Hdur Hone). lia.
  - split; [lia|].
    pose proof (attemptOnce_later _ _ _ _ Hdur Hone) as H1.
    cbn [now afterBackoff] in IH. pose proof (lag_nonneg (timers w1)) as Hlag.
    replace (S n - 1)%nat with (S (n - 1)) by lia.
    rewrite !Nat2Z.inj_succ, !Z.pow_succ_r in * by lia.
    pose proof (Z.pow_pos_nonneg 2 (Z.of_nat i) ltac:(lia) ltac:(lia)).
    pose proof (Z.pow_pos_nonneg 2 (Z.of_nat (n - 1)) ltac:(lia) ltac:(lia)).
    nia.
Qed.

Lemma attemptOnce_total (fuel : nat) (w : World) :
  (length (requests w) < fuel)%nat ->
  exists r, attemptOnce env fuel prompt w = Some r.
Proof.
  intros Hlen. unfold attemptOnce.
  destruct (waitForSlot_total env rateLimiter lag_nonneg ltac:(cbn; lia) fuel w Hlen)
    as [w1 ->].
  destruct (awaitGenerate env prompt w1) as [r w2].
  destruct (handleResult r). eauto.
Qed.

(** With timers that are not early the loop ends, given fuel for the
    attempts left and for the rate limiter's array. *)
Lemma attemptLoop_total (k : nat) :
  forall (fuel : nat) (attempt : Z) (lastError : option Thrown) (w : World),
  (maxRetries + 1 - Z.of_nat k <= attempt)%Z ->
  (k + length (requests w) < fuel)%nat -> (k + 3 < fuel)%nat ->
  exists r, attemptLoop env fuel attempt lastError prompt w = Some r.
Proof.
  induction k as [|k IH]; intros fuel attempt lastError w Hatt Hlen Hthree;
    (destruct fuel as [|fuel]; [lia|]); cbn [attemptLoop].
  - replace (attempt <=? maxRetries)%Z with false
      by (symmetry; apply Z.leb_gt; lia). eauto.
  - destruct (attempt <=? maxRetries)%Z; [|eauto].
    destruct (attemptOnce_total (S fuel) w) as [[c1 w1] Hone]; [lia|].
    rewrite Hone. apply attemptOnce_spec in Hone.
    destruct Hone as (_ & _ & _ & Hreq & _).
    destruct c1 as [schedule|error]; [eauto|].
    destruct (negb (isRetryableError error) || (attempt =? maxRetries)%Z);
      [eauto|].
    apply IH; cbn [requests awaitTimer emit]; lia.
Qed.

End LoopFacts.

(** ** planTasks *)

Section PlanTasks.
Context {R : Runtime}.
Variable env : Env.

Lemma planTasks_empty (fuel : nat) (w : World) :
  tasks w = [] ->
  planTasks env fuel w
  = Some (Throw (GeminiError "No tasks provided for planning"
                   (Some "NO_TASKS") false), w).
Proof. intros H. unfold planTasks. rewrite H. reflexivity. Qed.

Lemma planTasks_nonempty (fuel : nat) (w : World) :
  tasks w <> [] ->
  planTasks env fuel w
  = attemptLoop env fuel 0 None (promptOf (taskListOf (tasks w))) w.
Proof.
  intros H. unfold planTasks. destruct (tasks w); [congruence|reflexivity].
Qed.

(** The run of a call with tasks. *)
Lemma planTasks_run (fuel : nat) (w w' : World)
    (c : Completion (list ScheduledTask)) :
  tasks w <> [] ->
  planTasks env fuel w = Some (c, w') ->
  let prompt := promptOf (taskListOf (tasks w)) in
  tasks w' = tasks w /\
  exists (n : nat) (new : list Event),
    (1 <= n <= 4)%nat /\
    generated w' = (generated w + n)%nat /\
    events w' = (events w ++ new)%list /\
    attemptView new = expectedView prompt 0 n /\
    (forall i, (i < n - 1)%nat ->
       exists e, outcomeOf env prompt (generated w + i) = Throw e /\
                 isRetryableError e = true) /\
    match outcomeOf env prompt (generated w + (n - 1)) with
    | Normal out => c = Normal out
    | Throw e => c = Throw (surface e) /\
                 (isRetryableError e = false \/ n = 4%nat)
    end.
Proof.
  intros Hne H. rewrite planTasks_nonempty in H by exact Hne.
  apply attemptLoop_run in H; [|unfold maxRetries; lia].
  destruct H as (Ht & n & new & Hn & Hbound & Hg & Hev & Hview & Hfail & Hlast).
  unfold maxRetries in Hbound. cbv zeta. split; [exact Ht|].
  exists n, new. split; [lia|]. repeat (split; [assumption|]).
  destruct (outcomeOf env _ _); [exact Hlast|].
  destruct Hlast as [Hc Hterm]. split; [exact Hc|].
  destruct Hterm as [Hr|Hlastn]; [left; exact Hr|right].
  unfold maxRetries in Hlastn. lia.
Qed.

(** The run of a call with tasks, attempt by attempt. *)
Lemma planTasks_attempts (fuel : nat) (w w' : World)
    (c : Completion (list ScheduledTask)) :
  tasks w <> [] ->
  planTasks env fuel w = Some (c, w') ->
  exists (n : nat) (c0 : Completion (list ScheduledTask)),
    attemptsFrom env (promptOf (taskListOf (tasks w))) 0 w n c0 w' /\
    generated w' = (generated w + n)%nat /\
    c = match c0 with
        | Normal schedule => Normal schedule
        | Throw e => Throw (surface e)
        end.
Proof.
  intros Hne H. rewrite planTasks_nonempty in H by exact Hne.
  exact (attemptLoop_attempts env _ fuel 0 None w w' c ltac:(lia) H).
Qed.

Hypothesis lag_nonneg : forall k, (0 <= lag env k)%Z.

(** With timers that are not early a call returns, and with the same
    result for all the fuel from [enoughFuel] on. *)
Lemma planTasks_total (w : World) :
  exists c w', forall fuel, (enoughFuel w <= fuel)%nat ->
                            planTasks env fuel w = Some (c, w').
Proof.
  destruct (tasks w) as [|t ts] eqn:E.
  - do 2 eexists. intros fuel _. apply planTasks_empty. exact E.
  - assert (Hne : tasks w <> []) by congruence.
    destruct (attemptLoop_total env (promptOf (taskListOf (tasks w))) lag_nonneg
                4 (enoughFuel w) 0 None w) as [[c w'] Hrun];
      try (unfold enoughFuel, maxRetries; lia).
    exists c, w'. intros fuel Hfuel. rewrite planTasks_nonempty by exact Hne.
    apply (attemptLoop_more_fuel env _ (enoughFuel w)); assumption.
Qed.

(** The attempt that settles a call: when the attempts before number [k]
    fail with retryable errors and attempt [k] succeeds, or fails with an
    error that is not retryable, or is the last one allowed, the call ends
    with it: [k + 1] requests, a backoff between any two of them and none at
    the end. *)
Lemma planTasks_settles_at (w : World) (k : nat) :
  tasks w <> [] ->
  (k < 4)%nat ->
  let prompt := promptOf (taskListOf (tasks w)) in
  (forall i, (i < k)%nat ->
     exists e, outcomeOf env prompt (generated w + i) = Throw e /\
               isRetryableError e = true) ->
  match outcomeOf env prompt (generated w + k) with
  | Normal _ => True
  | Throw e => isRetryableError e = false \/ k = 3%nat
  end ->
  exists w',
    (forall fuel, (enoughFuel w <= fuel)%nat ->
       planTasks env fuel w
       = Some (match outcomeOf env prompt (generated w + k) with
               | Normal out => Normal out
               | Throw e => Throw (surface e)
               end, w')) /\
    generated w' = S (generated w + k) /\
    exists new, events w' = (events w ++ new)%list /\
                attemptView new = expectedView prompt 0 (S k).
Proof.
  intros Hne Hk prompt Hbefore Hat.
  destruct (planTasks_total w) as (c & w' & Hall).
  pose proof (planTasks_run (enoughFuel w) w w' c Hne (Hall _ (le_n _))) as Hrun.
  cbv zeta in Hrun. fold prompt in Hrun.
  destruct Hrun as (_ & n & new & Hn & Hg & Hev & Hview & Hfail & Hlast).
  assert (n = S k) as ->.
  { destruct (Nat.lt_trichotomy (n - 1) k) as [Hlt|[Heq|Hgt]]; [exfalso|lia|exfalso].
    - destruct (Hbefore (n - 1)%nat Hlt) as (e & He & Hr).
      rewrite He in Hlast. destruct Hlast as [_ [Hno|Hfour]]; [congruence|lia].
    - destruct (Hfail k) as (e & He & Hr); [lia|].
      rewrite He in Hat. destruct Hat as [Hno|Hthree]; [congruence|lia]. }
  replace (S k - 1)%nat with k in Hlast by lia.
  exists w'. split; [|split; [lia|exists new; auto]].
  intros fuel Hfuel. rewrite (Hall fuel Hfuel).
  destruct (outcomeOf env prompt (generated w + k)); [congruence|].
  destruct Hlast as [-> _]. reflexivity.
Qed.

End PlanTasks.

(** ** The claims about planTasks *)

Section Claims.
Context {R : Runtime}.

(** C1: with an empty task array [planTasks] throws the NO_TASKS error,
    which is not retryable, and leaves the world as it was: no request to
    the model, no timer, no attempt, whatever the fuel. *)
Theorem C1_no_tasks (env : Env) (fuel : nat) (w : World) :
  tasks w = [] ->
  planTasks env fuel w
  = Some (Throw (GeminiError "No tasks provided for planning"
                   (Some "NO_TASKS") false), w)
  /\ isRetryableError (GeminiError "No tasks provided for planning"
                         (Some "NO_TASKS") false) = false.
Proof.
  intros H. split; [apply planTasks_empty; exact H | reflexivity].
Qed.

(** C9: however [planTasks] ends, the caller's task array is what it was. *)
Theorem C9_tasks_unchanged (env : Env) (fuel : nat) (w w' : World)
    (c : Completion (list ScheduledTask)) :
  planTasks env fuel w = Some (c, w') -> tasks w' = tasks w.
Proof.
  destruct (tasks w) as [|t ts] eqn:E.
  - rewrite (planTasks_empty env fuel w E). intros H.
    injection H as _ <-. exact E.
  - intros H. apply planTasks_run in H; [|congruence].
    destruct H as [H _]. rewrite H. exact E.
Qed.

(** C5: a call with tasks makes between one and four attempts.  Attempt
    by attempt: each attempt but the last fails with a retryable error, is
    not attempt number 3, and is followed by the sleep of
    [baseDelay * 2 ^ i] milliseconds (1000, 2000 and 4000 ms), so that the
    next attempt begins in the world the failed one left, that delay and
    the lag of its timer later and with nothing else changed; with timers
    that are not early and requests that take no negative time, a call of
    [n] attempts therefore takes at least [1000 * (2 ^ (n - 1) - 1)]
    milliseconds.  Seen through its requests and backoff sleeps the call is
    a request, then for each failed attempt its sleep and the next request.
    When the first three attempts fail with retryable errors and the fourth
    succeeds, its schedule is returned; and with timers that are not early
    the call does return.  (An attempt begins with the rate limiter, whose
    own timer is inside the attempt and is no backoff.) *)
Theorem C5_retry_backoff (env : Env) (w : World) :
  tasks w <> [] ->
  let prompt := promptOf (taskListOf (tasks w)) in
  (forall fuel c w',
      planTasks env fuel w = Some (c, w') ->
      exists (n : nat) (new : list Event),
        (1 <= n <= 4)%nat /\
        generated w' = (generated w + n)%nat /\
        events w' = (events w ++ new)%list /\
        attemptView new = expectedView prompt 0 n /\
        (forall i, (i < n - 1)%nat ->
           exists e, outcomeOf env prompt (generated w + i) = Throw e /\
                     isRetryableError e = true) /\
        exists c0, attemptsFrom env prompt 0 w n c0 w')
  /\ expectedView prompt 0 4
     = [EvGenerate prompt; EvSleep 1000; EvGenerate prompt; EvSleep 2000;
        EvGenerate prompt; EvSleep 4000; EvGenerate prompt]
  /\ ((forall k, (0 <= lag env k)%Z) ->
      exists c w', forall fuel, (enoughFuel w <= fuel)%nat ->
                                planTasks env fuel w = Some (c, w'))
  /\ ((forall k, (0 <= lag env k)%Z) ->
      forall out,
        (forall i, (i < 3)%nat ->
           exists e, outcomeOf env prompt (generated w + i) = Throw e /\
                     isRetryableError e = true) ->
        outcomeOf env prompt (generated w + 3) = Normal out ->
        exists w',
          (forall fuel, (enoughFuel w <= fuel)%nat ->
                        planTasks env fuel w = Some (Normal out, w')) /\
          generated w' = (generated w + 4)%nat /\
          exists new, events w' = (events w ++ new)%list /\
                      attemptView new = expectedView prompt 0 4)
  /\ ((forall k, (0 <= lag env k)%Z) ->
      (forall k p, (0 <= duration (generateContent env k p))%Z) ->
      forall fuel c w' (n : nat),
        planTasks env fuel w = Some (c, w') ->
        generated w' = (generated w + n)%nat ->
        (1000 * (2 ^ Z.of_nat (n - 1) - 1) <= now w' - now w)%Z)
  /\ (forall (i : nat) (w1 : World),
        now (afterBackoff env i w1)
        = (now w1 + baseDelay * 2 ^ Z.of_nat i + lag env (timers w1))%Z
        /\ timers (afterBackoff env i w1) = S (timers w1)
        /\ requests (afterBackoff env i w1) = requests w1
        /\ generated (afterBackoff env i w1) = generated w1)
  /\ map (fun i : nat => (baseDelay * 2 ^ Z.of_nat i)%Z) [0; 1; 2]%nat
     = [1000; 2000; 4000]%Z.
Proof.
  intros Hne prompt.
  split; [|split; [reflexivity|split; [|split; [|split; [|split]]]]].
  - intros fuel c w' H.
    destruct (planTasks_attempts env fuel w w' c Hne H) as (n' & c0 & Hrun & Hg' & _).
    apply planTasks_run in H; [|exact Hne].
    cbv zeta in H. fold prompt in H, Hrun.
    destruct H as (_ & n & new & Hn & Hg & Hev & Hview & Hfail & _).
    assert (n' = n) by lia. subst n'.
    exists n, new. repeat (split; [assumption|]). exists c0. exact Hrun.
  - intros Hlag. apply (planTasks_total env Hlag w).
  - intros Hlag out Hfail3 Hok.
    destruct (planTasks_settles_at env Hlag w 3 Hne ltac:(lia) Hfail3)
      as (w' & Hall & Hg & Hnew).
    { fold prompt. rewrite Hok. exact I. }
    fold prompt in Hall, Hnew. rewrite Hok in Hall.
    exists w'. split; [exact Hall|]. split; [lia|exact Hnew].
  - intros Hlag Hdur fuel c w' n H Hg.
    destruct (planTasks_attempts env fuel w w' c Hne H) as (n' & c0 & Hrun & Hg' & _).
    assert (n' = n) by lia. subst n'.
    destruct (attemptsFrom_time env _ Hlag 0 n w w' c0 Hdur Hrun) as [_ Ht].
    cbn [Z.of_nat] in Ht. rewrite Z.pow_0_r in Ht. lia.
  - intros i w1. repeat split.
  - reflexivity.
Qed.

(** C6: an attempt that raises a classified error whose [isRetryable] is
    false ends the loop with that very error in the world the attempt left:
    no sleep, no other attempt; an error that is not classified counts as
    retryable, so that before the last attempt it is followed by the
    backoff and the next attempt; and a call in which attempt number [k]
    is rejected with a non-retryable classified error, the attempts before
    it having failed with retryable ones, returns that error after [k + 1]
    requests, with no backoff behind the last.  The errors the service
    itself raises while handling a reply are all retryable, so such an
    error comes from the request to the model. *)
Theorem C6_non_retryable (env : Env) :
  (forall prompt fuel attempt lastError w w1 message code,
      attemptOnce env fuel prompt w
      = Some (Throw (GeminiError message code false), w1) ->
      (attempt <= maxRetries)%Z ->
      attemptLoop env fuel attempt lastError prompt w
      = Some (Throw (GeminiError message code false), w1))
  /\ (forall name message, isRetryableError (OtherError name message) = true)
  /\ (forall prompt fuel attempt lastError w w1 name message,
        attemptOnce env (S fuel) prompt w
        = Some (Throw (OtherError name message), w1) ->
        (attempt < maxRetries)%Z ->
        attemptLoop env (S fuel) attempt lastError prompt w
        = attemptLoop env fuel (attempt + 1) (Some (OtherError name message))
            prompt
            (awaitTimer env (Int (baseDelay * 2 ^ attempt))
               (emit (EvSleep (baseDelay * 2 ^ attempt)) w1)))
  /\ ((forall k, (0 <= lag env k)%Z) ->
      forall w k message code,
        tasks w <> [] ->
        (k < 4)%nat ->
        let prompt := promptOf (taskListOf (tasks w)) in
        (forall i, (i < k)%nat ->
           exists e, outcomeOf env prompt (generated w + i) = Throw e /\
                     isRetryableError e = true) ->
        outcomeOf env prompt (generated w + k)
        = Throw (GeminiError message code false) ->
        exists w',
          (forall fuel, (enoughFuel w <= fuel)%nat ->
             planTasks env fuel w
             = Some (Throw (GeminiError message code false), w')) /\
          generated w' = S (generated w + k) /\
          exists new, events w' = (events w ++ new)%list /\
                      attemptView new = expectedView prompt 0 (S k))
  /\ (forall response e logged,
        handleResult (Text response) = (Throw e, logged) ->
        isRetryableError e = true).
Proof.
  split; [|split; [reflexivity|split; [|split; [|exact handleResult_retryable]]]].
  - intros prompt fuel attempt lastError w w1 message code Hone Hatt.
    destruct fuel as [|fuel]; [discriminate|]. cbn [attemptLoop].
    replace (attempt <=? maxRetries)%Z with true
      by (symmetry; apply Z.leb_le; exact Hatt).
    rewrite Hone. reflexivity.
  - intros prompt fuel attempt lastError w w1 name message Hone Hatt.
    cbn [attemptLoop].
    replace (attempt <=? maxRetries)%Z with true
      by (symmetry; apply Z.leb_le; lia).
    rewrite Hone. cbn [isRetryableError negb orb].
    replace (attempt =? maxRetries)%Z with false
      by (symmetry; apply Z.eqb_neq; lia).
    reflexivity.
  - intros Hlag w k message code Hne Hk prompt Hbefore Hout.
    destruct (planTasks_settles_at env Hlag w k Hne Hk Hbefore)
      as (w' & Hall & Hrest).
    { fold prompt. rewrite Hout. left. reflexivity. }
    fold prompt in Hall, Hrest. rewrite Hout in Hall. exists w'. auto.
Qed.

(** C10: a reply that parses to an object whose [schedule] is the empty
    array, arriving in any attempt (the ones before it having failed with
    retryable errors), makes the call return the empty list; and whenever a
    call returns a schedule, it has one entry for each entry of the
    [schedule] array of the reply it was made from. *)
Theorem C10_one_output_per_entry (env : Env) (w : World) :
  tasks w <> [] ->
  let prompt := promptOf (taskListOf (tasks w)) in
  ((forall k, (0 <= lag env k)%Z) ->
   forall k response fields,
     (k < 4)%nat ->
     (forall i, (i < k)%nat ->
        exists e, outcomeOf env prompt (generated w + i) = Throw e /\
                  isRetryableError e = true) ->
     result (generateContent env (generated w + k) prompt) = Text response ->
     JSON_parse (cleanResponse response) = Some (JObject fields) ->
     lookup "schedule" fields = Some (JArray []) ->
     handleResult (Text response) = (Normal [], []) /\
     exists w',
       (forall fuel, (enoughFuel w <= fuel)%nat ->
                     planTasks env fuel w = Some (Normal [], w')) /\
       generated w' = S (generated w + k))
  /\ (forall fuel out w',
        planTasks env fuel w = Some (Normal out, w') ->
        exists i response fields items,
          (i < 4)%nat /\ generated w' = S (generated w + i) /\
          result (generateContent env (generated w + i) prompt) = Text response /\
          JSON_parse (cleanResponse response) = Some (JObject fields) /\
          lookup "schedule" fields = Some (JArray items) /\
          length out = length items).
Proof.
  intros Hne prompt. split.
  - intros Hlag k response fields Hk Hbefore Hreply Hp Hs.
    assert (Hh : handleResult (Text response) = (Normal [], [])).
    { rewrite (handleResult_schedule response fields [] Hp Hs). reflexivity. }
    split; [exact Hh|].
    assert (Hout : outcomeOf env prompt (generated w + k) = Normal []).
    { unfold outcomeOf. rewrite Hreply, Hh. reflexivity. }
    destruct (planTasks_settles_at env Hlag w k Hne Hk Hbefore)
      as (w' & Hall & Hg & _).
    { fold prompt. rewrite Hout. exact I. }
    fold prompt in Hall. rewrite Hout in Hall. exists w'. auto.
  - intros fuel out w' H. apply planTasks_run in H; [|exact Hne].
    cbv zeta in H. fold prompt in H.
    destruct H as (_ & n & new & Hn & Hg & _ & _ & _ & Hlast).
    unfold outcomeOf in Hlast.
    destruct (result (generateContent env (generated w + (n - 1)) prompt))
      as [error|response] eqn:Hreply.
    { cbn in Hlast. destruct Hlast as [Hc _]. discriminate. }
    destruct (handleResult (Text response)) as [c logged] eqn:Hh.
    cbn [fst] in Hlast. destruct c as [out'|e];
      [|destruct Hlast as [Hc _]; discriminate].
    injection Hlast as <-.
    apply handleResult_Normal in Hh.
    destruct Hh as (fields & items & validated & Hp & Hs & Hm & -> & _).
    exists (n - 1)%nat, response, fields, items.
    split; [lia|]. split; [lia|]. repeat (split; [assumption|]).
    rewrite length_map.
    rewrite <- (Permutation_length (sort_perm compareSortTime validated)).
    apply (mapC_length _ _ _ Hm).
Qed.

End Claims.

(** ** The prompt *)

Section PromptFacts.

Lemma append_assoc (a b c : string) : ((a ++ b) ++ c = a ++ (b ++ c))%string.
Proof. induction a as [|x a IH]; cbn; [reflexivity|]. rewrite IH. reflexivity. Qed.

Lemma lacks_append (sep : ascii) (a b : string) :
  Str.lacks sep (a ++ b) = Str.lacks sep a && Str.lacks sep b.
Proof.
  induction a as [|x a IH]; cbn [append Str.lacks]; [reflexivity|].
  rewrite IH. apply andb_assoc.
Qed.

Lemma split_lacks (sep : ascii) (s : string) :
  Str.lacks sep s = true -> Str.split sep s = [s].
Proof.
  induction s as [|c s IH]; cbn [Str.lacks Str.split]; [reflexivity|].
  intros H. apply andb_true_iff in H. destruct H as [Hc Hs].
  apply negb_true_iff in Hc. rewrite Hc, (IH Hs). reflexivity.
Qed.

Lemma split_append_sep (sep : ascii) (a b : string) :
  Str.lacks sep a = true ->
  Str.split sep (a ++ String sep b) = a :: Str.split sep b.
Proof.
  induction a as [|c a IH]; cbn [append Str.lacks Str.split].
  - intros _. rewrite Ascii.eqb_refl. reflexivity.
  - intros H. apply andb_true_iff in H. destruct H as [Hc Ha].
    apply negb_true_iff in Hc. rewrite Hc, (IH Ha). reflexivity.
Qed.

Lemma join_cons (sep : ascii) (p q : string) (rest : list string) :
  Str.join (String sep EmptyString) (p :: q :: rest)
  = (p ++ String sep (Str.join (String sep EmptyString) (q :: rest)))%string.
Proof. reflexivity. Qed.

(** Joining with a separator and splitting on it gives the pieces back
    when none of them holds the separator. *)
Lemma split_join (sep : ascii) (parts : list string) :
  parts <> [] ->
  Forall (fun p => Str.lacks sep p = true) parts ->
  Str.split sep (Str.join (String sep EmptyString) parts) = parts.
Proof.
  induction parts as [|p parts IH]; intros Hne Hall; [congruence|].
  inversion Hall as [|? ? Hp Hrest]; subst.
  destruct parts as [|q parts].
  - cbn [Str.join]. apply split_lacks. exact Hp.
  - rewrite join_cons, split_append_sep by exact Hp.
    rewrite IH; [reflexivity|discriminate|exact Hrest].
Qed.

Lemma join_app (sep : string) (l1 l2 : list string) :
  l1 <> [] -> l2 <> [] ->
  Str.join sep (l1 ++ l2) = (Str.join sep l1 ++ sep ++ Str.join sep l2)%string.
Proof.
  intros H1 H2. induction l1 as [|p l1 IH]; [congruence|].
  destruct l1 as [|q l1].
  - cbn [app Str.join]. destruct l2; [congruence|reflexivity].
  - change (Str.join sep ((p :: q :: l1) ++ l2))
      with (p ++ sep ++ Str.join sep ((q :: l1) ++ l2))%string.
    rewrite IH by discriminate.
    change (Str.join sep (p :: q :: l1))
      with (p ++ sep ++ Str.join sep (q :: l1))%string.
    rewrite !append_assoc. reflexivity.
Qed.

Lemma join_indent (sep indent p : string) (rest : list string) :
  Str.join sep ((indent ++ p)%string :: rest)
  = (indent ++ Str.join sep (p :: rest))%string.
Proof.
  destruct rest as [|q rest]; cbn [Str.join]; [reflexivity|].
  apply append_assoc.
Qed.

(** The prompt is the template's lines around the task descriptions, the
    first description behind the two spaces the template indents with. *)
Lemma promptOf_lines (task : Task) (rest : list Task) :
  promptOf (taskListOf (task :: rest))
  = Str.join nl (promptLinesBefore
                 ++ (("  " ++ description task)%string :: map description rest)
                 ++ promptLinesAfter).
Proof.
  rewrite (join_app nl promptLinesBefore) by discriminate.
  rewrite (join_app nl (_ :: _) promptLinesAfter) by discriminate.
  rewrite join_indent. unfold promptOf, taskListOf. cbn [map].
  rewrite !append_assoc. reflexivity.
Qed.

(** ** The lines of the prompt, whatever the descriptions hold *)

Lemma split_nonempty (sep : ascii) (s : string) : Str.split sep s <> [].
Proof.
  induction s as [|c s IH]; cbn [Str.split]; [discriminate|].
  destruct (Ascii.eqb c sep); [discriminate|].
  destruct (Str.split sep s); discriminate.
Qed.

Lemma split_app_sep (sep : ascii) (a b : string) :
  Str.split sep (a ++ String sep b)
  = (Str.split sep a ++ Str.split sep b)%list.
Proof.
  induction a as [|c a IH]; cbn [append Str.split].
  - rewrite Ascii.eqb_refl. reflexivity.
  - destruct (Ascii.eqb c sep); rewrite IH; [reflexivity|].
    pose proof (split_nonempty sep a) as Hne.
    destruct (Str.split sep a) as [|part parts]; [congruence|reflexivity].
Qed.

Lemma split_join_all (sep : ascii) (parts : list string) :
  parts <> [] ->
  Str.split sep (Str.join (String sep EmptyString) parts)
  = flat_map (Str.split sep) parts.
Proof.
  induction parts as [|p parts IH]; intros Hne; [congruence|].
  destruct parts as [|q parts].
  - cbn [Str.join flat_map]. rewrite app_nil_r. reflexivity.
  - rewrite join_cons, split_app_sep, IH by discriminate. reflexivity.
Qed.

Lemma split_indent (sep : ascii) (indent s : string) :
  Str.lacks sep indent = true ->
  Str.split sep (indent ++ s) = indented indent (Str.split sep s).
Proof.
  pose proof (split_nonempty sep s) as Hne.
  induction indent as [|c indent IH]; cbn [append Str.lacks]; intros H.
  - destruct (Str.split sep s); [congruence|reflexivity].
  - apply andb_true_iff in H. destruct H as [Hc Hi].
    apply negb_true_iff in Hc. cbn [Str.split]. rewrite Hc, (IH Hi).
    destruct (Str.split sep s); [congruence|reflexivity].
Qed.

Lemma flat_map_lines (lines : list string) :
  Forall (fun line => Str.lacks LF line = true) lines ->
  flat_map (Str.split LF) lines = lines.
Proof.
  induction 1 as [|line lines Hl _ IH]; cbn [flat_map]; [reflexivity|].
  rewrite (split_lacks LF line Hl), IH. reflexivity.
Qed.

(** The lines of the prompt: the template's lines around the lines of the
    descriptions. *)
Lemma promptOf_taskLines (task : Task) (rest : list Task) :
  Str.split LF (promptOf (taskListOf (task :: rest)))
  = (promptLinesBefore ++ taskLines (task :: rest) ++ promptLinesAfter)%list.
Proof.
  rewrite promptOf_lines.
  change nl with (String LF EmptyString).
  rewrite split_join_all by discriminate.
  rewrite !flat_map_app.
  rewrite (flat_map_lines promptLinesBefore) by (repeat constructor).
  rewrite (flat_map_lines promptLinesAfter) by (repeat constructor).
  f_equal. f_equal. unfold taskLines. cbn [flat_map].
  rewrite split_indent by reflexivity.
  pose proof (split_nonempty LF (description task)) as Hne.
  destruct (Str.split LF (description task)) as [|first more]; [congruence|].
  cbn [indented app]. f_equal. f_equal.
  clear. induction rest as [|t rest IH]; cbn [map flat_map]; [reflexivity|].
  rewrite IH. reflexivity.
Qed.

(** A description of two lines reads in the prompt as two descriptions. *)
Lemma join_two_lines (before after : list string) (first second : string) :
  Str.join nl (before ++ (first ++ nl ++ second)%string :: after)
  = Str.join nl (before ++ first :: second :: after).
Proof.
  induction before as [|p before IH]; cbn [app].
  - destruct after as [|q after]; cbn [Str.join]; [reflexivity|].
    rewrite !append_assoc. reflexivity.
  - change (Str.join nl (p :: before ++ (first ++ nl ++ second)%string :: after))
      with (match (before ++ (first ++ nl ++ second)%string :: after)%list with
            | [] => p
            | _ :: _ =>
                (p ++ nl ++ Str.join nl
                               (before ++ (first ++ nl ++ second)%string :: after))%string
            end).
    change (Str.join nl (p :: before ++ first :: second :: after))
      with (match (before ++ first :: second :: after)%list with
            | [] => p
            | _ :: _ =>
                (p ++ nl ++ Str.join nl (before ++ first :: second :: after))%string
            end).
    rewrite IH.
    destruct before; reflexivity.
Qed.

End PromptFacts.

Section PromptClaim.
Context {R : Runtime}.

(** C8 (amended): the prompt is a function of the descriptions in their
    order; it is the template with the descriptions, joined by line feeds,
    in the place of [taskList]; its lines are the template's lines and,
    between them, the lines of the descriptions in order, the very first
    behind the template's two spaces of indentation.  So when no description
    holds a line feed there is one line for each description, in order and
    verbatim (the first behind the two spaces); and a description of two
    lines gives the prompt of two tasks.  Every request of a call carries
    this prompt. *)
Theorem C8_prompt :
  (forall tasks1 tasks2,
      map description tasks1 = map description tasks2 ->
      promptOf (taskListOf tasks1) = promptOf (taskListOf tasks2))
  /\ (forall tasks,
        promptOf (taskListOf tasks)
        = (Str.join nl promptLinesBefore ++ nl ++ "  "
           ++ Str.join nl (map description tasks)
           ++ nl ++ Str.join nl promptLinesAfter)%string)
  /\ (forall task rest,
        Str.split LF (promptOf (taskListOf (task :: rest)))
        = (promptLinesBefore ++ taskLines (task :: rest)
           ++ promptLinesAfter)%list)
  /\ (forall task rest,
        Forall (fun t => Str.lacks LF (description t) = true) (task :: rest) ->
        Str.split LF (promptOf (taskListOf (task :: rest)))
        = (promptLinesBefore
           ++ (("  " ++ description task)%string :: map description rest)
           ++ promptLinesAfter)%list)
  /\ (forall (before after : list Task) (first second : string),
        promptOf (taskListOf
                    (before ++ {| description := first ++ nl ++ second |}
                            :: after))
        = promptOf (taskListOf
                      (before ++ {| description := first |}
                              :: {| description := second |} :: after)))
  /\ (forall env fuel w c w',
        planTasks env fuel w = Some (c, w') ->
        exists new, events w' = (events w ++ new)%list /\
                    forall p, In (EvGenerate p) new ->
                              p = promptOf (taskListOf (tasks w))).
Proof.
  split; [|split; [|split; [|split; [|split]]]].
  - intros tasks1 tasks2 H. unfold taskListOf. rewrite H. reflexivity.
  - reflexivity.
  - exact promptOf_taskLines.
  - intros task rest Hall. rewrite promptOf_lines.
    apply split_join.
    + discriminate.
    + apply Forall_app. split; [repeat constructor|].
      apply Forall_app. split; [|repeat constructor].
      inversion Hall as [|? ? Ht Hrest]; subst. constructor.
      * rewrite lacks_append, Ht. reflexivity.
      * apply Forall_map. exact Hrest.
  - intros before after first second. f_equal. unfold taskListOf.
    rewrite !map_app. cbn [map description]. apply join_two_lines.
  - intros env fuel w c w' H. destruct (tasks w) as [|t ts] eqn:E.
    + rewrite (planTasks_empty env fuel w E) in H. injection H as _ <-.
      exists []. rewrite app_nil_r. split; [reflexivity|]. intros p [].
    + assert (Hne : tasks w <> []) by congruence.
      apply planTasks_run in H; [|exact Hne]. cbv zeta in H.
      destruct H as (_ & n & new & _ & _ & Hev & Hview & _).
      exists new. split; [exact Hev|]. intros p Hin.
      assert (Hin' : In (EvGenerate p) (attemptView new)).
      { apply filter_In. split; [exact Hin|reflexivity]. }
      rewrite Hview, E in Hin'. clear - Hin'.
      generalize dependent 0%Z. induction n as [|n IH]; intros a Hin;
        cbn [expectedView] in Hin; [contradiction|].
      destruct Hin as [Heq|Hin]; [congruence|].
      destruct n as [|n]; [contradiction|].
      destruct Hin as [Heq|Hin]; [discriminate|]. exact (IH _ Hin).
Qed.

End PromptClaim.

(** ** The claims on concrete runs *)

(** No tasks: the error, and the world untouched. *)
Lemma C1_no_tasks_witness :
  @planTasks Reference.reference Runs.fourthTime 0 (startWorld [])
  = Some (Throw (GeminiError "No tasks provided for planning"
                   (Some "NO_TASKS") false), startWorld [])
  /\ isRetryableError (GeminiError "No tasks provided for planning"
                         (Some "NO_TASKS") false) = false.
Proof.
  exact (@C1_no_tasks Reference.reference Runs.fourthTime 0 (startWorld []) eq_refl).
Defined.

(** Two transport errors and a reply that is not JSON, then the reply of
    the round trip: the whole run, rate limiter included. *)
Example fourthTime_run :
  @planTasks Reference.reference Runs.fourthTime 8 (startWorld Runs.twoTasks)
  = Some (Normal [ {| task := JString "A"; time := "9:00 AM";
                      reason := JString "r" |} ], Runs.fourthTimeEnd).
Proof. reflexivity. Qed.

(** The task array after that run. *)
Lemma C9_tasks_unchanged_witness :
  tasks Runs.fourthTimeEnd = tasks (startWorld Runs.twoTasks).
Proof.
  exact (@C9_tasks_unchanged Reference.reference Runs.fourthTime 8
           (startWorld Runs.twoTasks) Runs.fourthTimeEnd
           (Normal [ {| task := JString "A"; time := "9:00 AM";
                        reason := JString "r" |} ])
           eq_refl).
Defined.

(** The same run through its requests and backoffs. *)
Lemma C5_retry_backoff_witness :
  exists w',
    @planTasks Reference.reference Runs.fourthTime 8 (startWorld Runs.twoTasks)
    = Some (Normal [ {| task := JString "A"; time := "9:00 AM";
                        reason := JString "r" |} ], w')
    /\ generated w' = 4%nat
    /\ exists new,
         events w' = new /\
         attemptView new
         = [EvGenerate Runs.promptOfTwo; EvSleep 1000;
            EvGenerate Runs.promptOfTwo; EvSleep 2000;
            EvGenerate Runs.promptOfTwo; EvSleep 4000;
            EvGenerate Runs.promptOfTwo].
Proof.
  destruct (proj1 (proj2 (proj2 (proj2
              (@C5_retry_backoff Reference.reference Runs.fourthTime
                 (startWorld Runs.twoTasks) ltac:(discriminate)))))
              (fun _ => Z.le_refl 0)
              [ {| task := JString "A"; time := "9:00 AM";
                   reason := JString "r" |} ])
    as (w' & Hall & Hg & new & Hev & Hview).
  - intros i Hi. destruct i as [|[|[|i]]]; [| | |lia];
      eexists; split; reflexivity.
  - reflexivity.
  - exists w'. split; [exact (Hall 8%nat (le_n 8))|].
    split; [exact Hg|]. exists new. split; [exact Hev|exact Hview].
Defined.

(** A request rejected with a classified error that is not retryable. *)
Lemma C6_non_retryable_witness :
  exists w',
    @planTasks Reference.reference Runs.refused 8 (startWorld Runs.twoTasks)
    = Some (Throw (GeminiError "quota exhausted" (Some "QUOTA") false), w')
    /\ generated w' = 1%nat
    /\ attemptView (events w') = [EvGenerate Runs.promptOfTwo].
Proof.
  destruct (proj1 (proj2 (proj2 (proj2
              (@C6_non_retryable Reference.reference Runs.refused))))
              (fun _ => Z.le_refl 0) (startWorld Runs.twoTasks) 0%nat
              "quota exhausted" (Some "QUOTA") ltac:(discriminate) ltac:(lia)
              ltac:(intros i Hi; lia) eq_refl)
    as (w' & Hall & Hg & new & Hev & Hview).
  exists w'. split; [exact (Hall 8%nat (le_n 8))|]. split; [exact Hg|].
  rewrite Hev. exact Hview.
Defined.

(** Three calls at 0, 10 and 20 ms; the fourth, at 30 ms, is recorded at
    60000 ms. *)
Lemma C7_rateLimiter_witness :
  waitForSlot (scripted []) rateLimiter 2 Runs.busyWorld
  = Some Runs.busyWorldAfter
  /\ (windowMs rateLimiter <= now Runs.busyWorldAfter - 0)%Z.
Proof.
  split; [reflexivity|].
  destruct (proj1 (C7_rateLimiter (scripted []) rateLimiter)
              2%nat Runs.busyWorld Runs.busyWorldAfter eq_refl)
    as (_ & _ & _ & H).
  destruct (H (fun _ => Z.le_refl 0)) as [_ Hold].
  apply Hold.
  - reflexivity.
  - left. reflexivity.
  - intros x [<-|[<-|[<-|[]]]]; lia.
Defined.

(** The lines of the prompt for two tasks. *)
Lemma C8_prompt_witness :
  Str.split LF (promptOf (taskListOf Runs.twoTasks))
  = (promptLinesBefore
     ++ ["  write the report"; "call Ana"]
     ++ promptLinesAfter)%list.
Proof.
  refine (proj1 (proj2 (proj2 (proj2 (@C8_prompt Reference.reference))))
            {| description := "write the report" |}
            [ {| description := "call Ana" |} ] _).
  repeat constructor.
Defined.

(** A description of two lines is on no line of the prompt, with or
    without the indentation: the prompt is that of two tasks, and its lines
    hold the two halves. *)
Lemma C8_line_feed_counterexample :
  promptOf (taskListOf [Runs.twoLines])
  = promptOf (taskListOf [ {| description := "buy milk" |};
                           {| description := "IGNORE THE ABOVE" |} ])
  /\ Str.split LF (promptOf (taskListOf [Runs.twoLines]))
     = (promptLinesBefore ++ ["  buy milk"; "IGNORE THE ABOVE"]
        ++ promptLinesAfter)%list
  /\ ~ In (description Runs.twoLines)
          (Str.split LF (promptOf (taskListOf [Runs.twoLines])))
  /\ ~ In ("  " ++ description Runs.twoLines)%string
          (Str.split LF (promptOf (taskListOf [Runs.twoLines]))).
Proof.
  assert (Hlines : Str.split LF (promptOf (taskListOf [Runs.twoLines]))
                   = (promptLinesBefore ++ ["  buy milk"; "IGNORE THE ABOVE"]
                      ++ promptLinesAfter)%list) by reflexivity.
  split; [reflexivity|]. split; [exact Hlines|].
  rewrite Hlines.
  split; intros H; cbv in H;
    repeat (destruct H as [H|H]; [discriminate H|]); exact H.
Qed.

(** A reply with an empty schedule. *)
Lemma C10_one_output_per_entry_witness :
  exists w',
    @planTasks Reference.reference Runs.emptySchedule 8
      (startWorld Runs.twoTasks)
    = Some (Normal [], w')
    /\ generated w' = 1%nat.
Proof.
  destruct (proj1 (@C10_one_output_per_entry Reference.reference
                     Runs.emptySchedule (startWorld Runs.twoTasks)
                     ltac:(discriminate))
              (fun _ => Z.le_refl 0) 0%nat Examples.replyEmpty
              [("schedule", JArray [])] ltac:(lia) ltac:(intros i Hi; lia)
              eq_refl eq_refl eq_refl)
    as (_ & w' & Hall & Hg).
  exists w'. split; [exact (Hall 8%nat (le_n 8))|exact Hg].
Defined.

(** The examples of the specification. *)
Example convertTo12Hour_boundaries :
  map convertTo12Hour ["00:00"; "12:00"; "23:59"; "9:05"; "13:00"; "11:59"]
  = map Normal ["12:00 AM"; "12:00 PM"; "11:59 PM"; "9:05 AM"; "1:00 PM";
                "11:59 AM"].
Proof. reflexivity. Qed.

Example timeRegex_examples :
  map (regex_test timeRegex)
    ["09:00"; "9:00"; "23:59"; "24:15"; "25:00"; "12:60"; "1200"; "09:00 "]
  = [true; true; true; false; false; false; false; false].
Proof. reflexivity. Qed.

(** All attempts fail: the fourth failure is surfaced as UNKNOWN_ERROR
    after the three backoffs, and no fifth attempt is made. *)
Example always_unavailable :
  option_map (fun r => (fst r, generated (snd r),
                        filter (fun e => match e with
                                         | EvSleep _ => true
                                         | _ => false
                                         end) (events (snd r))))
    (@planTasks Reference.reference (scripted []) 8 (startWorld Runs.twoTasks))
  = Some (Throw (GeminiError "An unexpected error occurred while planning tasks"
                   (Some "UNKNOWN_ERROR") true),
          4%nat, [EvSleep 1000; EvSleep 2000; EvSleep 4000]).
Proof. reflexivity. Qed.

(** * Further properties *)

(** ** The rate limiter over a sequence of calls *)

Section ServedFacts.
Variable env : Env.
Variable rl : RateLimiter.
Hypothesis lag_nonneg : forall k, (0 <= lag env k)%Z.
Hypothesis window_pos : (0 < windowMs rl)%Z.

Lemma evict_app (t : Z) (l1 l2 : list Z) :
  evict rl t (l1 ++ l2) = (evict rl t l1 ++ evict rl t l2)%list.
Proof. apply filter_app. Qed.

Lemma evict_now (t : Z) : evict rl t [t] = [t].
Proof.
  unfold evict. cbn [filter]. rewrite Z.sub_diag.
  replace (0 <? windowMs rl)%Z with true by (symmetry; apply Z.ltb_lt; exact window_pos).
  reflexivity.
Qed.

(** What is in the window at the time a call returns: the part of the
    previous array still in the window, and the call. *)
Lemma waitForSlot_window (fuel : nat) (w w' : World) :
  waitForSlot env rl fuel w = Some w' ->
  (now w <= now w')%Z /\
  requests w' = (evict rl (now w') (requests w) ++ [now w'])%list /\
  (Z.of_nat (length (evict rl (now w') (requests w))) < limit rl)%Z.
Proof.
  intros H.
  destruct (waitForSlot_monotone env rl lag_nonneg fuel w w' H) as [Hnow Hreq].
  destruct (waitForSlot_returns env rl fuel w w' H)
    as (_ & _ & _ & kept & p & Hreq' & _ & _ & Hcap).
  rewrite Hreq in Hreq'. apply app_inj_tail in Hreq'. destruct Hreq' as [<- _].
  unfold atCapacity in Hcap. apply Z.leb_gt in Hcap. auto.
Qed.

(** Along a sequence of calls the window of the array is the window of
    everything recorded, the clock advances, and the recorded times are in
    order. *)
Lemma served_window (w0 w : World) (times : list Z) :
  served env rl w0 times w ->
  evict rl (now w) (requests w) = evict rl (now w) (requests w0 ++ times) /\
  (now w0 <= now w)%Z /\
  Forall (fun t => (now w0 <= t <= now w)%Z) times /\
  StronglySorted Z.le times.
Proof.
  induction 1 as [|times w1 w2 _ IH Hreq Hnow|times w1 w2 fuel _ IH Hcall].
  - rewrite app_nil_r. repeat split; try lia; constructor.
  - destruct IH as (Hwin & Hstart & Hin & Hsorted).
    split; [|split; [lia|split; [|exact Hsorted]]].
    + rewrite Hreq.
      transitivity (evict rl (now w2) (evict rl (now w1) (requests w1))).
      { symmetry. apply evict_evict. exact Hnow. }
      rewrite Hwin. apply evict_evict. exact Hnow.
    + eapply Forall_impl; [|exact Hin]. cbv beta. intros; lia.
  - destruct IH as (Hwin & Hstart & Hin & Hsorted).
    destruct (waitForSlot_window fuel w1 w2 Hcall) as (Hnow & Hreq & _).
    split; [|split; [lia|split]].
    + rewrite Hreq, evict_app, evict_now, app_assoc, evict_app, evict_now.
      f_equal. rewrite evict_evict by lia.
      transitivity (evict rl (now w2) (evict rl (now w1) (requests w1))).
      { symmetry. apply evict_evict. exact Hnow. }
      rewrite Hwin. apply evict_evict. exact Hnow.
    + apply Forall_app. split.
      * eapply Forall_impl; [|exact Hin]. cbv beta. intros; lia.
      * constructor; [lia|constructor].
    + clear - Hsorted Hin Hnow. induction times as [|t times IH].
      * constructor; constructor.
      * inversion Hsorted as [|? ? Hs Hle]; subst.
        inversion Hin as [|? ? Ht Hin']; subst. cbn [app].
        constructor; [apply IH; assumption|].
        apply Forall_app. split; [exact Hle|]. constructor; [lia|constructor].
Qed.

(** Whenever a call is recorded, fewer than [limit] of the earlier
    timestamps lie inside the window that ends with it. *)
Lemma served_count (w0 w : World) (times : list Z) :
  served env rl w0 times w ->
  forall before t after,
    times = (before ++ t :: after)%list ->
    (Z.of_nat (length (evict rl t (requests w0 ++ before))) < limit rl)%Z.
Proof.
  induction 1 as [|times w1 w2 _ IH Hreq Hnow|times w1 w2 fuel Hserved IH Hcall];
    intros before t after Heq.
  - destruct before; discriminate.
  - eapply IH. exact Heq.
  - destruct after as [|x after' _] using rev_ind.
    + apply app_inj_tail in Heq. destruct Heq as [-> <-].
      destruct (waitForSlot_window fuel w1 w2 Hcall) as (Hnow & _ & Hlen).
      destruct (served_window w0 w1 before Hserved) as (Hwin & _).
      assert (E : evict rl (now w2) (requests w1)
                  = evict rl (now w2) (requests w0 ++ before)).
      { transitivity (evict rl (now w2) (evict rl (now w1) (requests w1))).
        - symmetry. apply evict_evict. exact Hnow.
        - rewrite Hwin. apply evict_evict. exact Hnow. }
      rewrite E in Hlen. exact Hlen.
    + rewrite app_comm_cons, app_assoc in Heq. apply app_inj_tail in Heq.
      destruct Heq as [Heq _]. eapply IH. exact Heq.
Qed.

Lemma sorted_app_le (l1 l2 : list Z) :
  StronglySorted Z.le (l1 ++ l2) ->
  forall x y, In x l1 -> In y l2 -> (x <= y)%Z.
Proof.
  induction l1 as [|a l1 IH]; cbn [app]; intros Hs x y Hx Hy; [contradiction|].
  inversion Hs as [|? ? Hs' Hle]; subst. destruct Hx as [<-|Hx].
  - rewrite Forall_forall in Hle. apply Hle. apply in_or_app. right. exact Hy.
  - apply (IH Hs' x y Hx Hy).
Qed.

Lemma sorted_app_r (l1 l2 : list Z) :
  StronglySorted Z.le (l1 ++ l2) -> StronglySorted Z.le l2.
Proof.
  induction l1 as [|a l1 IH]; cbn [app]; intros Hs; [exact Hs|].
  inversion Hs; subst. auto.
Qed.

(** Any [limit + 1] calls in a row span at least [windowMs]. *)
Lemma served_span (w0 w : World) (times : list Z) :
  served env rl w0 times w ->
  forall before first between last after,
    times = (before ++ first :: between ++ last :: after)%list ->
    (Z.of_nat (length between) = limit rl - 1)%Z ->
    (windowMs rl <= last - first)%Z.
Proof.
  intros Hserved.
  pose proof (served_count w0 w times Hserved) as Hcount.
  destruct (served_window w0 w times Hserved) as (_ & _ & _ & Hsorted).
  intros before first between last after Heq Hlen.
  destruct (Z.le_gt_cases (windowMs rl) (last - first)) as [Hok|Hbad]; [exact Hok|].
  exfalso.
  specialize (Hcount (before ++ first :: between)%list last after).
  rewrite <- app_assoc in Hcount. specialize (Hcount Heq).
  rewrite !evict_app in Hcount. rewrite !length_app in Hcount.
  assert (Hall : evict rl last (first :: between) = first :: between).
  { unfold evict. apply forallb_filter_id. apply forallb_forall. intros x Hx.
    apply Z.ltb_lt. subst times. apply sorted_app_r in Hsorted.
    assert (Hfx : (first <= x)%Z).
    { destruct Hx as [<-|Hx]; [lia|].
      inversion Hsorted as [|? ? _ Hle]; subst. rewrite Forall_forall in Hle.
      apply Hle. apply in_or_app. left. exact Hx. }
    assert (Hxl : (x <= last)%Z).
    { change (first :: between ++ last :: after)%list
        with ((first :: between) ++ last :: after)%list in Hsorted.
      apply (sorted_app_le _ _ Hsorted x last Hx). left. reflexivity. }
    lia. }
  rewrite Hall in Hcount. cbn [length] in Hcount. lia.
Qed.

(** X1: the guarantee of the rate limiter over any sequence of calls with
    timers that do not fire early, the clock not going back between the
    calls: when a call is recorded, fewer than
    [limit] earlier timestamps (those the array started with and those
    recorded since) lie in the window that ends with it; hence the recorded
    times are in order and any [limit + 1] calls in a row span at least
    [windowMs]. *)
Theorem X1_rate_limit (w0 w : World) (times : list Z) :
  served env rl w0 times w ->
  (forall before t after,
      times = (before ++ t :: after)%list ->
      (Z.of_nat (length (evict rl t (requests w0 ++ before))) < limit rl)%Z)
  /\ StronglySorted Z.le times
  /\ (forall before first between last after,
        times = (before ++ first :: between ++ last :: after)%list ->
        (Z.of_nat (length between) = limit rl - 1)%Z ->
        (windowMs rl <= last - first)%Z).
Proof.
  intros Hserved. split; [exact (served_count w0 w times Hserved)|].
  split; [|exact (served_span w0 w times Hserved)].
  destruct (served_window w0 w times Hserved) as (_ & _ & _ & Hsorted).
  exact Hsorted.
Qed.

End ServedFacts.

(** ** How long a call with four attempts takes *)

Section PlanTasksTiming.
Context {R : Runtime}.
Variable env : Env.
Hypothesis lag_nonneg : forall k, (0 <= lag env k)%Z.
Hypothesis duration_nonneg :
  forall i prompt, (0 <= duration (generateContent env i prompt))%Z.

(** An attempt is one call of the rate limiter, then time passing. *)
Lemma attemptOnce_served (w0 w w2 : World) (times : list Z) (fuel : nat)
    (prompt : string) (c : Completion (list ScheduledTask)) :
  served env rateLimiter w0 times w ->
  attemptOnce env fuel prompt w = Some (c, w2) ->
  exists t, served env rateLimiter w0 (times ++ [t])%list w2.
Proof.
  intros Hserved. unfold attemptOnce.
  destruct (waitForSlot env rateLimiter fuel w) as [w1|] eqn:Hw; [|discriminate].
  unfold awaitGenerate.
  destruct (handleResult _) as [completion logged].
  intros H. injection H as _ <-.
  exists (now w1). eapply served_idle.
  - eapply served_call; [exact Hserved|exact Hw].
  - match goal with
    | |- context [fold_left ?f logged ?wg] =>
        destruct (emit_all logged wg) as (_ & E2 & _); rewrite E2
    end. reflexivity.
  - match goal with
    | |- context [fold_left ?f logged ?wg] =>
        destruct (emit_all logged wg) as (_ & _ & E3 & _); rewrite E3
    end. cbn [now].
    pose proof (duration_nonneg (generated w1) prompt). lia.
Qed.

(** A run of the loop is a sequence of calls of the rate limiter, one for
    each request. *)
Lemma attemptLoop_served (prompt : string) (fuel : nat) :
  forall (attempt : Z) (lastError : option Thrown) (w0 w w' : World)
         (times : list Z) (c : Completion (list ScheduledTask)),
  (0 <= attempt)%Z ->
  served env rateLimiter w0 times w ->
  attemptLoop env fuel attempt lastError prompt w = Some (c, w') ->
  exists more,
    served env rateLimiter w0 (times ++ more)%list w' /\
    (generated w' = generated w + length more)%nat.
Proof.
  induction fuel as [|fuel IH];
    intros attempt lastError w0 w w' times c Hatt Hserved; cbn [attemptLoop];
    (destruct (attempt <=? maxRetries)%Z;
     [|intros H; injection H as _ <-; exists []; rewrite app_nil_r;
       split; [exact Hserved|cbn; lia]]);
    [discriminate|].
  destruct (attemptOnce env (S fuel) prompt w) as [[c1 w1]|] eqn:Hone;
    [|discriminate].
  destruct (attemptOnce_served w0 w w1 times (S fuel) prompt c1 Hserved Hone)
    as [t Hserved1].
  apply attemptOnce_spec in Hone. destruct Hone as (_ & _ & Hg1 & _).
  assert (done : forall c0, Some (c0, w1) = Some (c, w') ->
            exists more,
              served env rateLimiter w0 (times ++ more)%list w' /\
              (generated w' = generated w + length more)%nat).
  { intros c0 H. injection H as _ <-. exists [t]. split; [exact Hserved1|].
    cbn [length]. lia. }
  destruct c1 as [schedule|error]; [apply done|].
  destruct (negb (isRetryableError error) || (attempt =? maxRetries)%Z);
    [apply done|].
  clear done. intros Hrec.
  apply (IH _ _ w0 _ _ (times ++ [t])%list) in Hrec; [|lia|].
  - destruct Hrec as (more & Hs & Hg).
    cbn [generated awaitTimer emit] in Hg.
    exists (t :: more). rewrite <- app_assoc in Hs. split; [exact Hs|].
    cbn [length]. lia.
  - eapply served_idle; [exact Hserved1|reflexivity|].
    cbn [now timers awaitTimer emit timerDelay].
    pose proof (lag_nonneg (timers w1)). lia.
Qed.

(** X2: with timers that do not fire early and requests that take no
    negative time, a call of [planTasks] that sends four requests takes at
    least 60 seconds, whatever the backoff:
    the limiter lets three calls through per minute, so the fourth request
    waits for the first to leave the window. *)
Theorem X2_four_attempts_take_a_minute (fuel : nat) (w w' : World)
    (c : Completion (list ScheduledTask)) :
  planTasks env fuel w = Some (c, w') ->
  generated w' = (generated w + 4)%nat ->
  (60000 <= now w' - now w)%Z.
Proof.
  intros Hrun Hfour. destruct (tasks w) as [|task rest] eqn:E.
  { rewrite (planTasks_empty env fuel w E) in Hrun. injection Hrun as _ <-. lia. }
  rewrite planTasks_nonempty in Hrun by congruence.
  destruct (attemptLoop_served _ fuel 0 None w w w' [] c ltac:(lia)
              (served_start env rateLimiter w) Hrun) as (more & Hserved & Hg).
  cbn [app] in Hserved.
  destruct more as [|t1 [|t2 [|t3 [|t4 [|t5 more]]]]]; cbn [length] in Hg; try lia.
  pose proof (served_span env rateLimiter lag_nonneg ltac:(cbn; lia)
                w w' _ Hserved [] t1 [t2; t3] t4 [] eq_refl eq_refl) as Hspan.
  destruct (served_window env rateLimiter lag_nonneg ltac:(cbn; lia)
              w w' _ Hserved) as (_ & _ & Hin & _).
  inversion Hin as [|? ? H1 Hin1]; subst.
  inversion Hin1 as [|? ? _ Hin2]; subst.
  inversion Hin2 as [|? ? _ Hin3]; subst.
  inversion Hin3 as [|? ? H4 _]; subst.
  cbn [windowMs rateLimiter] in Hspan. lia.
Qed.

End PlanTasksTiming.

(** Four calls through the limiter from the start, with exact timers: three
    at once, the fourth a window later. *)
Lemma X1_rate_limit_witness :
  served (scripted []) rateLimiter (startWorld []) [0; 0; 0; 60000]%Z
    {| tasks := []; requests := [60000%Z]; now := 60000; generated := 0;
       timers := 1; events := [EvSlotTimer (Int 60000)] |}
  /\ (windowMs rateLimiter <= 60000 - 0)%Z.
Proof.
  pose (env := scripted []).
  pose (at0 := fun requests : list Z =>
                 {| tasks := []; requests := requests; now := 0%Z;
                    generated := 0; timers := 0; events := [] |}).
  pose proof (served_call env rateLimiter (startWorld []) [] (at0 []) (at0 [0%Z])
                1 (served_start _ _ _) eq_refl) as H1.
  pose proof (served_call env rateLimiter (startWorld []) _ _ (at0 [0; 0]%Z)
                1 H1 eq_refl) as H2.
  pose proof (served_call env rateLimiter (startWorld []) _ _ (at0 [0; 0; 0]%Z)
                1 H2 eq_refl) as H3.
  pose proof (served_call env rateLimiter (startWorld []) _ _
                {| tasks := []; requests := [60000%Z]; now := 60000;
                   generated := 0; timers := 1;
                   events := [EvSlotTimer (Int 60000)] |}
                2 H3 eq_refl) as H4.
  split; [exact H4|].
  exact (proj2 (proj2 (X1_rate_limit env rateLimiter (fun _ => Z.le_refl 0)
                         eq_refl _ _ _ H4))
           [] 0%Z [0; 0]%Z 60000%Z [] eq_refl eq_refl).
Defined.

(** The run of four attempts ends 60200 ms after it began. *)
Lemma X2_four_attempts_take_a_minute_witness :
  (60000 <= now Runs.fourthTimeEnd - now (startWorld Runs.twoTasks))%Z.
Proof.
  exact (@X2_four_attempts_take_a_minute Reference.reference Runs.fourthTime
           (fun _ => Z.le_refl 0) (fun _ _ => ltac:(discriminate))
           8 (startWorld Runs.twoTasks) Runs.fourthTimeEnd _
           fourthTime_run eq_refl).
Defined.

(** ** The array of the rate limiter *)

Section LimiterInvariant.
Variable env : Env.
Variable rl : RateLimiter.

Lemma evict_sorted (t : Z) (l : list Z) :
  StronglySorted Z.le l -> StronglySorted Z.le (evict rl t l).
Proof.
  unfold evict. induction 1 as [|x l Hs IH Hle]; cbn [filter]; [constructor|].
  destruct (t - x <? windowMs rl)%Z; [|exact IH].
  constructor; [exact IH|].
  apply Forall_forall. intros y Hy. apply filter_In in Hy.
  rewrite Forall_forall in Hle. apply Hle. tauto.
Qed.

Lemma sorted_snoc (l : list Z) (t : Z) :
  StronglySorted Z.le l -> Forall (fun x => (x <= t)%Z) l ->
  StronglySorted Z.le (l ++ [t]).
Proof.
  induction 1 as [|x l Hs IH Hle]; cbn [app]; intros Hall.
  - constructor; constructor.
  - inversion Hall; subst. constructor; [auto|].
    apply Forall_app. split; [exact Hle|]. constructor; [assumption|constructor].
Qed.

Hypothesis lag_nonneg : forall k, (0 <= lag env k)%Z.

Lemma waitForSlot_limiterOK (fuel : nat) (w w' : World) :
  limiterOK rl w -> waitForSlot env rl fuel w = Some w' -> limiterOK rl w'.
Proof.
  intros (Hsorted & Hpast & _) Hcall.
  destruct (waitForSlot_monotone env rl lag_nonneg fuel w w' Hcall) as [Hnow Hreq].
  destruct (waitForSlot_returns env rl fuel w w' Hcall)
    as (_ & _ & _ & kept & p & Hreq' & _ & _ & Hcap).
  unfold atCapacity in Hcap. apply Z.leb_gt in Hcap.
  assert (Hle : Forall (fun x => (x <= now w')%Z) (evict rl (now w') (requests w))).
  { apply Forall_forall. intros x Hx. apply filter_In in Hx.
    rewrite Forall_forall in Hpast. destruct Hx as [Hx _].
    specialize (Hpast x Hx). lia. }
  unfold limiterOK. split; [|split].
  - rewrite Hreq. apply sorted_snoc; [apply evict_sorted; exact Hsorted|exact Hle].
  - rewrite Hreq. apply Forall_app. split; [exact Hle|].
    constructor; [lia|constructor].
  - rewrite Hreq', length_app. cbn [length]. lia.
Qed.

Lemma served_limiterOK (w0 w : World) (times : list Z) :
  served env rl w0 times w -> limiterOK rl w0 -> limiterOK rl w.
Proof.
  induction 1 as [|times w1 w2 _ IH Hreq Hnow|times w1 w2 fuel _ IH Hcall];
    intros Hok.
  - exact Hok.
  - destruct (IH Hok) as (Hs & Hp & Hl). unfold limiterOK. rewrite Hreq.
    split; [exact Hs|]. split; [|exact Hl].
    eapply Forall_impl; [|exact Hp]. cbv beta. intros; lia.
  - eapply waitForSlot_limiterOK; [apply IH; exact Hok|exact Hcall].
Qed.

End LimiterInvariant.

Section LimiterInvariantClaims.
Context {R : Runtime}.
Variable env : Env.
Hypothesis lag_nonneg : forall k, (0 <= lag env k)%Z.

(** X3: the shape the limiter's array keeps with timers that do not fire
    early: ascending, nothing from the future, at most [limit] entries; so
    [requests[0]], which line 27 takes for the oldest request, is the
    oldest.  Every call of [waitForSlot] keeps it for any limiter, and so
    does every call of [planTasks] when requests to the model take no
    negative time. *)
Theorem X3_limiter_array_shape :
  (forall rl fuel w w',
      limiterOK rl w -> waitForSlot env rl fuel w = Some w' ->
      limiterOK rl w' /\
      forall oldest rest, requests w' = oldest :: rest ->
                          Forall (fun time => (oldest <= time)%Z) rest)
  /\ ((forall i prompt, (0 <= duration (generateContent env i prompt))%Z) ->
      forall fuel w w' c,
        limiterOK rateLimiter w -> planTasks env fuel w = Some (c, w') ->
        limiterOK rateLimiter w').
Proof.
  split.
  - intros rl fuel w w' Hok Hcall.
    pose proof (waitForSlot_limiterOK env rl lag_nonneg fuel w w' Hok Hcall) as Hok'.
    split; [exact Hok'|]. intros oldest rest Heq.
    destruct Hok' as (Hs & _). rewrite Heq in Hs. inversion Hs; subst. assumption.
  - intros Hdur fuel w w' c Hok Hrun. destruct (tasks w) as [|task rest] eqn:E.
    { rewrite (planTasks_empty env fuel w E) in Hrun. injection Hrun as _ <-. exact Hok. }
    rewrite planTasks_nonempty in Hrun by congruence.
    destruct (attemptLoop_served env lag_nonneg Hdur _ fuel 0 None w w w' [] c
                ltac:(lia) (served_start env rateLimiter w) Hrun)
      as (more & Hserved & _).
    exact (served_limiterOK env rateLimiter lag_nonneg w w' _ Hserved Hok).
Qed.

End LimiterInvariantClaims.

(** X5: a limiter whose limit is zero or less never lets a call through:
    [waitForSlot] finds itself at capacity at every evaluation and calls
    itself again without end. *)
Theorem X5_no_quota_never_returns (env : Env) (rl : RateLimiter) (fuel : nat)
    (w : World) :
  (limit rl <= 0)%Z -> waitForSlot env rl fuel w = None.
Proof.
  intros Hlim. revert w. induction fuel as [|fuel IH]; intros w; [reflexivity|].
  cbn [waitForSlot]. cbn [requests setRequests].
  replace (atCapacity rl (evict rl (now w) (requests w))) with true; [apply IH|].
  symmetry. unfold atCapacity. apply Z.leb_le. lia.
Qed.

(** ** A call among others, and a call by itself *)

Section OverlapFacts.
Context {R : Runtime}.
Variable o : Others.
Variable env : Env.

Lemma resumed_id (others : list Z -> list Z) (w : World) :
  (forall l, others l = l) -> resumed others w = w.
Proof.
  intros H. unfold resumed, setRequests. rewrite H. destruct w. reflexivity.
Qed.

Lemma waitForSlotAmong_more_fuel (rl : RateLimiter) (fuel fuel' : nat)
    (w w' : World) :
  waitForSlotAmong o env rl fuel w = Some w' -> (fuel <= fuel')%nat ->
  waitForSlotAmong o env rl fuel' w = Some w'.
Proof.
  revert fuel' w. induction fuel as [|fuel IH]; intros fuel' w H Hle;
    [discriminate|].
  destruct fuel' as [|fuel']; [lia|]. cbn [waitForSlotAmong] in H |- *.
  destruct (atCapacity rl _); [|exact H]. apply IH; [exact H|lia].
Qed.

(** A call that nobody disturbs during its first timer goes its first two
    rounds as if it were alone. *)
Lemma waitForSlotAmong_once (rl : RateLimiter) (w : World) :
  (forall l, duringTimer o (timers w) l = l) ->
  waitForSlotAmong o env rl 2 w = waitForSlot env rl 2 w.
Proof.
  intros Hquiet. cbn [waitForSlotAmong waitForSlot].
  destruct (atCapacity rl _); [|reflexivity].
  unfold awaitTimerAmong. cbn [timers emit setRequests].
  rewrite (resumed_id _ _ Hquiet). reflexivity.
Qed.

Hypothesis alone : undisturbed o.

Lemma awaitTimerAmong_alone (ms : num) (w : World) :
  awaitTimerAmong o env ms w = awaitTimer env ms w.
Proof. apply resumed_id. intros l. apply alone. Qed.

Lemma waitForSlotAmong_alone (rl : RateLimiter) (fuel : nat) (w : World) :
  waitForSlotAmong o env rl fuel w = waitForSlot env rl fuel w.
Proof.
  revert w. induction fuel as [|fuel IH]; intros w; [reflexivity|].
  cbn [waitForSlotAmong waitForSlot].
  destruct (atCapacity rl _); [|reflexivity].
  rewrite awaitTimerAmong_alone. apply IH.
Qed.

Lemma attemptOnceAmong_alone (fuel : nat) (prompt : string) (w : World) :
  attemptOnceAmong o env fuel prompt w = attemptOnce env fuel prompt w.
Proof.
  unfold attemptOnceAmong, attemptOnce. rewrite waitForSlotAmong_alone.
  destruct (waitForSlot env rateLimiter fuel w) as [w1|]; [|reflexivity].
  unfold awaitGenerateAmong.
  destruct (awaitGenerate env prompt w1) as [r w2].
  rewrite resumed_id by (intros l; apply alone). reflexivity.
Qed.

Lemma attemptLoopAmong_alone (prompt : string) (fuel : nat) :
  forall (attempt : Z) (lastError : option Thrown) (w : World),
  attemptLoopAmong o env fuel attempt lastError prompt w
  = attemptLoop env fuel attempt lastError prompt w.
Proof.
  induction fuel as [|fuel IH]; intros attempt lastError w;
    cbn [attemptLoopAmong attemptLoop]; [reflexivity|].
  destruct (attempt <=? maxRetries)%Z; [|reflexivity].
  rewrite attemptOnceAmong_alone.
  destruct (attemptOnce env (S fuel) prompt w) as [[[schedule|error] w1]|];
    try reflexivity.
  destruct (negb (isRetryableError error) || (attempt =? maxRetries)%Z);
    [reflexivity|].
  rewrite awaitTimerAmong_alone. apply IH.
Qed.

Lemma planTasksAmong_alone (fuel : nat) (w : World) :
  planTasksAmong o env fuel w = planTasks env fuel w.
Proof.
  unfold planTasksAmong, planTasks.
  destruct (length (tasks w) =? 0)%nat; [reflexivity|].
  apply attemptLoopAmong_alone.
Qed.

End OverlapFacts.

Section ExactTimers.
Variable env : Env.
Variable rl : RateLimiter.
Hypothesis timers_exact : forall k, lag env k = 0%Z.



End ExactTimers.

(** When another call is recorded while the call waits, it waits again:
    in the busy world it sets a second timer and is recorded at 60010 ms;
    and so it does, by itself, when its timer fires a millisecond early. *)
Example overlapping_call_waits_twice :
  waitForSlotAmong oneArrival (scripted []) rateLimiter 2 Runs.busyWorld = None
  /\ waitForSlotAmong oneArrival (scripted []) rateLimiter 3 Runs.busyWorld
     = Some {| tasks := Runs.twoTasks; requests := [20; 60000; 60010]%Z;
               now := 60010; generated := 3; timers := 2;
               events := [EvSlotTimer (Int 59970); EvSlotTimer (Int 10)] |}.
Proof. split; reflexivity. Qed.

Example early_timer_waits_twice :
  waitForSlot earlyTimer rateLimiter 2 Runs.busyWorld = None
  /\ waitForSlot earlyTimer rateLimiter 3 Runs.busyWorld
     = Some {| tasks := Runs.twoTasks; requests := [10; 20; 60000]%Z;
               now := 60000; generated := 3; timers := 2;
               events := [EvSlotTimer (Int 59970); EvSlotTimer (Int 1)] |}.
Proof. split; reflexivity. Qed.

Lemma busyWorld_limiterOK : limiterOK rateLimiter Runs.busyWorld.
Proof.
  split; [|split].
  - repeat constructor; discriminate.
  - repeat constructor; discriminate.
  - discriminate.
Defined.

(** The array after the call in the busy world. *)
Lemma X3_limiter_array_shape_witness : limiterOK rateLimiter Runs.busyWorldAfter.
Proof.
  exact (proj1 (proj1 (@X3_limiter_array_shape Reference.reference (scripted [])
                         (fun _ => Z.le_refl 0))
                  rateLimiter 2%nat Runs.busyWorld Runs.busyWorldAfter
                  busyWorld_limiterOK eq_refl)).
Defined.


(** A limiter that allows no request. *)
Lemma X5_no_quota_never_returns_witness :
  waitForSlot (scripted []) {| limit := 0; windowMs := 60000 |} 5
    (startWorld [])
  = None.
Proof.
  exact (X5_no_quota_never_returns (scripted [])
           {| limit := 0; windowMs := 60000 |} 5 (startWorld [])
           (Z.le_refl 0)).
Defined.

(** ** The errors of planTasks *)

Section ErrorFacts.
Context {R : Runtime}.

Local Abbreviation json := (JSON number).

(** The inner [try] throws INVALID_FORMAT errors of its own, and otherwise
    only what is not classified. *)
Lemma parseSchedule_Throw (response : string) (e : Thrown) :
  parseSchedule response = Throw e ->
  hasCode "INVALID_FORMAT" e \/ exists name message, e = OtherError name message.
Proof.
  unfold parseSchedule.
  destruct (JSON_parse (cleanResponse response)) as [parsed|];
    [|intros H; injection H as <-; right; eauto].
  destruct (Get parsed "schedule") as [schedule|e'] eqn:Hg; cbn [bindC].
  2:{ intros H. injection H as <-. destruct parsed; cbn in Hg; try discriminate.
      injection Hg as <-. right. eauto. }
  destruct (negb (ToBoolean schedule) || negb (isArray schedule)).
  { intros H. injection H as <-. left. eexists. reflexivity. }
  destruct schedule as [[| | | |items|]|];
    try (intros H; injection H as <-; right; eauto).
  destruct (mapC validateItem items) as [validated|e'] eqn:Hm; cbn [bindC];
    [discriminate|].
  intros H. injection H as <-. apply mapC_Throw in Hm.
  destruct Hm as (before & item & after & _ & He & _).
  apply validateItem_Throw in He. destruct He as [He|[message ->]]; eauto.
Qed.

(** X7: how a reply is classified before its entries are looked at.  An
    empty text is NO_RESPONSE; a text that does not parse, or parses to
    [null], is PARSE_ERROR; a parsed value without a [schedule] array is
    INVALID_FORMAT.  Every failure carries one of these three codes, and
    the raw text is written to the console exactly for PARSE_ERROR. *)
Theorem X7_reply_classification (response : string) :
  (response = EmptyString ->
   handleResult (Text response)
   = (Throw (GeminiError "No response received from Gemini"
               (Some "NO_RESPONSE") true), []))
  /\ (response <> EmptyString ->
      JSON_parse (cleanResponse response) = None
      \/ JSON_parse (cleanResponse response) = Some JNull ->
      handleResult (Text response)
      = (Throw (GeminiError "Failed to parse Gemini response"
                  (Some "PARSE_ERROR") true), [EvConsoleError response]))
  /\ (forall parsed,
        JSON_parse (cleanResponse response) = Some parsed ->
        parsed <> JNull ->
        (forall items, fieldOf parsed "schedule" <> Some (JArray items)) ->
        handleResult (Text response)
        = (Throw (GeminiError "Invalid response format: missing schedule array"
                    (Some "INVALID_FORMAT") true), []))
  /\ (forall e logged,
        handleResult (Text response) = (Throw e, logged) ->
        (hasCode "NO_RESPONSE" e \/ hasCode "INVALID_FORMAT" e
         \/ hasCode "PARSE_ERROR" e)
        /\ (hasCode "PARSE_ERROR" e -> logged = [EvConsoleError response])
        /\ (~ hasCode "PARSE_ERROR" e -> logged = [])).
Proof.
  split; [|split; [|split]].
  - intros ->. reflexivity.
  - intros Hne Hp. unfold handleResult.
    destruct response as [|c response]; [congruence|]. cbn [Str.isEmpty].
    unfold parseOrClassify, parseSchedule. destruct Hp as [-> | ->]; reflexivity.
  - intros parsed Hp Hnn Hno. unfold handleResult.
    destruct response as [|c response].
    { cbn in Hp. rewrite JSON_parse_empty in Hp. discriminate. }
    cbn [Str.isEmpty]. unfold parseOrClassify, parseSchedule. rewrite Hp.
    rewrite (Get_fieldOf parsed "schedule" Hnn). cbn [bindC].
    destruct (fieldOf parsed "schedule") as [[| | | |items|]|] eqn:Hs;
      cbn [ToBoolean isArray negb orb]; rewrite ?orb_true_r; try reflexivity.
    exfalso. exact (Hno items eq_refl).
  - intros e logged. unfold handleResult.
    destruct (Str.isEmpty response).
    { intros H. injection H as <- <-. split; [left; eexists; reflexivity|].
      split; [intros [message Hm]; discriminate|reflexivity]. }
    unfold parseOrClassify.
    destruct (parseSchedule response) as [out|e'] eqn:Hp; [discriminate|].
    apply parseSchedule_Throw in Hp.
    destruct Hp as [[message ->] | (name & message & ->)];
      intros H; injection H as <- <-.
    + split; [right; left; eexists; reflexivity|].
      split; [intros [message' Hm]; discriminate|reflexivity].
    + split; [right; right; eexists; reflexivity|].
      split; [reflexivity|]. intros Hn. exfalso. apply Hn. eexists. reflexivity.
Qed.

(** X6: [planTasks] rejects with classified errors only.  Without tasks
    it is NO_TASKS and nothing has happened; with tasks the error is that
    of the last attempt made, an unclassified one replaced by
    UNKNOWN_ERROR, and if it is retryable all four attempts were made. *)
Theorem X6_rejections_are_classified (env : Env) (fuel : nat) (w w' : World)
    (e : Thrown) :
  planTasks env fuel w = Some (Throw e, w') ->
  exists message code retryable,
    e = GeminiError message code retryable /\
    ((tasks w = [] /\ code = Some "NO_TASKS" /\ retryable = false /\ w' = w)
     \/ (tasks w <> [] /\
         exists (n : nat) (e0 : Thrown),
           (1 <= n <= 4)%nat /\
           generated w' = (generated w + n)%nat /\
           outcomeOf env (promptOf (taskListOf (tasks w)))
             (generated w + (n - 1)) = Throw e0 /\
           e = surface e0 /\
           (retryable = true -> n = 4%nat) /\
           (forall name text, e0 = OtherError name text ->
                              code = Some "UNKNOWN_ERROR" /\ n = 4%nat))).
Proof.
  intros Hrun. destruct (tasks w) as [|task rest] eqn:E.
  - rewrite (planTasks_empty env fuel w E) in Hrun. injection Hrun as <- <-.
    do 3 eexists. split; [reflexivity|]. left. auto.
  - assert (Hne : tasks w <> []) by congruence.
    pose proof (planTasks_run env fuel w w' (Throw e) Hne Hrun) as H.
    cbv zeta in H. rewrite E in H.
    destruct H as (_ & n & new & Hn & Hg & _ & _ & _ & Hlast).
    destruct (outcomeOf env _ (generated w + (n - 1))) as [out|e0] eqn:Hout;
      [discriminate|].
    destruct Hlast as [Hc Hterm]. injection Hc as ->.
    destruct e0 as [message code retryable|name text].
    + exists message, code, retryable. split; [reflexivity|]. right.
      split; [congruence|]. exists n, (GeminiError message code retryable).
      repeat split; try assumption; try lia.
      * intros ->. destruct Hterm as [Hno|Hfour]; [discriminate|exact Hfour].
      * discriminate.
      * discriminate.
    + do 3 eexists. split; [reflexivity|]. right. split; [congruence|].
      exists n, (OtherError name text).
      assert (n = 4%nat) by (destruct Hterm as [Hno|Hfour]; [discriminate|exact Hfour]).
      repeat split; try assumption; try lia.
Qed.

End ErrorFacts.

(** A reply that is the JSON text [null]. *)
Lemma X7_reply_classification_witness :
  @handleResult Reference.reference (Text "null")
  = (Throw (GeminiError "Failed to parse Gemini response"
              (Some "PARSE_ERROR") true), [EvConsoleError "null"]).
Proof.
  exact (proj1 (proj2 (@X7_reply_classification Reference.reference "null"))
           ltac:(discriminate) (or_intror eq_refl)).
Defined.

(** The run refused at the first attempt. *)
Lemma X6_rejections_are_classified_witness :
  exists message code retryable,
    GeminiError "quota exhausted" (Some "QUOTA") false
    = GeminiError message code retryable.
Proof.
  destruct (@X6_rejections_are_classified Reference.reference Runs.refused 8
              (startWorld Runs.twoTasks)
              {| tasks := Runs.twoTasks; requests := [0%Z]; now := 200;
                 generated := 1; timers := 0;
                 events := [EvGenerate Runs.promptOfTwo] |}
              (GeminiError "quota exhausted" (Some "QUOTA") false) eq_refl)
    as (message & code & retryable & He & _).
  exists message, code, retryable. exact He.
Defined.

(** ** Code fences *)

Section FenceFacts.

Lemma append_nil_r (s : string) : (s ++ EmptyString)%string = s.
Proof. induction s as [|c s IH]; cbn; [reflexivity|]. rewrite IH. reflexivity. Qed.

Lemma prefix_mismatch (p c : ascii) (pat s : string) :
  Ascii.eqb c p = false -> prefix (String p pat) (String c s) = false.
Proof.
  intros H. cbn [prefix]. destruct (ascii_dec p c) as [->|_]; [|reflexivity].
  rewrite Ascii.eqb_refl in H. discriminate.
Qed.

(** Removing a pattern leaves alone a stretch that lacks the pattern's
    first character. *)
Lemma removeAll_lacks (p : ascii) (pat a b : string) :
  Str.lacks p a = true ->
  Str.removeAll (String p pat) (a ++ b)
  = (a ++ Str.removeAll (String p pat) b)%string.
Proof.
  unfold Str.removeAll. induction a as [|c a IH]; cbn [append Str.lacks];
    [reflexivity|].
  intros H. apply andb_true_iff in H. destruct H as [Hc Ha].
  apply negb_true_iff in Hc. cbn [Str.removeAll_from].
  rewrite (prefix_mismatch p c pat (a ++ b) Hc). cbn [andb].
  rewrite (IH Ha). reflexivity.
Qed.

Lemma rev_acc_append (s t acc : string) :
  Str.rev_acc (s ++ t) acc = Str.rev_acc t (Str.rev_acc s acc).
Proof.
  revert acc. induction s as [|c s IH]; intros acc; cbn [append Str.rev_acc];
    [reflexivity|apply IH].
Qed.

Lemma rev_snoc (s : string) (c : ascii) :
  Str.rev (s ++ String c EmptyString) = String c (Str.rev s).
Proof. unfold Str.rev. rewrite rev_acc_append. reflexivity. Qed.

Lemma trimStart_snoc (s : string) (c : ascii) :
  Str.isSpace c = true ->
  Str.trimStart (s ++ String c EmptyString)
  = match Str.trimStart s with
    | EmptyString => EmptyString
    | String x rest => (String x rest ++ String c EmptyString)%string
    end.
Proof.
  intros Hc. induction s as [|x s IH]; cbn [append Str.trimStart].
  - rewrite Hc. reflexivity.
  - destruct (Str.isSpace x); [exact IH|reflexivity].
Qed.

(** White space at either end does not show after [trim]. *)
Lemma trim_space_l (c : ascii) (s : string) :
  Str.isSpace c = true -> Str.trim (String c s) = Str.trim s.
Proof. intros Hc. unfold Str.trim. cbn [Str.trimStart]. rewrite Hc. reflexivity. Qed.

Lemma trim_space_r (c : ascii) (s : string) :
  Str.isSpace c = true -> Str.trim (s ++ String c EmptyString) = Str.trim s.
Proof.
  intros Hc. unfold Str.trim. rewrite (trimStart_snoc s c Hc).
  destruct (Str.trimStart s) as [|x rest]; [reflexivity|].
  rewrite rev_snoc. cbn [Str.trimStart]. rewrite Hc. reflexivity.
Qed.

Lemma cleanResponse_fenced (opener text : string) :
  opener = "```json" \/ opener = "```" ->
  Str.lacks "`" text = true ->
  cleanResponse (fencedBy opener text) = Str.trim text.
Proof.
  intros Hopen Hlacks. unfold cleanResponse, fencedBy.
  assert (Hbody : Str.lacks "`" (text ++ nl) = true).
  { rewrite lacks_append, Hlacks. reflexivity. }
  assert (Hstep1 :
    Str.removeAll "```json" (opener ++ nl ++ text ++ nl ++ "```")
    = (match opener with
       | String _ (String _ (String _ EmptyString)) => "```"
       | _ => EmptyString
       end ++ nl ++ (text ++ nl) ++ "```")%string).
  { destruct Hopen as [-> | ->].
    - change (("```json" ++ nl ++ text ++ nl ++ "```")%string)
        with (("```json" ++ String LF (text ++ nl ++ "```"))%string).
      transitivity (Str.removeAll "```json" (String LF (text ++ nl ++ "```")));
        [reflexivity|].
      rewrite <- append_assoc.
      change (String LF ((text ++ nl) ++ "```"))
        with ((String LF (text ++ nl)) ++ "```")%string.
      rewrite (removeAll_lacks "`" "``json" (String LF (text ++ nl)) "```")
        by (cbn [Str.lacks]; rewrite Hbody; reflexivity).
      reflexivity.
    - change (("```" ++ nl ++ text ++ nl ++ "```")%string)
        with (("```" ++ String LF (text ++ nl ++ "```"))%string).
      transitivity ("```" ++ Str.removeAll "```json" (String LF (text ++ nl ++ "```")))%string;
        [reflexivity|].
      rewrite <- append_assoc.
      change (String LF ((text ++ nl) ++ "```"))
        with ((String LF (text ++ nl)) ++ "```")%string.
      rewrite (removeAll_lacks "`" "``json" (String LF (text ++ nl)) "```")
        by (cbn [Str.lacks]; rewrite Hbody; reflexivity).
      reflexivity. }
  rewrite Hstep1.
  assert (Hstep2 : forall head,
            head = "```" \/ head = EmptyString ->
            Str.removeAll "```" (head ++ nl ++ (text ++ nl) ++ "```")
            = String LF (text ++ nl)).
  { intros head [-> | ->].
    - transitivity (Str.removeAll "```" (String LF (text ++ nl) ++ "```"));
        [reflexivity|].
      rewrite (removeAll_lacks "`" "``" (String LF (text ++ nl)) "```")
        by (cbn [Str.lacks]; rewrite Hbody; reflexivity).
      change (Str.removeAll "```" "```") with EmptyString.
      apply append_nil_r.
    - change ((EmptyString ++ nl ++ (text ++ nl) ++ "```")%string)
        with ((String LF (text ++ nl) ++ "```")%string).
      rewrite (removeAll_lacks "`" "``" (String LF (text ++ nl)) "```")
        by (cbn [Str.lacks]; rewrite Hbody; reflexivity).
      change (Str.removeAll "```" "```") with EmptyString.
      apply append_nil_r. }
  rewrite Hstep2 by (destruct Hopen as [-> | ->]; auto).
  rewrite trim_space_l by reflexivity.
  apply trim_space_r. reflexivity.
Qed.

Lemma cleanResponse_plain (text : string) :
  Str.lacks "`" text = true -> cleanResponse text = Str.trim text.
Proof.
  intros H. unfold cleanResponse.
  rewrite <- (append_nil_r text) at 1.
  rewrite (removeAll_lacks "`" "``json" text EmptyString H).
  change (Str.removeAll "```json" EmptyString) with EmptyString.
  rewrite (removeAll_lacks "`" "``" text EmptyString H).
  change (Str.removeAll "```" EmptyString) with EmptyString.
  rewrite append_nil_r. reflexivity.
Qed.

End FenceFacts.

Section FenceClaim.
Context {R : Runtime}.

(** X8: a reply inside a Markdown code fence ([```json] or [```] on a line
    of its own before the text, [```] on one after it) is read as the text
    alone: when the text holds no backquote and is not empty, the service
    cleans both to the trimmed text and gives both the same completion. *)
Theorem X8_code_fence_is_transparent (opener text : string) :
  opener = "```json" \/ opener = "```" ->
  Str.lacks "`" text = true ->
  text <> EmptyString ->
  cleanResponse (fencedBy opener text) = Str.trim text
  /\ cleanResponse text = Str.trim text
  /\ fst (handleResult (Text (fencedBy opener text)))
     = fst (handleResult (Text text)).
Proof.
  intros Hopen Hlacks Hne.
  pose proof (cleanResponse_fenced opener text Hopen Hlacks) as Hf.
  pose proof (cleanResponse_plain text Hlacks) as Hp.
  split; [exact Hf|]. split; [exact Hp|].
  unfold handleResult.
  replace (Str.isEmpty (fencedBy opener text)) with false
    by (destruct Hopen as [-> | ->]; reflexivity).
  replace (Str.isEmpty text) with false
    by (destruct text; [exfalso; apply Hne; reflexivity|reflexivity]).
  unfold parseOrClassify, parseSchedule. rewrite Hf, Hp.
  destruct (JSON_parse (Str.trim text)) as [parsed|]; [|reflexivity].
  destruct (bindC _ _) as [out|[]]; reflexivity.
Qed.

End FenceClaim.

(** The reply of the round trip in its fence. *)
Lemma X8_code_fence_is_transparent_witness :
  cleanResponse
    (fencedBy "```json" (Examples.scheduleText [Examples.entryText "A" "09:00" "r"]))
  = Str.trim (Examples.scheduleText [Examples.entryText "A" "09:00" "r"]).
Proof.
  exact (proj1 (@X8_code_fence_is_transparent Reference.reference "```json"
                  (Examples.scheduleText [Examples.entryText "A" "09:00" "r"])
                  (or_introl eq_refl) eq_refl ltac:(discriminate))).
Defined.

(** ** The times the caller sees *)

Section DisplayFacts.

Lemma onClock_sound (P : nat -> nat -> bool) :
  Display.onClock P = true ->
  forall h m, (h < 24)%nat -> (m < 60)%nat -> P h m = true.
Proof.
  intros H h m Hh Hm. unfold Display.onClock in H.
  rewrite forallb_forall in H. apply (H (h, m)).
  apply in_prod; apply in_seq; lia.
Qed.

(** Every time of the clock reads back from its 12-hour text. *)
Lemma display_readsBack :
  Display.onClock (fun h m =>
                     match Display.clockOf (Spec.time12 h m) with
                     | Some (h', m') => (h' =? h)%nat && (m' =? m)%nat
                     | None => false
                     end) = true.
Proof. vm_compute. reflexivity. Qed.

Lemma display_clockOf (h m : nat) :
  (h < 24)%nat -> (m < 60)%nat ->
  Display.clockOf (Spec.time12 h m) = Some (h, m).
Proof.
  intros Hh Hm. pose proof (onClock_sound _ display_readsBack h m Hh Hm) as H.
  cbv beta in H.
  destruct (Display.clockOf (Spec.time12 h m)) as [[h' m']|]; [|discriminate].
  apply andb_true_iff in H. destruct H as [H1 H2].
  apply Nat.eqb_eq in H1, H2. congruence.
Qed.

(** What [convertTo12Hour] returns on a validated time reads back as the
    minutes since midnight of that time. *)
Lemma display_minutes (s t : string) :
  regex_test timeRegex s = true ->
  convertTo12Hour s = Normal t ->
  Display.minutes t = Spec.minutesSinceMidnight s.
Proof.
  intros Hre Hc. apply timeRegex_isTime24 in Hre.
  destruct Hre as (h & m & Hh & Hm & Hs).
  rewrite (convertTo12Hour_text h m s Hh Hm Hs) in Hc. injection Hc as <-.
  unfold Display.minutes, Spec.minutesSinceMidnight.
  rewrite (display_clockOf h m Hh Hm), (clockOf_text h m s Hh Hm Hs).
  reflexivity.
Qed.

(** X10: the 12-hour form loses nothing.  Two validated times get the
    same 12-hour text exactly when they are the same time of day (HH:MM and
    H:MM being two spellings of one time); in particular noon and midnight,
    or 1:05 in the night and in the afternoon, never coincide. *)
Theorem X10_display_is_unambiguous (s s' : string) :
  regex_test timeRegex s = true ->
  regex_test timeRegex s' = true ->
  (convertTo12Hour s = convertTo12Hour s'
   <-> Spec.minutesSinceMidnight s = Spec.minutesSinceMidnight s').
Proof.
  intros Hs Hs'.
  pose proof (timeRegex_isTime24 s Hs) as (h & m & Hh & Hm & Ht).
  pose proof (timeRegex_isTime24 s' Hs') as (h' & m' & Hh' & Hm' & Ht').
  pose proof (convertTo12Hour_text h m s Hh Hm Ht) as Hc.
  pose proof (convertTo12Hour_text h' m' s' Hh' Hm' Ht') as Hc'.
  split.
  - intros Heq.
    rewrite <- (display_minutes s _ Hs Hc), <- (display_minutes s' _ Hs' Hc').
    rewrite Hc, Hc' in Heq. injection Heq as ->. reflexivity.
  - unfold Spec.minutesSinceMidnight.
    rewrite (clockOf_text h m s Hh Hm Ht), (clockOf_text h' m' s' Hh' Hm' Ht').
    intros Heq. rewrite Hc, Hc'.
    assert (h = h' /\ m = m') as [-> ->] by lia. reflexivity.
Qed.

Lemma sorted_map {A B : Type} (f : A -> B) (leA : A -> A -> Prop)
    (leB : B -> B -> Prop) (l : list A) :
  (forall a b, In a l -> In b l -> leA a b -> leB (f a) (f b)) ->
  StronglySorted leA l -> StronglySorted leB (map f l).
Proof.
  intros Hf Hs. induction Hs as [|x l Hs IH Hle]; cbn [map]; [constructor|].
  constructor.
  - apply IH. intros a b Ha Hb. apply Hf; right; assumption.
  - apply Forall_forall. intros y Hy. apply in_map_iff in Hy.
    destruct Hy as (a & <- & Ha). rewrite Forall_forall in Hle.
    apply Hf; [left; reflexivity|right; exact Ha|apply Hle; exact Ha].
Qed.

End DisplayFacts.

Section DisplayClaims.
Context {R : Runtime}.

Local Abbreviation json := (JSON number).

(** X12: the list the caller receives is in the order of the times it
    shows: every entry's time is the 12-hour text of a time of the clock,
    and read as such the times never decrease along the list. *)
Theorem X12_output_is_chronological (response : string)
    (out : list ScheduledTask) (logged : list Event) :
  handleResult (Text response) = (Normal out, logged) ->
  Forall (fun entry => exists h m, (h < 24)%nat /\ (m < 60)%nat /\
                                   time entry = Spec.time12 h m) out
  /\ StronglySorted (fun a b => (Display.minutes (time a)
                                 <= Display.minutes (time b))%Z) out.
Proof.
  intros H. apply handleResult_Normal in H.
  destruct H as (fields & items & validated & _ & _ & Hm & -> & _).
  rewrite (sort_validated items validated Hm).
  assert (Hv : forall v, In v (sort (byKey sortKey) validated) ->
                         regex_test timeRegex (sortTime v) = true /\
                         convertTo12Hour (sortTime v) = Normal (v_time v)).
  { intros v Hin.
    apply (Permutation_in v (Permutation_sym (sort_perm (byKey sortKey) validated)))
      in Hin.
    apply mapC_Normal in Hm. clear - Hm Hin.
    induction Hm as [|item v' items validated Hv _ IH]; [contradiction|].
    destruct Hin as [<-|Hin]; [|exact (IH Hin)].
    apply validateItem_Normal in Hv. tauto. }
  split.
  - apply Forall_forall. intros entry Hin. apply in_map_iff in Hin.
    destruct Hin as (v & <- & Hin). destruct (Hv v Hin) as [Hre Hc].
    apply timeRegex_isTime24 in Hre. destruct Hre as (h & m & Hh & Hmin & Hs).
    rewrite (convertTo12Hour_text h m _ Hh Hmin Hs) in Hc. injection Hc as Hc.
    exists h, m. cbn [removeSortTime time]. auto.
  - apply (sorted_map removeSortTime (keyLe sortKey)); [|apply sort_sorted].
    intros a b Ha Hb Hle. cbn [removeSortTime time].
    destruct (Hv a Ha) as [Hra Hca]. destruct (Hv b Hb) as [Hrb Hcb].
    rewrite (display_minutes _ _ Hra Hca), (display_minutes _ _ Hrb Hcb).
    exact Hle.
Qed.


End DisplayClaims.

(** Two spellings of five past nine. *)
Lemma X10_display_is_unambiguous_witness :
  convertTo12Hour "09:05" = convertTo12Hour "9:05".
Proof.
  exact (proj2 (X10_display_is_unambiguous "09:05" "9:05" eq_refl eq_refl)
           eq_refl).
Defined.

(** The reply with its entries out of order. *)
Lemma X12_output_is_chronological_witness :
  StronglySorted (fun a b : @ScheduledTask Reference.reference =>
                    (Display.minutes (time a) <= Display.minutes (time b))%Z)
    [ {| task := JString "run"; time := "6:00 AM"; reason := JString "early" |};
      {| task := JString "mail"; time := "9:15 AM"; reason := JString "first" |};
      {| task := JString "call"; time := "9:15 AM"; reason := JString "second" |};
      {| task := JString "lunch"; time := "2:30 PM";
         reason := JString "after the morning" |} ].
Proof.
  exact (proj2 (@X12_output_is_chronological Reference.reference
                  Examples.replyUnsorted _ [] eq_refl)).
Defined.


(** ** What the prompt tells the model about the tasks *)

Section PromptText.

Lemma template_lacks_LF :
  Forall (fun line => Str.lacks LF line = true)
         (promptLinesBefore ++ promptLinesAfter).
Proof. repeat constructor. Qed.

Lemma promptOf_split (task : Task) (rest : list Task) :
  Forall (fun t => Str.lacks LF (description t) = true) (task :: rest) ->
  Str.split LF (promptOf (taskListOf (task :: rest)))
  = (promptLinesBefore
     ++ (("  " ++ description task)%string :: map description rest)
     ++ promptLinesAfter)%list.
Proof.
  intros Hall. rewrite promptOf_lines. apply split_join.
  - discriminate.
  - pose proof template_lacks_LF as Ht. apply Forall_app in Ht.
    destruct Ht as [Hb Ha]. inversion Hall as [|? ? Htask Hrest]; subst.
    apply Forall_app. split; [exact Hb|]. apply Forall_app. split; [|exact Ha].
    constructor; [exact Htask|].
    apply Forall_forall. intros line Hin. apply in_map_iff in Hin.
    destruct Hin as (t & <- & Hin). rewrite Forall_forall in Hrest.
    exact (Hrest t Hin).
Qed.

(** X13: the prompt holds the task list and nothing is lost of it, as long
    as no description holds a line feed: two lists of tasks, neither of them
    empty, that give the same prompt have the same descriptions in the same
    order.  A line feed inside a description is what the prompt cannot
    show: one task described on two lines gives the prompt of two tasks. *)
Theorem X13_prompt_determines_tasks (tasks tasks' : list Task) :
  tasks <> [] -> tasks' <> [] ->
  Forall (fun t => Str.lacks LF (description t) = true) (tasks ++ tasks') ->
  (promptOf (taskListOf tasks) = promptOf (taskListOf tasks')
   -> map description tasks = map description tasks')
  /\ (forall first second : string,
        promptOf (taskListOf ({| description := first ++ nl ++ second |} :: tasks))
        = promptOf (taskListOf ({| description := first |}
                                :: {| description := second |} :: tasks))).
Proof.
  intros Hne Hne' Hall. apply Forall_app in Hall. destruct Hall as [Hl Hl'].
  split.
  - destruct tasks as [|task rest]; [congruence|].
    destruct tasks' as [|task' rest']; [congruence|].
    intros Heq. apply (f_equal (Str.split LF)) in Heq.
    rewrite (promptOf_split task rest Hl), (promptOf_split task' rest' Hl') in Heq.
    apply app_inv_head in Heq. apply app_inv_tail in Heq.
    injection Heq as Hd Hrest. cbn [map]. rewrite Hd, Hrest. reflexivity.
  - intros first second. f_equal. unfold taskListOf. cbn [map description].
    destruct tasks as [|task rest]; [congruence|]. cbn [map Str.join].
    rewrite !append_assoc. reflexivity.
Qed.

End PromptText.

(** Two tasks and one of them alone give different prompts. *)
Lemma X13_prompt_determines_tasks_witness :
  promptOf (taskListOf Runs.twoTasks)
  <> promptOf (taskListOf [ {| description := "call Ana" |} ]).
Proof.
  intros Heq.
  pose proof (proj1 (X13_prompt_determines_tasks Runs.twoTasks
                       [ {| description := "call Ana" |} ]
                       ltac:(discriminate) ltac:(discriminate)
                       ltac:(repeat constructor))
                Heq) as Hmap.
  discriminate Hmap.
Defined.

(** ** How many timers a call sets *)

Section TimerCount.
Context {R : Runtime}.
Variable env : Env.
Hypothesis lag_nonneg : forall k, (0 <= lag env k)%Z.

Lemma limiterOK_later (rl : RateLimiter) (w w' : World) :
  limiterOK rl w -> requests w' = requests w -> (now w <= now w')%Z ->
  limiterOK rl w'.
Proof.
  intros (Hs & Hp & Hl) Hreq Hnow. unfold limiterOK. rewrite Hreq.
  split; [exact Hs|]. split; [|exact Hl].
  eapply Forall_impl; [|exact Hp]. cbv beta. intros; lia.
Qed.

(** With the array in shape one timer is enough: when it has run, the
    oldest request has left the window. *)
Lemma waitForSlot_once (rl : RateLimiter) (w : World) :
  limiterOK rl w -> (0 < limit rl)%Z ->
  exists w',
    waitForSlot env rl 2 w = Some w' /\
    (timers w' <= S (timers w))%nat /\
    (timers w' = timers w <->
     atCapacity rl (evict rl (now w) (requests w)) = false).
Proof.
  intros (Hsorted & Hpast & Hlen) Hlim.
  cbn [waitForSlot]. cbn [requests setRequests now].
  destruct (atCapacity rl (evict rl (now w) (requests w))) eqn:Hcap.
  2:{ eexists. split; [reflexivity|]. cbn [timers setRequests].
      split; [lia|]. split; reflexivity. }
  unfold atCapacity in Hcap. apply Z.leb_le in Hcap.
  pose proof (evict_length rl (now w) (requests w)) as Hev.
  destruct (evict rl (now w) (requests w)) as [|oldest rest] eqn:El;
    [cbn [length] in Hcap; lia|].
  set (waitTime := waitTimeOf rl (now w) (oldest :: rest)).
  set (w1 := awaitTimer env waitTime
               (emit (EvSlotTimer waitTime) (setRequests (oldest :: rest) w))).
  assert (Hnow1 : (oldest + windowMs rl <= now w1)%Z).
  { subst w1 waitTime.
    cbn [now timers awaitTimer emit setRequests waitTimeOf Num.sub].
    pose proof (timerDelay_ge (windowMs rl - (now w - oldest))).
    pose proof (lag_nonneg (timers w)). lia. }
  assert (Hreq1 : requests w1 = oldest :: rest) by reflexivity.
  rewrite Hreq1.
  assert (Hev1 : evict rl (now w1) (oldest :: rest) = evict rl (now w1) rest).
  { unfold evict. cbn [filter].
    replace (now w1 - oldest <? windowMs rl)%Z with false
      by (symmetry; apply Z.ltb_ge; lia).
    reflexivity. }
  rewrite Hev1.
  replace (atCapacity rl (evict rl (now w1) rest)) with false.
  2:{ symmetry. unfold atCapacity. apply Z.leb_gt.
      pose proof (evict_length rl (now w1) rest).
      cbn [length] in Hev. lia. }
  eexists. split; [reflexivity|].
  cbn [timers setRequests]. subst w1. cbn [timers awaitTimer emit setRequests].
  split; [lia|]. split; [lia|discriminate].
Qed.

Lemma waitForSlot_timers (rl : RateLimiter) (fuel : nat) (w w' : World) :
  limiterOK rl w -> (0 < limit rl)%Z ->
  waitForSlot env rl fuel w = Some w' ->
  (timers w' <= S (timers w))%nat.
Proof.
  intros Hok Hlim Hcall.
  destruct (waitForSlot_once rl w Hok Hlim) as (w2 & Hcall2 & Ht & _).
  apply (waitForSlot_more_fuel env rl fuel (fuel + 2)) in Hcall; [|lia].
  apply (waitForSlot_more_fuel env rl 2 (fuel + 2)) in Hcall2; [|lia].
  congruence.
Qed.

Hypothesis duration_nonneg :
  forall i prompt, (0 <= duration (generateContent env i prompt))%Z.

Lemma attemptOnce_timers (fuel : nat) (prompt : string) (w w1 : World)
    (c : Completion (list ScheduledTask)) :
  limiterOK rateLimiter w ->
  attemptOnce env fuel prompt w = Some (c, w1) ->
  limiterOK rateLimiter w1 /\ (timers w1 <= S (timers w))%nat /\
  generated w1 = S (generated w).
Proof.
  intros Hok. unfold attemptOnce.
  destruct (waitForSlot env rateLimiter fuel w) as [wa|] eqn:Hw; [|discriminate].
  pose proof (waitForSlot_timers rateLimiter fuel w wa Hok eq_refl Hw) as Ht.
  pose proof (waitForSlot_limiterOK env rateLimiter lag_nonneg fuel w wa Hok Hw)
    as Hoka.
  apply waitForSlot_returns in Hw. destruct Hw as (_ & Hg & _).
  unfold awaitGenerate. destruct (handleResult _) as [completion logged].
  intros H. injection H as _ <-.
  match goal with
  | |- context [fold_left ?f logged ?wg] =>
      destruct (emit_all logged wg) as (_ & E2 & E3 & E4 & E5 & _)
  end.
  cbn [requests now generated timers] in E2, E3, E4, E5.
  split; [|split].
  - apply (limiterOK_later rateLimiter wa); [exact Hoka|exact E2|].
    rewrite E3. pose proof (duration_nonneg (generated wa) prompt). lia.
  - rewrite E5. exact Ht.
  - rewrite E4, Hg. reflexivity.
Qed.

Lemma attemptLoop_timers (prompt : string) (fuel : nat) :
  forall (attempt : Z) (lastError : option Thrown) (w w' : World)
         (c : Completion (list ScheduledTask)),
  (attempt <= maxRetries)%Z ->
  limiterOK rateLimiter w ->
  attemptLoop env fuel attempt lastError prompt w = Some (c, w') ->
  exists n : nat,
    (1 <= n)%nat /\ generated w' = (generated w + n)%nat /\
    (timers w' + 1 <= timers w + 2 * n)%nat.
Proof.
  induction fuel as [|fuel IH]; intros attempt lastError w w' c Hatt Hok;
    cbn [attemptLoop];
    (replace (attempt <=? maxRetries)%Z with true
       by (symmetry; apply Z.leb_le; exact Hatt));
    [discriminate|].
  destruct (attemptOnce env (S fuel) prompt w) as [[c1 w1]|] eqn:Hone;
    [|discriminate].
  destruct (attemptOnce_timers (S fuel) prompt w w1 c1 Hok Hone)
    as (Hok1 & Ht1 & Hg1).
  assert (done : forall c0, Some (c0, w1) = Some (c, w') ->
            exists n : nat,
              (1 <= n)%nat /\ generated w' = (generated w + n)%nat /\
              (timers w' + 1 <= timers w + 2 * n)%nat).
  { intros c0 H. injection H as _ <-. exists 1%nat. lia. }
  destruct c1 as [schedule|error]; [apply done|].
  destruct (negb (isRetryableError error) || (attempt =? maxRetries)%Z) eqn:Estop;
    [apply done|].
  clear done. intros Hrec.
  apply orb_false_iff in Estop. destruct Estop as [_ Hlast].
  apply Z.eqb_neq in Hlast.
  apply IH in Hrec; [|lia|].
  - destruct Hrec as (n & Hn & Hg & Ht).
    cbn [generated timers awaitTimer emit] in Hg, Ht.
    exists (S n). lia.
  - apply (limiterOK_later rateLimiter w1); [exact Hok1|reflexivity|].
    cbn [now timers awaitTimer emit timerDelay].
    pose proof (lag_nonneg (timers w1)). lia.
Qed.

(** X9: a call that nobody disturbs waits at most once.  With the
    limiter's array in shape and timers that do not fire early, a call of
    [waitForSlot] that no other call disturbs during its timer returns
    after at most one timer, and with none exactly when it is under
    capacity.  So a call of [planTasks] that no other call disturbs, with
    requests that take no negative time, settles, having set fewer than two
    timers for each request it sent: at most seven, a wait for a slot
    before each of four requests and the three backoffs. *)
Theorem X9_waits_at_most_once (o : Others) (w : World) :
  limiterOK rateLimiter w ->
  ((forall l, duringTimer o (timers w) l = l) ->
   exists w1,
     (forall fuel, (2 <= fuel)%nat ->
                   waitForSlotAmong o env rateLimiter fuel w = Some w1) /\
     (timers w1 <= S (timers w))%nat /\
     (timers w1 = timers w <->
      atCapacity rateLimiter (evict rateLimiter (now w) (requests w)) = false))
  /\ (undisturbed o ->
      tasks w <> [] ->
      exists c w' (n : nat),
        (forall fuel, (enoughFuel w <= fuel)%nat ->
                      planTasksAmong o env fuel w = Some (c, w')) /\
        (1 <= n <= 4)%nat /\
        generated w' = (generated w + n)%nat /\
        (timers w' + 1 <= timers w + 2 * n)%nat).
Proof.
  intros Hok. split.
  - intros Hquiet.
    destruct (waitForSlot_once rateLimiter w Hok eq_refl) as (w1 & Hcall & Ht & Hiff).
    exists w1. split; [|split; assumption].
    intros fuel Hfuel.
    apply (waitForSlotAmong_more_fuel o env rateLimiter 2); [|exact Hfuel].
    rewrite (waitForSlotAmong_once o env rateLimiter w Hquiet). exact Hcall.
  - intros Halone Hne.
    destruct (planTasks_total env lag_nonneg w) as (c & w' & Hall).
    pose proof (Hall (enoughFuel w) (le_n _)) as Hrun.
    destruct (planTasks_run env _ w w' c Hne Hrun) as (_ & n & _ & Hn & Hg & _).
    rewrite planTasks_nonempty in Hrun by exact Hne.
    apply attemptLoop_timers in Hrun; [|unfold maxRetries; lia|exact Hok].
    destruct Hrun as (n' & _ & Hg' & Ht).
    exists c, w', n. split; [|split; [exact Hn|]].
    + intros fuel Hfuel. rewrite (planTasksAmong_alone o env Halone).
      exact (Hall fuel Hfuel).
    + split; [exact Hg|]. assert (n' = n) by lia. subst n'. exact Ht.
Qed.

End TimerCount.


Lemma startWorld_limiterOK (tasks : list Task) :
  limiterOK rateLimiter (startWorld tasks).
Proof.
  split; [constructor|]. split; [constructor|]. discriminate.
Qed.

(** The run of four attempts, undisturbed, sets four timers: three
    backoffs and one wait for a slot. *)
Lemma X9_waits_at_most_once_witness :
  exists c w' (n : nat),
    @planTasksAmong Reference.reference nobody Runs.fourthTime 8
      (startWorld Runs.twoTasks)
    = Some (c, w')
    /\ (timers w' + 1 <= 0 + 2 * n)%nat /\ (n <= 4)%nat.
Proof.
  pose proof (@X9_waits_at_most_once Reference.reference Runs.fourthTime
                (fun _ => Z.le_refl 0) (fun _ _ => ltac:(discriminate))
                nobody (startWorld Runs.twoTasks)
                (startWorld_limiterOK Runs.twoTasks)) as [_ H].
  specialize (H (fun _ _ => conj eq_refl eq_refl) ltac:(discriminate)).
  destruct H as (c & w' & n & Hall & Hn & _ & Ht).
  exists c, w', n. split; [exact (Hall 8%nat (le_n 8))|].
  split; [exact Ht|exact (proj2 Hn)].
Defined.

(** ** The handlers of the component *)

Section ArrayFacts.
Context {A : Type}.

Lemma value_value (x : JsArray.slot A) :
  JsArray.value (JsArray.value x) = JsArray.value x.
Proof. destruct x; reflexivity. Qed.

Lemma spread_length (l : JsArray.t A) :
  length (JsArray.spread l) = length l.
Proof. apply length_map. Qed.

Lemma spread_dense (l : JsArray.t A) :
  Forall (fun x => x <> JsArray.Hole) l ->
  JsArray.spread l = l.
Proof.
  induction 1 as [|x l Hx _ IH]; [reflexivity|].
  change (JsArray.spread (x :: l)) with (JsArray.value x :: JsArray.spread l).
  rewrite IH. destruct x; [contradiction Hx; reflexivity|reflexivity|reflexivity].
Qed.

Lemma spread_no_hole (l : JsArray.t A) :
  Forall (fun x => x <> JsArray.Hole) (JsArray.spread l).
Proof.
  apply Forall_forall. intros x Hx. apply in_map_iff in Hx.
  destruct Hx as ([| |a] & <- & _); discriminate.
Qed.

(** An array is its part before an index, the element there, and the part
    behind it. *)
Lemma split_at (i : nat) (l : JsArray.t A) (x : JsArray.slot A) :
  nth_error l i = Some x ->
  l = (firstn i l ++ x :: skipn (S i) l)%list.
Proof.
  revert l. induction i as [|i IH]; intros [|y l]; cbn; try discriminate.
  - intros H. injection H as ->. reflexivity.
  - intros H. f_equal. apply IH. exact H.
Qed.

Lemma in_firstn (i : nat) (l : JsArray.t A) (x : JsArray.slot A) :
  In x (firstn i l) -> In x l.
Proof.
  intros H. rewrite <- (firstn_skipn i l). apply in_or_app. left. exact H.
Qed.

Lemma in_skipn (i : nat) (l : JsArray.t A) (x : JsArray.slot A) :
  In x (skipn i l) -> In x l.
Proof.
  intros H. rewrite <- (firstn_skipn i l). apply in_or_app. right. exact H.
Qed.

Lemma in_without (i : nat) (l : JsArray.t A) (x : JsArray.slot A) :
  In x (JsArray.without i l) -> In x l.
Proof.
  unfold JsArray.without. intros H. apply in_app_or in H.
  destruct H as [H|H]; [exact (in_firstn _ _ _ H)|exact (in_skipn _ _ _ H)].
Qed.

Lemma without_length (i : nat) (l : JsArray.t A) :
  (i < length l)%nat -> S (length (JsArray.without i l)) = length l.
Proof.
  intros Hi. unfold JsArray.without.
  rewrite length_app, length_firstn, length_skipn. lia.
Qed.

(** Taking one element out with [splice]. *)
Lemma splice_out (l : JsArray.t A) (i : nat) (x : JsArray.slot A) :
  nth_error l i = Some x ->
  JsArray.splice l (Z.of_nat i) 1 [] = ([x], JsArray.without i l).
Proof.
  intros Hx.
  assert (Hi : (i < length l)%nat) by (apply nth_error_Some; congruence).
  unfold JsArray.splice, JsArray.spliceStart.
  replace (Z.of_nat i <? 0)%Z with false by (symmetry; apply Z.ltb_ge; lia).
  rewrite Nat2Z.id. replace (Nat.min i (length l)) with i by lia.
  replace (Nat.min 1 (length l - i)) with 1%nat by lia.
  unfold JsArray.without. cbn [app]. f_equal.
  - rewrite (split_at i l x Hx) at 1.
    rewrite skipn_app, skipn_all2 by (rewrite length_firstn; lia).
    rewrite length_firstn. replace (i - Nat.min i (length l))%nat with 0%nat by lia.
    reflexivity.
  - replace (i + 1)%nat with (S i) by lia. reflexivity.
Qed.

(** Putting one element in with [splice]. *)
Lemma splice_in (l : JsArray.t A) (i : nat) (x : JsArray.slot A) :
  (i <= length l)%nat ->
  snd (JsArray.splice l (Z.of_nat i) 0 [x])
  = (firstn i l ++ x :: skipn i l)%list.
Proof.
  intros Hi. unfold JsArray.splice, JsArray.spliceStart.
  replace (Z.of_nat i <? 0)%Z with false by (symmetry; apply Z.ltb_ge; lia).
  rewrite Nat2Z.id. replace (Nat.min i (length l)) with i by lia.
  cbn [Nat.min snd app]. rewrite Nat.add_0_r. reflexivity.
Qed.

Lemma without_put_back (i : nat) (l : JsArray.t A) (x : JsArray.slot A) :
  (i <= length l)%nat ->
  JsArray.without i (firstn i l ++ x :: skipn i l)%list = l.
Proof.
  intros Hi. unfold JsArray.without.
  assert (Hlen : length (firstn i l) = i) by (rewrite length_firstn; lia).
  rewrite firstn_app, Hlen, Nat.sub_diag, firstn_O, app_nil_r.
  rewrite firstn_all2 by lia.
  rewrite skipn_app, Hlen, skipn_all2 by lia.
  replace (S i - i)%nat with 1%nat by lia. cbn [skipn app].
  apply firstn_skipn.
Qed.

Lemma nth_error_put (i : nat) (l : JsArray.t A) (x : JsArray.slot A) :
  (i <= length l)%nat ->
  nth_error (firstn i l ++ x :: skipn i l)%list i = Some x.
Proof.
  intros Hi.
  assert (Hlen : length (firstn i l) = i) by (rewrite length_firstn; lia).
  rewrite nth_error_app2 by lia. rewrite Hlen, Nat.sub_diag. reflexivity.
Qed.

(** [filter] on the index keeps the array but for the index left out, when
    the array has no holes. *)
Lemma filterFrom_dense (index start : Z) (l : JsArray.t A) :
  Forall (fun x => x <> JsArray.Hole) l ->
  JsArray.filterFrom (fun i => negb (i =? index)%Z) start l
  = if ((start <=? index) && (index <? start + Z.of_nat (length l)))%Z
    then JsArray.without (Z.to_nat (index - start)) l
    else l.
Proof.
  intros Hd. revert start. induction Hd as [|x l Hx _ IH]; intros start.
  - cbn [JsArray.filterFrom length]. destruct (_ && _); [|reflexivity].
    unfold JsArray.without. rewrite firstn_nil, skipn_nil. reflexivity.
  - assert (Hstep : JsArray.filterFrom (fun i => negb (i =? index)%Z) start (x :: l)
                    = if negb (start =? index)%Z
                      then x :: JsArray.filterFrom (fun i => negb (i =? index)%Z)
                                  (start + 1) l
                      else JsArray.filterFrom (fun i => negb (i =? index)%Z)
                             (start + 1) l).
    { destruct x; [congruence|reflexivity|reflexivity]. }
    rewrite Hstep, IH. cbn [length]. clear Hstep IH.
    destruct (start =? index)%Z eqn:E; cbn [negb].
    + apply Z.eqb_eq in E. subst index.
      replace ((start + 1 <=? start) && (start <? start + 1 + Z.of_nat (length l)))%Z
        with false by (symmetry; apply andb_false_iff; left; apply Z.leb_gt; lia).
      replace ((start <=? start) && (start <? start + Z.of_nat (S (length l))))%Z
        with true
        by (symmetry; apply andb_true_iff; split;
            [apply Z.leb_le|apply Z.ltb_lt]; lia).
      rewrite Z.sub_diag. reflexivity.
    + apply Z.eqb_neq in E.
      destruct ((start + 1 <=? index) && (index <? start + 1 + Z.of_nat (length l)))%Z
        eqn:Ein.
      * apply andb_true_iff in Ein. destruct Ein as [E1 E2].
        apply Z.leb_le in E1. apply Z.ltb_lt in E2.
        replace ((start <=? index) && (index <? start + Z.of_nat (S (length l))))%Z
          with true
          by (symmetry; apply andb_true_iff; split;
              [apply Z.leb_le|apply Z.ltb_lt]; lia).
        replace (Z.to_nat (index - start)) with (S (Z.to_nat (index - (start + 1))))
          by lia.
        reflexivity.
      * replace ((start <=? index) && (index <? start + Z.of_nat (S (length l))))%Z
          with false; [reflexivity|].
        symmetry. apply andb_false_iff. apply andb_false_iff in Ein.
        destruct Ein as [Ein|Ein]; [left; apply Z.leb_gt in Ein; apply Z.leb_gt
                                   |right; apply Z.ltb_ge in Ein; apply Z.ltb_ge];
          lia.
Qed.

Lemma filterFrom_incl (keep : Z -> bool) (start : Z) (l : JsArray.t A)
    (x : JsArray.slot A) :
  In x (JsArray.filterFrom keep start l) -> In x l.
Proof.
  revert start. induction l as [|y l IH]; intros start; cbn [JsArray.filterFrom];
    [tauto|].
  destruct y; [|destruct (keep start)|destruct (keep start)]; cbn [In];
    intros H; try (destruct H as [H|H]; [left; exact H|]); right;
    exact (IH _ H).
Qed.

(** Writing inside the array replaces one element. *)
Lemma assign_inside (l : JsArray.t A) (i : nat) (v : JsArray.slot A) :
  (i < length l)%nat ->
  JsArray.assign l (Z.of_nat i) v = (firstn i l ++ v :: skipn (S i) l)%list.
Proof.
  intros Hi. unfold JsArray.assign.
  replace (Z.of_nat i <? 0)%Z with false by (symmetry; apply Z.ltb_ge; lia).
  rewrite Nat2Z.id.
  replace (i <? length l)%nat with true by (symmetry; apply Nat.ltb_lt; lia).
  reflexivity.
Qed.

End ArrayFacts.

Section HandlerFacts.
Context {R : Runtime}.

Import JsArray.

(** A handler that sets the tasks and clears the schedule. *)
Lemma after_setTasks (s : TaskPlanner.State) (v : JsArray.t Task)
    (more : list TaskPlanner.Call) :
  (more = [] \/ more = [TaskPlanner.setError None]) ->
  let s' := TaskPlanner.after s
              (TaskPlanner.setTasks v :: TaskPlanner.clearSchedule s ++ more)%list in
  TaskPlanner.tasks s' = v /\ TaskPlanner.schedule s' = [] /\
  TaskPlanner.editingIndex s' = TaskPlanner.editingIndex s /\
  TaskPlanner.editValue s' = TaskPlanner.editValue s /\
  TaskPlanner.retryCount s' = TaskPlanner.retryCount s /\
  TaskPlanner.error s' = match more with
                         | [] => TaskPlanner.error s
                         | _ => None
                         end.
Proof.
  intros Hmore. unfold TaskPlanner.clearSchedule.
  destruct (0 <? length (TaskPlanner.schedule s))%nat eqn:E.
  - destruct Hmore as [-> | ->]; cbn; auto 10.
  - apply Nat.ltb_ge in E.
    assert (Hs : TaskPlanner.schedule s = [])
      by (destruct (TaskPlanner.schedule s); [reflexivity|cbn in E; lia]).
    destruct Hmore as [-> | ->]; cbn; auto 10.
Qed.

Lemma handleDragEnd_moves (s : TaskPlanner.State) (from to : nat) :
  (from < length (TaskPlanner.tasks s))%nat ->
  (to < length (TaskPlanner.tasks s))%nat ->
  exists x,
    nth_error (spread (TaskPlanner.tasks s)) from = Some x /\
    TaskPlanner.handleDragEnd s
      {| TaskPlanner.source := Z.of_nat from;
         TaskPlanner.destination := Some (Z.of_nat to) |}
    = (TaskPlanner.setTasks
         (firstn to (without from (spread (TaskPlanner.tasks s)))
          ++ x :: skipn to (without from (spread (TaskPlanner.tasks s))))
       :: TaskPlanner.clearSchedule s)%list.
Proof.
  intros Hfrom Hto. set (items := spread (TaskPlanner.tasks s)).
  assert (Hlen : length items = length (TaskPlanner.tasks s))
    by apply spread_length.
  destruct (nth_error items from) as [x|] eqn:Hx;
    [|apply nth_error_None in Hx; lia].
  exists x. split; [reflexivity|].
  unfold TaskPlanner.handleDragEnd.
  cbn [TaskPlanner.destination TaskPlanner.source]. fold items.
  rewrite (splice_out items from x Hx). cbn [first].
  assert (Hv : value x = x).
  { apply nth_error_In in Hx. unfold items, spread in Hx.
    apply in_map_iff in Hx. destruct Hx as (y & <- & _). apply value_value. }
  rewrite Hv.
  pose proof (splice_in (without from items) to x) as Hin.
  destruct (splice (without from items) (Z.of_nat to) 0 [x]) as [gone items2].
  cbn [snd] in Hin. rewrite Hin; [reflexivity|].
  pose proof (without_length from items). lia.
Qed.

End HandlerFacts.

Section HandlerClaims.
Context {R : Runtime}.

Import JsArray.

(** X14: a drag that ends on the list moves one task and nothing else.
    The task dragged arrives at the row it was dropped on, the other tasks
    keep their order, no task is lost or doubled; the schedule on display
    is cleared, the error and the edit in progress are left alone, and
    nothing is sent.  A drag that ends nowhere does nothing. *)
Theorem X14_drag_moves_one_task (s : TaskPlanner.State) (from to : nat) :
  (from < length (TaskPlanner.tasks s))%nat ->
  (to < length (TaskPlanner.tasks s))%nat ->
  let calls := TaskPlanner.handleDragEnd s
                 {| TaskPlanner.source := Z.of_nat from;
                    TaskPlanner.destination := Some (Z.of_nat to) |} in
  let s' := TaskPlanner.after s calls in
  Permutation (spread (TaskPlanner.tasks s)) (TaskPlanner.tasks s')
  /\ nth_error (TaskPlanner.tasks s') to
     = nth_error (spread (TaskPlanner.tasks s)) from
  /\ without to (TaskPlanner.tasks s')
     = without from (spread (TaskPlanner.tasks s))
  /\ (from = to -> TaskPlanner.tasks s' = spread (TaskPlanner.tasks s))
  /\ TaskPlanner.schedule s' = []
  /\ TaskPlanner.editingIndex s' = TaskPlanner.editingIndex s
  /\ TaskPlanner.editValue s' = TaskPlanner.editValue s
  /\ TaskPlanner.error s' = TaskPlanner.error s
  /\ TaskPlanner.retryCount s' = TaskPlanner.retryCount s
  /\ (forall variables, ~ In (TaskPlanner.mutate variables) calls)
  /\ TaskPlanner.handleDragEnd s
       {| TaskPlanner.source := Z.of_nat from;
          TaskPlanner.destination := None |} = [].
Proof.
  intros Hfrom Hto calls s'.
  destruct (handleDragEnd_moves s from to Hfrom Hto) as (x & Hx & Hcalls).
  set (items := spread (TaskPlanner.tasks s)) in *.
  assert (Hlen : length items = length (TaskPlanner.tasks s))
    by apply spread_length.
  pose proof (without_length from items ltac:(lia)) as Hlen1.
  set (rest := without from items) in *.
  assert (Hto1 : (to <= length rest)%nat) by lia.
  pose proof (after_setTasks s (firstn to rest ++ x :: skipn to rest)%list []
                (or_introl eq_refl)) as Hafter.
  rewrite app_nil_r in Hafter. cbv zeta in Hafter.
  fold calls in Hcalls. rewrite <- Hcalls in Hafter. fold s' in Hafter.
  destruct Hafter as (Ht & Hs & He & Hv & Hr & Herr).
  rewrite Ht. repeat split; try assumption.
  - rewrite (split_at from items x Hx).
    apply Permutation_trans with (x :: rest).
    + symmetry. apply Permutation_middle.
    + rewrite <- (firstn_skipn to rest) at 1. apply Permutation_middle.
  - rewrite Hx. apply nth_error_put. exact Hto1.
  - apply without_put_back. exact Hto1.
  - intros <-. unfold rest, without.
    assert (Hf : length (firstn from items) = from)
      by (rewrite length_firstn; lia).
    rewrite firstn_app, Hf, Nat.sub_diag, firstn_O, app_nil_r.
    rewrite firstn_firstn, Nat.min_id.
    rewrite skipn_app, Hf, Nat.sub_diag, skipn_all2 by lia.
    cbn [skipn app]. symmetry. apply (split_at from items x Hx).
  - intros variables Hin. rewrite Hcalls in Hin.
    destruct Hin as [Hin|Hin]; [discriminate|].
    unfold TaskPlanner.clearSchedule in Hin.
    destruct (0 <? _)%nat; [destruct Hin as [Hin|[]]; discriminate|contradiction].
Qed.

(** X15: removing a row takes out the task of that row and keeps the
    others in their order, when the array has no holes; an index that is no
    row of it leaves the tasks as they are.  In both cases the schedule on
    display and the error are cleared, and the edit in progress, the index
    it is tied to included, stays as it is. *)
Theorem X15_remove_takes_one_task (s : TaskPlanner.State) (index : Z) :
  Forall (fun x => x <> Hole) (TaskPlanner.tasks s) ->
  let s' := TaskPlanner.after s (TaskPlanner.handleRemove s index) in
  ((0 <= index < Z.of_nat (length (TaskPlanner.tasks s)))%Z ->
   TaskPlanner.tasks s' = without (Z.to_nat index) (TaskPlanner.tasks s)
   /\ S (length (TaskPlanner.tasks s')) = length (TaskPlanner.tasks s))
  /\ (~ (0 <= index < Z.of_nat (length (TaskPlanner.tasks s)))%Z ->
      TaskPlanner.tasks s' = TaskPlanner.tasks s)
  /\ TaskPlanner.schedule s' = []
  /\ TaskPlanner.error s' = None
  /\ TaskPlanner.editingIndex s' = TaskPlanner.editingIndex s
  /\ TaskPlanner.editValue s' = TaskPlanner.editValue s
  /\ TaskPlanner.retryCount s' = TaskPlanner.retryCount s.
Proof.
  intros Hdense s'.
  pose proof (after_setTasks s
                (filterIndex (fun i => negb (i =? index)%Z) (TaskPlanner.tasks s))
                [TaskPlanner.setError None] (or_intror eq_refl)) as Hafter.
  cbv zeta in Hafter. fold (TaskPlanner.handleRemove s index) in Hafter.
  fold s' in Hafter. destruct Hafter as (Ht & Hs & He & Hv & Hr & Herr).
  rewrite Ht. unfold filterIndex.
  rewrite (filterFrom_dense index 0 (TaskPlanner.tasks s) Hdense).
  rewrite Z.sub_0_r, Z.add_0_l.
  split; [|split; [|auto 10]].
  - intros [H0 Hn].
    replace ((0 <=? index) && (index <? Z.of_nat (length (TaskPlanner.tasks s))))%Z
      with true
      by (symmetry; apply andb_true_iff; split;
          [apply Z.leb_le|apply Z.ltb_lt]; lia).
    split; [reflexivity|]. apply without_length. lia.
  - intros Hout.
    destruct ((0 <=? index) && (index <? Z.of_nat (length (TaskPlanner.tasks s))))%Z
      eqn:E; [|reflexivity].
    apply andb_true_iff in E. destruct E as [E1 E2].
    apply Z.leb_le in E1. apply Z.ltb_lt in E2. lia.
Qed.

(** X16: saving an edit.  A text that is blank is refused: the error is
    set and nothing else changes, the row stays in edit mode.  Any other
    text replaces the description of the row, as typed, blanks around it
    included; the other tasks and the length of the list stay, the edit is
    closed and the error cleared.  The schedule on display is left as it
    is, though it was made for the old description. *)
Theorem X16_save_edit (s : TaskPlanner.State) (index : nat) :
  (index < length (TaskPlanner.tasks s))%nat ->
  let s' := TaskPlanner.after s (TaskPlanner.handleSaveEdit s (Z.of_nat index)) in
  (Str.trim (TaskPlanner.editValue s) = EmptyString ->
   s' = TaskPlanner.after s
          [TaskPlanner.setError (Some "Task description cannot be empty")]
   /\ TaskPlanner.tasks s' = TaskPlanner.tasks s
   /\ TaskPlanner.editingIndex s' = TaskPlanner.editingIndex s
   /\ TaskPlanner.editValue s' = TaskPlanner.editValue s)
  /\ (Str.trim (TaskPlanner.editValue s) <> EmptyString ->
      TaskPlanner.tasks s'
      = (firstn index (spread (TaskPlanner.tasks s))
         ++ Item {| description := TaskPlanner.editValue s |}
         :: skipn (S index) (spread (TaskPlanner.tasks s)))%list
      /\ length (TaskPlanner.tasks s') = length (TaskPlanner.tasks s)
      /\ TaskPlanner.schedule s' = TaskPlanner.schedule s
      /\ TaskPlanner.editingIndex s' = None
      /\ TaskPlanner.editValue s' = EmptyString
      /\ TaskPlanner.error s' = None
      /\ TaskPlanner.retryCount s' = TaskPlanner.retryCount s).
Proof.
  intros Hi s'. subst s'. unfold TaskPlanner.handleSaveEdit. split.
  - intros ->. cbn. auto.
  - intros Hne.
    replace (Str.isEmpty (Str.trim (TaskPlanner.editValue s))) with false
      by (destruct (Str.trim (TaskPlanner.editValue s));
          [contradiction Hne; reflexivity|reflexivity]).
    cbn [TaskPlanner.after fold_left TaskPlanner.update TaskPlanner.tasks
         TaskPlanner.schedule TaskPlanner.editingIndex TaskPlanner.editValue
         TaskPlanner.error TaskPlanner.retryCount].
    rewrite assign_inside by (rewrite spread_length; exact Hi).
    repeat split.
    rewrite length_app, length_firstn. cbn [length]. rewrite length_skipn.
    rewrite spread_length. lia.
Qed.

End HandlerClaims.

(** The first of three rows is dropped on the third. *)
Lemma X14_drag_moves_one_task_witness :
  nth_error
    (TaskPlanner.tasks
       (TaskPlanner.after Sessions.editingSecond
          (TaskPlanner.handleDragEnd Sessions.editingSecond
             {| TaskPlanner.source := 0; TaskPlanner.destination := Some 2%Z |})))
    2
  = Some (JsArray.Item {| description := "write the report" |}).
Proof.
  exact (proj1 (proj2 (X14_drag_moves_one_task Sessions.editingSecond 0 2
                         ltac:(cbn; lia) ltac:(cbn; lia)))).
Defined.

(** The first of three rows is removed. *)
Lemma X15_remove_takes_one_task_witness :
  TaskPlanner.tasks
    (TaskPlanner.after Sessions.editingSecond
       (TaskPlanner.handleRemove Sessions.editingSecond 0))
  = [ JsArray.Item {| description := "call Ana" |};
      JsArray.Item {| description := "buy bread" |} ].
Proof.
  exact (proj1 (proj1 (X15_remove_takes_one_task Sessions.editingSecond 0
                         ltac:(repeat constructor; discriminate))
                  ltac:(cbn; lia))).
Defined.

(** The edit of the second row is saved. *)
Lemma X16_save_edit_witness :
  TaskPlanner.tasks
    (TaskPlanner.after Sessions.editingSecond
       (TaskPlanner.handleSaveEdit Sessions.editingSecond 1))
  = [ JsArray.Item {| description := "write the report" |};
      JsArray.Item {| description := "call Ben" |};
      JsArray.Item {| description := "buy bread" |} ].
Proof.
  exact (proj1 (proj2 (X16_save_edit Sessions.editingSecond 1 ltac:(cbn; lia))
                  ltac:(cbv; discriminate))).
Defined.

Section SessionFacts.
Context {R : Runtime}.

Import JsArray.

Lemma nth_error_firstn_lt (i k : nat) (l : JsArray.t Task) :
  (k < i)%nat -> nth_error (firstn i l) k = nth_error l k.
Proof.
  intros H. rewrite nth_error_firstn. apply Nat.ltb_lt in H. rewrite H.
  reflexivity.
Qed.

Lemma nth_error_without (i k : nat) (l : JsArray.t Task) :
  nth_error (without i l) k
  = if (k <? i)%nat then nth_error l k else nth_error l (S k).
Proof.
  unfold without. destruct (k <? i)%nat eqn:E.
  - apply Nat.ltb_lt in E. destruct (Nat.lt_ge_cases k (length l)) as [Hk|Hk].
    + rewrite nth_error_app1 by (rewrite length_firstn; lia).
      apply nth_error_firstn_lt. exact E.
    + rewrite (proj2 (nth_error_None l k) Hk). apply nth_error_None.
      rewrite length_app, length_firstn, length_skipn. lia.
  - apply Nat.ltb_ge in E. destruct (Nat.lt_ge_cases i (length l)) as [Hi|Hi].
    + rewrite nth_error_app2 by (rewrite length_firstn; lia).
      rewrite length_firstn. replace (Nat.min i (length l)) with i by lia.
      rewrite nth_error_skipn. f_equal. lia.
    + rewrite (proj2 (nth_error_None l (S k))) by lia. apply nth_error_None.
      rewrite length_app, length_firstn, length_skipn. lia.
Qed.

Lemma row_spec (s : TaskPlanner.State) (index : Z) :
  TaskPlanner.row s index = true ->
  exists (i : nat) (x : JsArray.slot Task),
    index = Z.of_nat i /\ nth_error (TaskPlanner.tasks s) i = Some x /\
    x <> Hole /\ (i < length (TaskPlanner.tasks s))%nat.
Proof.
  unfold TaskPlanner.row. intros H. apply andb_true_iff in H.
  destruct H as [H0 Hrow]. apply Z.leb_le in H0.
  destruct (nth_error (TaskPlanner.tasks s) (Z.to_nat index)) as [x|] eqn:Hx;
    [|discriminate].
  exists (Z.to_nat index), x. split; [lia|]. split; [exact Hx|].
  split; [intros ->; discriminate|]. apply nth_error_Some. congruence.
Qed.

Lemma row_dense (s : TaskPlanner.State) (i : nat) :
  Forall (fun x => x <> Hole) (TaskPlanner.tasks s) ->
  (i < length (TaskPlanner.tasks s))%nat ->
  TaskPlanner.row s (Z.of_nat i) = true.
Proof.
  intros Hd Hi. unfold TaskPlanner.row. rewrite Nat2Z.id.
  replace (0 <=? Z.of_nat i)%Z with true by (symmetry; apply Z.leb_le; lia).
  destruct (nth_error (TaskPlanner.tasks s) i) as [x|] eqn:Hx;
    [|apply nth_error_None in Hx; lia].
  apply nth_error_In in Hx. rewrite Forall_forall in Hd. specialize (Hd x Hx).
  destruct x; [contradiction Hd; reflexivity|reflexivity|reflexivity].
Qed.

Lemma wellFormed_dense (s : TaskPlanner.State) :
  TaskPlanner.wellFormed s -> Forall (fun x => x <> Hole) (TaskPlanner.tasks s).
Proof.
  intros [H _]. eapply Forall_impl; [|exact H]. cbv beta.
  intros x (task & -> & _). discriminate.
Qed.

(** What a handler calls apart from the setters of the edit and the
    error. *)
Lemma handleDragEnd_calls (s : TaskPlanner.State) (result : TaskPlanner.DropResult) :
  TaskPlanner.handleDragEnd s result = []
  \/ exists v, TaskPlanner.handleDragEnd s result
               = (TaskPlanner.setTasks v :: TaskPlanner.clearSchedule s)%list.
Proof.
  unfold TaskPlanner.handleDragEnd.
  destruct (TaskPlanner.destination result); [|left; reflexivity].
  destruct (splice _ _ 1 []) as [removed items1].
  destruct (splice items1 _ 0 _) as [gone items2].
  right. eexists. reflexivity.
Qed.

Lemma clearSchedule_calls (s : TaskPlanner.State) (c : TaskPlanner.Call) :
  In c (TaskPlanner.clearSchedule s) -> c = TaskPlanner.setSchedule [].
Proof.
  unfold TaskPlanner.clearSchedule. destruct (0 <? _)%nat; [|contradiction].
  intros [<-|[]]. reflexivity.
Qed.

(** Only the button of lines 276-294 and Retry send the tasks, and they
    send the tasks of the render. *)
Lemma handle_mutate (s : TaskPlanner.State) (a : TaskPlanner.Action)
    (variables : JsArray.t Task) :
  In (TaskPlanner.mutate variables) (TaskPlanner.handle s a) ->
  variables = TaskPlanner.tasks s
  /\ (a = TaskPlanner.ClickPlan \/ a = TaskPlanner.ClickRetry).
Proof.
  destruct a as [value|result|index|index|index|index value|index| | |data|error];
    cbn [TaskPlanner.handle].
  - unfold TaskPlanner.onSubmit. destruct (negb _); cbn [In]; intros H;
      repeat (destruct H as [H|H]; [discriminate|]); contradiction.
  - destruct (handleDragEnd_calls s result) as [-> | [v ->]]; [contradiction|].
    intros [H|H]; [discriminate|]. apply clearSchedule_calls in H. discriminate.
  - unfold TaskPlanner.handleEdit.
    destruct (get (TaskPlanner.tasks s) index); cbn [fst In]; intros H;
      repeat (destruct H as [H|H]; [discriminate|]); contradiction.
  - unfold TaskPlanner.handleSaveEdit. destruct (Str.isEmpty _); cbn [In];
      intros H; repeat (destruct H as [H|H]; [discriminate|]); contradiction.
  - intros [H|[]]. discriminate.
  - intros [H|[]]. discriminate.
  - unfold TaskPlanner.handleRemove. intros [H|H]; [discriminate|].
    apply in_app_or in H. destruct H as [H|[H|[]]]; [|discriminate].
    apply clearSchedule_calls in H. discriminate.
  - intros [H|[H|[]]]; [discriminate|]. injection H as ->. auto.
  - unfold TaskPlanner.handleRetry. destruct (_ <? _)%Z.
    + intros [H|[H|[]]]; [discriminate|]. injection H as ->. auto.
    + intros [H|[]]. discriminate.
  - intros H. repeat (destruct H as [H|H]; [discriminate|]). contradiction.
  - unfold TaskPlanner.onError. destruct error; intros [H|[]]; discriminate.
Qed.

Lemma trim_nonempty (s : string) :
  Str.isEmpty (Str.trim s) = false -> s <> EmptyString.
Proof. intros H ->. discriminate. Qed.

(** Every handler keeps the tasks well formed. *)
Lemma wellFormed_step (s : TaskPlanner.State) (a : TaskPlanner.Action) :
  TaskPlanner.wellFormed s -> TaskPlanner.offered s a = true ->
  TaskPlanner.wellFormed (TaskPlanner.after s (TaskPlanner.handle s a)).
Proof.
  intros Hwf Hoff. pose proof (wellFormed_dense s Hwf) as Hdense.
  destruct Hwf as [Htasks Hcount]. unfold TaskPlanner.MAX_RETRIES in Hcount.
  unfold TaskPlanner.wellFormed, TaskPlanner.MAX_RETRIES.
  rewrite Forall_forall in Htasks.
  destruct a as [value|result|index|index|index|index value|index| | |data|error];
    cbn [TaskPlanner.handle TaskPlanner.offered] in *.
  - unfold TaskPlanner.onSubmit. destruct (Str.isEmpty value) eqn:Ev; cbn.
    + split; [apply Forall_forall; exact Htasks|exact Hcount].
    + split; [|exact Hcount]. rewrite (spread_dense _ Hdense).
      apply Forall_app. split; [apply Forall_forall; exact Htasks|].
      constructor; [|constructor]. eexists. split; [reflexivity|].
      cbn. intros ->. discriminate.
  - apply andb_true_iff in Hoff. destruct Hoff as [Hsrc Hdst].
    destruct result as [src [dst|]]; cbn [TaskPlanner.source TaskPlanner.destination] in *.
    2:{ cbn. split; [apply Forall_forall; exact Htasks|exact Hcount]. }
    apply row_spec in Hsrc, Hdst.
    destruct Hsrc as (from & x & -> & _ & _ & Hfrom).
    destruct Hdst as (to & y & -> & _ & _ & Hto).
    destruct (handleDragEnd_moves s from to Hfrom Hto) as (z & Hz & ->).
    rewrite (spread_dense _ Hdense) in *.
    pose proof (after_setTasks s
                  (firstn to (without from (TaskPlanner.tasks s))
                   ++ z :: skipn to (without from (TaskPlanner.tasks s)))%list
                  [] (or_introl eq_refl)) as Hafter.
    rewrite app_nil_r in Hafter. cbv zeta in Hafter.
    destruct Hafter as (-> & _ & _ & _ & -> & _). split; [|exact Hcount].
    apply Forall_forall. intros u Hu. apply Htasks.
    apply in_app_or in Hu.
    destruct Hu as [Hu|[<-|Hu]].
    + exact (in_without _ _ _ (in_firstn _ _ _ Hu)).
    + exact (nth_error_In _ _ Hz).
    + exact (in_without _ _ _ (in_skipn _ _ _ Hu)).
  - unfold TaskPlanner.handleEdit.
    destruct (get (TaskPlanner.tasks s) index); cbn;
      (split; [apply Forall_forall; exact Htasks|exact Hcount]).
  - apply andb_true_iff in Hoff. destruct Hoff as [Hrow _].
    apply row_spec in Hrow. destruct Hrow as (i & x & -> & _ & _ & Hi).
    unfold TaskPlanner.handleSaveEdit.
    destruct (Str.isEmpty (Str.trim (TaskPlanner.editValue s))) eqn:Eb; cbn.
    + split; [apply Forall_forall; exact Htasks|exact Hcount].
    + split; [|exact Hcount].
      rewrite (spread_dense _ Hdense), assign_inside by exact Hi.
      apply Forall_forall. intros u Hu. apply in_app_or in Hu.
      destruct Hu as [Hu|[<-|Hu]].
      * apply Htasks. exact (in_firstn _ _ _ Hu).
      * eexists. split; [reflexivity|]. cbn. apply trim_nonempty. exact Eb.
      * apply Htasks. exact (in_skipn _ _ _ Hu).
  - cbn. split; [apply Forall_forall; exact Htasks|exact Hcount].
  - cbn. split; [apply Forall_forall; exact Htasks|exact Hcount].
  - pose proof (after_setTasks s
                  (filterIndex (fun i => negb (i =? index)%Z) (TaskPlanner.tasks s))
                  [TaskPlanner.setError None] (or_intror eq_refl)) as Hafter.
    cbv zeta in Hafter. fold (TaskPlanner.handleRemove s index) in Hafter.
    destruct Hafter as (-> & _ & _ & _ & -> & _). split; [|exact Hcount].
    apply Forall_forall. intros u Hu. apply Htasks.
    exact (filterFrom_incl _ _ _ _ Hu).
  - cbn. split; [apply Forall_forall; exact Htasks|lia].
  - apply andb_true_iff in Hoff. destruct Hoff as [_ Hlt].
    unfold TaskPlanner.handleRetry. rewrite Hlt. cbn.
    unfold TaskPlanner.MAX_RETRIES in Hlt. apply Z.ltb_lt in Hlt.
    split; [apply Forall_forall; exact Htasks|lia].
  - cbn. split; [apply Forall_forall; exact Htasks|lia].
  - unfold TaskPlanner.onError. destruct error; cbn;
      (split; [apply Forall_forall; exact Htasks|exact Hcount]).
Qed.

Lemma session_wellFormed (s0 s : TaskPlanner.State) (done : list TaskPlanner.Action) :
  TaskPlanner.session s0 done s -> TaskPlanner.wellFormed s0 ->
  TaskPlanner.wellFormed s.
Proof.
  induction 1 as [|s done a _ IH Hoff]; intros Hwf; [exact Hwf|].
  apply wellFormed_step; [exact (IH Hwf)|exact Hoff].
Qed.

Lemma initial_wellFormed : TaskPlanner.wellFormed TaskPlanner.initial.
Proof. split; [constructor|cbn; unfold TaskPlanner.MAX_RETRIES; lia]. Qed.

Lemma tasksOf_wellFormed (l : JsArray.t Task) :
  Forall (fun x => exists task, x = Item task
                                /\ description task <> EmptyString) l ->
  exists tasks, TaskPlanner.tasksOf l = Some tasks
                /\ l = map Item tasks
                /\ Forall (fun task => description task <> EmptyString) tasks.
Proof.
  induction 1 as [|x l (task & -> & Hd) _ (tasks & Ht & Hl & Hall)].
  - exists []. repeat split. constructor.
  - exists (task :: tasks). cbn [TaskPlanner.tasksOf map]. rewrite Ht, <- Hl.
    repeat split. constructor; assumption.
Qed.

End SessionFacts.

Section SessionClaims.
Context {R : Runtime}.

Import JsArray.

(** X17: the edit in progress is tied to a row, not to a task, and
    removing a row leaves it alone.  So when a row above the edited one is
    removed and the edit is then saved, the task that was being edited,
    now one row up, keeps its description and the text typed replaces the
    description of the task that followed it. *)
Theorem X17_edit_is_tied_to_the_row (s : TaskPlanner.State)
    (removed edited : nat) :
  Forall (fun x => x <> Hole) (TaskPlanner.tasks s) ->
  TaskPlanner.editingIndex s = Some (Z.of_nat edited) ->
  (removed < edited)%nat ->
  (S edited < length (TaskPlanner.tasks s))%nat ->
  Str.trim (TaskPlanner.editValue s) <> EmptyString ->
  let s1 := TaskPlanner.after s (TaskPlanner.handleRemove s (Z.of_nat removed)) in
  let s2 := TaskPlanner.after s1
              (TaskPlanner.handleSaveEdit s1 (Z.of_nat edited)) in
  TaskPlanner.offered s (TaskPlanner.ClickRemove (Z.of_nat removed)) = true
  /\ TaskPlanner.offered s1 (TaskPlanner.ClickSave (Z.of_nat edited)) = true
  /\ nth_error (TaskPlanner.tasks s2) (edited - 1)
     = nth_error (TaskPlanner.tasks s) edited
  /\ nth_error (TaskPlanner.tasks s2) edited
     = Some (Item {| description := TaskPlanner.editValue s |})
  /\ (forall k, (edited < k)%nat ->
                nth_error (TaskPlanner.tasks s2) k
                = nth_error (TaskPlanner.tasks s) (S k)).
Proof.
  intros Hdense Hedit Hlt Hlen Hne s1 s2.
  pose proof (after_setTasks s
                (filterIndex (fun i => negb (i =? Z.of_nat removed)%Z)
                   (TaskPlanner.tasks s))
                [TaskPlanner.setError None] (or_intror eq_refl)) as Hafter.
  cbv zeta in Hafter.
  fold (TaskPlanner.handleRemove s (Z.of_nat removed)) in Hafter.
  fold s1 in Hafter. destruct Hafter as (Ht1 & _ & He1 & Hv1 & _).
  unfold filterIndex in Ht1.
  rewrite (filterFrom_dense _ 0 _ Hdense) in Ht1.
  replace ((0 <=? Z.of_nat removed)
           && (Z.of_nat removed <? 0 + Z.of_nat (length (TaskPlanner.tasks s))))%Z
    with true in Ht1
    by (symmetry; apply andb_true_iff; split;
        [apply Z.leb_le|apply Z.ltb_lt]; lia).
  rewrite Z.sub_0_r, Nat2Z.id in Ht1.
  assert (Hdense1 : Forall (fun x => x <> Hole) (TaskPlanner.tasks s1)).
  { rewrite Ht1. apply Forall_forall. intros x Hx.
    rewrite Forall_forall in Hdense. apply Hdense.
    exact (in_without _ _ _ Hx). }
  assert (Hlen1 : S (length (TaskPlanner.tasks s1)) = length (TaskPlanner.tasks s)).
  { rewrite Ht1. apply without_length. lia. }
  assert (Ht2 : TaskPlanner.tasks s2
                = (firstn edited (TaskPlanner.tasks s1)
                   ++ Item {| description := TaskPlanner.editValue s |}
                   :: skipn (S edited) (TaskPlanner.tasks s1))%list).
  { subst s2. unfold TaskPlanner.handleSaveEdit. rewrite Hv1.
    replace (Str.isEmpty (Str.trim (TaskPlanner.editValue s))) with false
      by (destruct (Str.trim (TaskPlanner.editValue s));
          [contradiction Hne; reflexivity|reflexivity]).
    cbn [TaskPlanner.after fold_left TaskPlanner.update TaskPlanner.tasks].
    rewrite (spread_dense _ Hdense1). apply assign_inside. lia. }
  split; [|split; [|split; [|split]]].
  - cbn [TaskPlanner.offered]. rewrite (row_dense s removed Hdense) by lia.
    unfold TaskPlanner.editing. rewrite Hedit.
    replace (Z.of_nat edited =? Z.of_nat removed)%Z with false
      by (symmetry; apply Z.eqb_neq; lia).
    reflexivity.
  - cbn [TaskPlanner.offered]. rewrite (row_dense s1 edited Hdense1) by lia.
    unfold TaskPlanner.editing. rewrite He1, Hedit, Z.eqb_refl. reflexivity.
  - rewrite Ht2, nth_error_app1 by (rewrite length_firstn; lia).
    rewrite nth_error_firstn_lt by lia. rewrite Ht1, nth_error_without.
    replace (edited - 1 <? removed)%nat with false
      by (symmetry; apply Nat.ltb_ge; lia).
    f_equal. lia.
  - rewrite Ht2, nth_error_app2 by (rewrite length_firstn; lia).
    rewrite length_firstn.
    replace (edited - Nat.min edited (length (TaskPlanner.tasks s1)))%nat
      with 0%nat by lia.
    reflexivity.
  - intros k Hk. rewrite Ht2, nth_error_app2 by (rewrite length_firstn; lia).
    rewrite length_firstn.
    replace (k - Nat.min edited (length (TaskPlanner.tasks s1)))%nat
      with (S (k - S edited)) by lia.
    cbn [nth_error]. rewrite nth_error_skipn.
    replace (S edited + (k - S edited))%nat with k by lia.
    rewrite Ht1, nth_error_without.
    replace (k <? removed)%nat with false by (symmetry; apply Nat.ltb_ge; lia).
    reflexivity.
Qed.

(** X18: what the component hands to [planTasks].  In every render of a
    session every slot of the task array holds a task whose description is
    not empty; the tasks are sent by the button of lines 276-294 and by
    Retry only, as the array of that render, so the service gets an array
    without holes or [undefined] entries; and Edit on a row never throws. *)
Theorem X18_tasks_are_well_formed (done : list TaskPlanner.Action)
    (s : TaskPlanner.State) :
  TaskPlanner.session TaskPlanner.initial done s ->
  TaskPlanner.wellFormed s
  /\ (forall a variables,
        TaskPlanner.offered s a = true ->
        In (TaskPlanner.mutate variables) (TaskPlanner.handle s a) ->
        (a = TaskPlanner.ClickPlan \/ a = TaskPlanner.ClickRetry)
        /\ variables = TaskPlanner.tasks s
        /\ exists tasks,
             TaskPlanner.tasksOf variables = Some tasks
             /\ variables = map Item tasks
             /\ Forall (fun task => description task <> EmptyString) tasks)
  /\ (forall index,
        TaskPlanner.offered s (TaskPlanner.ClickEdit index) = true ->
        snd (TaskPlanner.handleEdit s index) = None).
Proof.
  intros Hsession.
  pose proof (session_wellFormed _ _ _ Hsession initial_wellFormed) as Hwf.
  split; [exact Hwf|]. split.
  - intros a variables _ Hin. apply handle_mutate in Hin.
    destruct Hin as [-> Ha]. split; [exact Ha|]. split; [reflexivity|].
    apply tasksOf_wellFormed. exact (proj1 Hwf).
  - intros index Hoff. cbn [TaskPlanner.offered] in Hoff.
    apply andb_true_iff in Hoff. destruct Hoff as [Hrow _].
    apply row_spec in Hrow. destruct Hrow as (i & x & -> & Hx & _ & Hi).
    destruct Hwf as [Htasks _]. rewrite Forall_forall in Htasks.
    destruct (Htasks x (nth_error_In _ _ Hx)) as (task & -> & _).
    unfold TaskPlanner.handleEdit, get.
    replace (Z.of_nat i <? 0)%Z with false by (symmetry; apply Z.ltb_ge; lia).
    rewrite Nat2Z.id, (nth_error_nth _ _ Undefined Hx). reflexivity.
Qed.

(** X19: the retry count is the number of clicks on Retry since the last
    click on the button of lines 276-294 or the last plan that succeeded,
    whatever else happened in between, and it never exceeds
    [MAX_RETRIES]: a plan can be retried three times. *)
Theorem X19_three_retries (done : list TaskPlanner.Action)
    (s : TaskPlanner.State) :
  TaskPlanner.session TaskPlanner.initial done s ->
  TaskPlanner.retryCount s = TaskPlanner.retriesSinceReset done
  /\ (0 <= TaskPlanner.retriesSinceReset done <= TaskPlanner.MAX_RETRIES)%Z
  /\ (TaskPlanner.offered s TaskPlanner.ClickRetry = true ->
      TaskPlanner.handle s TaskPlanner.ClickRetry
      = [ TaskPlanner.setRetryCount (fun prev => (prev + 1)%Z);
          TaskPlanner.mutate (TaskPlanner.tasks s) ]).
Proof.
  intros Hsession.
  assert (Hcount : TaskPlanner.retryCount s = TaskPlanner.retriesSinceReset done).
  { induction Hsession as [|s done a _ IH Hoff]; [reflexivity|].
    unfold TaskPlanner.retriesSinceReset. rewrite fold_left_app.
    fold (TaskPlanner.retriesSinceReset done). rewrite <- IH. cbn [fold_left].
    destruct a as [value|result|index|index|index|index value|index| | |data|error];
      cbn [TaskPlanner.handle TaskPlanner.offered] in *.
    - unfold TaskPlanner.onSubmit. destruct (negb _); reflexivity.
    - destruct (handleDragEnd_calls s result) as [-> | [v ->]]; [reflexivity|].
      pose proof (after_setTasks s v [] (or_introl eq_refl)) as Hafter.
      rewrite app_nil_r in Hafter. cbv zeta in Hafter. tauto.
    - unfold TaskPlanner.handleEdit.
      destruct (get (TaskPlanner.tasks s) index); reflexivity.
    - unfold TaskPlanner.handleSaveEdit. destruct (Str.isEmpty _); reflexivity.
    - reflexivity.
    - reflexivity.
    - pose proof (after_setTasks s
                    (filterIndex (fun i => negb (i =? index)%Z) (TaskPlanner.tasks s))
                    [TaskPlanner.setError None] (or_intror eq_refl)) as Hafter.
      cbv zeta in Hafter. fold (TaskPlanner.handleRemove s index) in Hafter.
      tauto.
    - reflexivity.
    - apply andb_true_iff in Hoff. destruct Hoff as [_ Hlt].
      unfold TaskPlanner.handleRetry. rewrite Hlt. reflexivity.
    - reflexivity.
    - unfold TaskPlanner.onError. destruct error; reflexivity. }
  split; [exact Hcount|]. split.
  - rewrite <- Hcount.
    exact (proj2 (session_wellFormed _ _ _ Hsession initial_wellFormed)).
  - intros Hoff. cbn [TaskPlanner.offered] in Hoff.
    apply andb_true_iff in Hoff. destruct Hoff as [_ Hlt].
    cbn [TaskPlanner.handle]. unfold TaskPlanner.handleRetry. rewrite Hlt.
    reflexivity.
Qed.

End SessionClaims.

Lemma session_run {R : Runtime} (actions : list TaskPlanner.Action) :
  forall (s0 s1 s : TaskPlanner.State) (done : list TaskPlanner.Action),
  TaskPlanner.session s0 done s1 ->
  TaskPlanner.run s1 actions = Some s ->
  TaskPlanner.session s0 (done ++ actions)%list s.
Proof.
  induction actions as [|a rest IH]; intros s0 s1 s done Hdone; cbn [TaskPlanner.run].
  - intros H. injection H as <-. rewrite app_nil_r. exact Hdone.
  - destruct (TaskPlanner.offered s1 a) eqn:Hoff; [|discriminate].
    intros Hrun.
    replace (done ++ a :: rest)%list with ((done ++ [a]) ++ rest)%list
      by (rewrite <- app_assoc; reflexivity).
    apply (IH s0 (TaskPlanner.next s1 a)); [|exact Hrun].
    apply TaskPlanner.session_step; assumption.
Qed.

(** The first row is removed while the second is edited, and the edit is
    saved: "call Ana" stays, and "buy bread" has become "call Ben". *)
Lemma X17_edit_is_tied_to_the_row_witness :
  let s1 := TaskPlanner.after Sessions.editingSecond
              (TaskPlanner.handleRemove Sessions.editingSecond 0) in
  let s2 := TaskPlanner.after s1 (TaskPlanner.handleSaveEdit s1 1) in
  nth_error (TaskPlanner.tasks s2) 0
  = Some (JsArray.Item {| description := "call Ana" |})
  /\ nth_error (TaskPlanner.tasks s2) 1
     = Some (JsArray.Item {| description := "call Ben" |}).
Proof.
  destruct (X17_edit_is_tied_to_the_row Sessions.editingSecond 0 1
              ltac:(repeat constructor; discriminate) eq_refl
              ltac:(lia) ltac:(cbn; lia) ltac:(cbv; discriminate))
    as (_ & _ & Hkept & Hwritten & _).
  split; [exact Hkept|exact Hwritten].
Defined.

(** A task is added and planned; the plan fails and is retried. *)
Lemma X18_tasks_are_well_formed_witness :
  TaskPlanner.wellFormed Sessions.planAndRetryEnd.
Proof.
  exact (proj1 (X18_tasks_are_well_formed Sessions.planAndRetry
                  Sessions.planAndRetryEnd
                  (session_run Sessions.planAndRetry TaskPlanner.initial
                     TaskPlanner.initial Sessions.planAndRetryEnd []
                     (TaskPlanner.session_start _) eq_refl))).
Defined.

Lemma X19_three_retries_witness :
  TaskPlanner.retryCount Sessions.planAndRetryEnd
  = TaskPlanner.retriesSinceReset Sessions.planAndRetry.
Proof.
  exact (proj1 (X19_three_retries Sessions.planAndRetry
                  Sessions.planAndRetryEnd
                  (session_run Sessions.planAndRetry TaskPlanner.initial
                     TaskPlanner.initial Sessions.planAndRetryEnd []
                     (TaskPlanner.session_start _) eq_refl))).
Defined.

(** ** The schedule on the screen *)

Section OverviewFacts.
Context {R : Runtime}.

Lemma separators_spec (n : nat) :
  map (fun k => TaskPlanner.separator (Z.of_nat k) (Z.of_nat n)) (seq 0 n)
  = TaskPlanner.separators n.
Proof.
  destruct n as [|[|k]]; [reflexivity|reflexivity|].
  replace (S (S k)) with (k + 2)%nat by lia.
  rewrite seq_app, map_app. cbn [seq map Nat.add].
  replace (k + 2)%nat with (S (S k)) by lia. cbn [TaskPlanner.separators].
  f_equal.
  - transitivity (map (fun _ : nat => ", followed by ") (seq 0 k));
      [|rewrite map_const, length_seq; reflexivity].
    apply map_ext_in. intros i Hi. apply in_seq in Hi.
    unfold TaskPlanner.separator.
    replace (Z.of_nat i =? Z.of_nat (S (S k)) - 2)%Z with false
      by (symmetry; apply Z.eqb_neq; lia).
    replace (Z.of_nat i =? Z.of_nat (S (S k)) - 1)%Z with false
      by (symmetry; apply Z.eqb_neq; lia).
    reflexivity.
  - unfold TaskPlanner.separator.
    replace (Z.of_nat k =? Z.of_nat (S (S k)) - 2)%Z with true
      by (symmetry; apply Z.eqb_eq; lia).
    replace (Z.of_nat (S k) =? Z.of_nat (S (S k)) - 2)%Z with false
      by (symmetry; apply Z.eqb_neq; lia).
    replace (Z.of_nat (S k) =? Z.of_nat (S (S k)) - 1)%Z with true
      by (symmetry; apply Z.eqb_eq; lia).
    reflexivity.
Qed.

Lemma overviewFrom_strings (length : Z) (items : list ScheduledTask) :
  Forall (fun entry => exists s, reason entry = JString s) items ->
  forall index : nat,
  exists texts,
    TaskPlanner.overviewFrom (Z.of_nat index) length items = Normal texts
    /\ map (fun t => fst (fst t)) texts = map time items
    /\ map (fun t => Normal (snd (fst t))) texts
       = map (fun entry => TaskPlanner.lowerReason (reason entry)) items
    /\ map snd texts
       = map (fun k => TaskPlanner.separator (Z.of_nat k) length)
           (seq index (List.length items)).
Proof.
  induction 1 as [|item items (s & Hs) _ IH]; intros index.
  - exists []. repeat split.
  - destruct (IH (S index)) as (more & Hmore & Ht & Hr & Hsep).
    cbn [TaskPlanner.overviewFrom]. rewrite Hs. cbn [TaskPlanner.lowerReason bindC].
    replace (Z.of_nat index + 1)%Z with (Z.of_nat (S index)) by lia.
    rewrite Hmore. cbn [bindC]. eexists. split; [reflexivity|].
    cbn [map fst snd List.length seq]. rewrite Ht, Hr, Hsep, Hs. repeat split.
Qed.

Lemma overviewFrom_throws (length : Z) (items : list ScheduledTask) :
  ~ Forall (fun entry => exists s, reason entry = JString s) items ->
  forall index : Z,
  exists message,
    TaskPlanner.overviewFrom index length items
    = Throw (OtherError "TypeError" message).
Proof.
  induction items as [|item items IH]; intros Hnot index.
  - contradiction Hnot. constructor.
  - cbn [TaskPlanner.overviewFrom].
    destruct (reason item) as [|b|n|s|l|fields] eqn:Hr;
      cbn [TaskPlanner.lowerReason bindC]; try (eexists; reflexivity).
    destruct (IH ltac:(intros Hall; apply Hnot; constructor;
                       [exists s; exact Hr|exact Hall]) (index + 1)%Z)
      as (message & ->).
    exists message. reflexivity.
Qed.

End OverviewFacts.

Section OverviewClaims.
Context {R : Runtime}.

(** X20: the overview of the schedule needs reasons that are strings, and
    the service does not see to it.  With string reasons the sentence shows
    each time and its reason in lower case, the entries joined by
    ", followed by ", the last two by ", and finally ", with "." at the
    end.  A reason that is no string makes [toLowerCase] throw a TypeError
    in the render; and the service accepts an entry whatever truthy value
    its reason is, and returns that value as it came. *)
Theorem X20_overview_needs_string_reasons :
  (forall schedule : list ScheduledTask,
      Forall (fun entry => exists s, reason entry = JString s) schedule ->
      exists texts,
        TaskPlanner.overview schedule = Normal texts
        /\ map (fun t => fst (fst t)) texts = map time schedule
        /\ map (fun t => Normal (snd (fst t))) texts
           = map (fun entry => TaskPlanner.lowerReason (reason entry)) schedule
        /\ map snd texts = TaskPlanner.separators (length schedule))
  /\ (forall schedule : list ScheduledTask,
        ~ Forall (fun entry => exists s, reason entry = JString s) schedule ->
        exists message,
          TaskPlanner.overview schedule = Throw (OtherError "TypeError" message))
  /\ (forall response fields item value,
        JSON_parse (cleanResponse response) = Some (JObject fields) ->
        lookup "schedule" fields = Some (JArray [item]) ->
        plainEntry item = true ->
        entryValid item = true ->
        fieldOf item "reason" = Some value ->
        (forall s, value <> JString s) ->
        exists entry,
          handleResult (Text response) = (Normal [entry], [])
          /\ reason entry = value
          /\ exists message,
               TaskPlanner.overview [entry]
               = Throw (OtherError "TypeError" message)).
Proof.
  split; [|split].
  - intros schedule Hall.
    destruct (overviewFrom_strings (Z.of_nat (length schedule)) schedule Hall 0)
      as (texts & Hrun & Ht & Hr & Hsep).
    exists texts. split; [exact Hrun|]. split; [exact Ht|]. split; [exact Hr|].
    rewrite Hsep. apply separators_spec.
  - intros schedule Hnot. apply overviewFrom_throws. exact Hnot.
  - intros response fields item value Hparse Hsched Hplain Hvalid Hreason Hnostr.
    pose proof (validateItem_plain item Hplain) as Hitem.
    rewrite Hvalid in Hitem. destruct Hitem as (v & Hv).
    pose proof (validateItem_Normal item v Hv) as (_ & _ & Hr & _).
    rewrite Hreason in Hr. injection Hr as Hr.
    exists (removeSortTime v). split; [|split].
    + rewrite (handleResult_schedule response fields [item] Hparse Hsched).
      cbn [mapC]. rewrite Hv. reflexivity.
    + cbn [removeSortTime reason]. symmetry. exact Hr.
    + apply overviewFrom_throws. intros Hall.
      inversion Hall as [|? ? (s & Hs) _]; subst.
      cbn [removeSortTime reason] in Hs. apply (Hnostr s). congruence.
Qed.

End OverviewClaims.

(** A reply whose entry has the number 5 as its reason is accepted, and
    the overview of the schedule it gives throws. *)
Lemma X20_overview_needs_string_reasons_witness :
  exists entry,
    @handleResult Reference.reference (Text Sessions.replyNumberReason)
    = (Normal [entry], [])
    /\ reason entry = JNumber 5%Z
    /\ exists message,
         TaskPlanner.overview [entry] = Throw (OtherError "TypeError" message).
Proof.
  exact (proj2 (proj2 (@X20_overview_needs_string_reasons Reference.reference))
           Sessions.replyNumberReason
           [("schedule",
             JArray [JObject [("task", JString "A"); ("time", JString "09:00");
                              ("reason", JNumber 5%Z)]])]
           (JObject [("task", JString "A"); ("time", JString "09:00");
                     ("reason", JNumber 5%Z)])
           (JNumber 5%Z)
           eq_refl eq_refl eq_refl eq_refl eq_refl
           ltac:(discriminate)).
Defined.
